(** * dorkerplus: the capture-and-optimize pipeline

    A shallow embedding of the Go sources of the screenshot pipeline:

    - the source file of the root package that defines [Screenshotter]:
      [Capture], [CapturePDF], the [captureWith...] and [capturePDFWith...]
      strategies and the synthetic image generators;
    - [main.go] of the root package: [sanitizeFilename],
      [captureScreenshots], [captureScreenshotsWithPDF], [getFileSize],
      [optimizeImageSize];
    - [dorkergoodnew/main.go]: [compressImage], [createErrorFile] and that
      package's [CapturePDF];
    - [dorkergoodnew/dorker.go]: [fetchContent].

    Go functions that touch the operating system are written in a small
    state monad over [State] (file system, executed commands, time spent
    blocked in [cmd.Run]).  Everything the program cannot decide by itself
    (which executables are on the path, what a tool does and for how long,
    what a server answers, which disk operations fail, how many bytes the
    JPEG encoder emits) is read from a [World].  Messages printed with
    [fmt.Printf] are left out. *)

From Stdlib Require Import ZArith List Lia.
From Stdlib.Strings Require Import Ascii Byte.
From stdpp Require Import base option gmap strings pretty.

Open Scope string_scope.
Open Scope Z_scope.

(** ** Go strings *)

Module GoStrings.

(** [len(s)] *)
Definition len (s : string) : Z := Z.of_nat (String.length s).

(** [s[n:]] *)
Fixpoint sliceFrom (n : nat) (s : string) : string :=
  match n, s with
  | O, _ => s
  | S _, EmptyString => EmptyString
  | S k, String _ t => sliceFrom k t
  end.

(** [s[:n]] *)
Fixpoint sliceTo (n : nat) (s : string) : string :=
  match n, s with
  | O, _ => EmptyString
  | S _, EmptyString => EmptyString
  | S k, String c t => String c (sliceTo k t)
  end.

(** [strings.HasPrefix(s, p)] *)
Definition HasPrefix (s p : string) : bool := String.prefix p s.

(** [strings.Contains(s, sub)] *)
Fixpoint Contains (s sub : string) : bool :=
  if HasPrefix s sub then true
  else match s with
       | EmptyString => false
       | String _ t => Contains t sub
       end.

(** [strings.HasSuffix(s, suf)] *)
Definition HasSuffix (s suf : string) : bool :=
  (String.length suf <=? String.length s)%nat
  && String.eqb (sliceFrom (String.length s - String.length suf) s) suf.

(** [strings.TrimSuffix(s, suf)] *)
Definition TrimSuffix (s suf : string) : string :=
  if HasSuffix s suf
  then sliceTo (String.length s - String.length suf) s
  else s.

(** [strings.Replace(s, old, "", 1)]: the first occurrence of [old] is
    cut out of [s]; nothing happens when [old] does not occur. *)
Fixpoint CutFirst (s old : string) : string :=
  if HasPrefix s old then sliceFrom (String.length old) s
  else match s with
       | EmptyString => EmptyString
       | String c t => String c (CutFirst t old)
       end.

(** [fmt.Sprintf("HTTP %d", n)] *)
Definition Sprintf_HTTP (n : Z) : string := "HTTP " +:+ pretty n.

End GoStrings.
Import GoStrings.

(** ** Files, images and the state of the machine *)

(** [color.RGBA{R, G, B, A}] *)
Record RGBA := mkRGBA { cR : Z; cG : Z; cB : Z; cA : Z }.

(** [image.Rect(x0, y0, x1, y1)] *)
Record Rect := mkRect { x0 : Z; y0 : Z; x1 : Z; y1 : Z }.

(** An [*image.RGBA] of 1024x768 is known by the uniform fills
    ([draw.Draw] with [draw.Src]) applied to it, in program order. *)
Definition Image := list (Rect * RGBA).

(** What a file holds. *)
Inductive Content :=
| JpegData (quality : Z) (img : Image)
    (* written by [jpeg.Encode(file, img, &jpeg.Options{Quality: quality})] *)
| ToolOutput (tool : string) (args : list string)
    (* left behind by the external command [tool args] *)
| BodyBytes (bytes : list byte)
    (* bytes copied from an HTTP response body *)
| TextData (text : string)
    (* written by [os.WriteFile] *)
| Partial.
    (* what a write that met an error left behind *)

Record File := mkFile { f_content : Content; f_size : Z }.

(** One executed [cmd.Run()]. *)
Record Run := mkRun { r_tool : string; r_args : list string }.

Record State := mkState {
  st_fs : gmap string File;   (* path -> file *)
  st_runs : list Run;         (* external commands run so far, oldest first *)
  st_clock : Z                (* seconds spent blocked in [cmd.Run] *)
}.

(** Result of one [cmd.Run()]: its error ([None] is a zero exit status),
    how long the call blocked, and the size of the file the tool left at
    its output path, if it wrote one. *)
Record ToolResult := mkToolResult {
  tr_err : option string;
  tr_elapsed : Z;
  tr_written : option Z
}.

(** [*http.Response] as the program looks at it.  [resp_body] are the
    bytes the body delivers; [resp_body_err] is the error a read meets
    after them ([None]: a clean end of stream). *)
Record Response := mkResponse {
  resp_status : Z;
  resp_content_type : string;        (* Header.Get("Content-Type") *)
  resp_content_length_hdr : string;  (* Header.Get("Content-Length") *)
  resp_ContentLength : Z;            (* resp.ContentLength *)
  resp_body : list byte;
  resp_body_err : option string
}.

Record World := mkWorld {
  lookPath : string -> bool;                     (* exec.LookPath(name) returns no error *)
  runTool : string -> list string -> ToolResult; (* exec.Command(name, args...).Run() *)
  newRequestErr : string -> option string;       (* error of http.NewRequest("GET", url, nil) *)
  clientDo : Z -> string -> string + Response;   (* (&http.Client{Timeout: t s}).Do: error or response *)
  mkdirErr : string -> option string;            (* error of os.MkdirAll(dir, 0755) *)
  createErr : string -> option string;           (* error of os.Create(path) *)
  writeErr : string -> option (string * Z);      (* error met while writing the file created at
                                                    path, with the bytes written before it *)
  jpegSize : Z -> Image -> Z                     (* bytes emitted by jpeg.Encode at a quality *)
}.

(** Go's [error]: [None] is [nil]. *)
Abbreviation error := (option string).

(** The monad of the effectful functions. *)
Definition M (A : Type) : Type := State -> A * State.

Definition ret {A} (a : A) : M A := fun st => (a, st).
Definition bind {A B} (m : M A) (k : A -> M B) : M B :=
  fun st => let '(a, st1) := m st in k a st1.

Notation "x <- c1 ;; c2" := (bind c1 (fun x => c2))
  (at level 20, c1 at level 99, c2 at level 200, only parsing).
Notation "c1 ;; c2" := (bind c1 (fun _ => c2))
  (at level 100, c2 at level 200, only parsing).

(** [fmt.Errorf(prefix + ": %w", err)] *)
Definition Errorf (prefix : string) (err : string) : string := prefix +:+ ": " +:+ err.

Module OS.

(** [os.Stat(path)] followed by [info.Size()]; [None] when the file is
    not there. *)
Definition Stat (path : string) : M (option Z) :=
  fun st => (f_size <$> st_fs st !! path, st).

(** [os.Remove(path)]; every caller drops the error. *)
Definition Remove (path : string) : M unit :=
  fun st => (tt, mkState (delete path (st_fs st)) (st_runs st) (st_clock st)).

(** [os.Rename(src, dst)]: fails when [src] is missing, else replaces [dst]. *)
Definition Rename (src dst : string) : M error :=
  fun st =>
    match st_fs st !! src with
    | None => (Some "no such file or directory", st)
    | Some f =>
        (None, mkState (<[dst := f]> (delete src (st_fs st))) (st_runs st) (st_clock st))
    end.

(** Writing a whole file at [path] (after a successful [os.Create]). *)
Definition Put (path : string) (f : File) : M unit :=
  fun st => (tt, mkState (<[path := f]> (st_fs st)) (st_runs st) (st_clock st)).

End OS.

(** [exec.Command(tool, args...).Run()] for a tool whose output file is
    [out]: the call is recorded, blocks for as long as the tool runs, and
    leaves the tool's file at [out].  The call takes no timeout and no
    context. *)
Definition cmdRun (w : World) (tool : string) (args : list string) (out : string) : M error :=
  fun st =>
    let r := runTool w tool args in
    let fs := match tr_written r with
              | Some n => <[out := mkFile (ToolOutput tool args) n]> (st_fs st)
              | None => st_fs st
              end in
    (tr_err r, mkState fs (st_runs st ++ [mkRun tool args]) (st_clock st + tr_elapsed r)).

(** ** path/filepath *)

Module filepath.

(** The elements of a path between its slashes. *)
Fixpoint elements (s : string) : list string :=
  match s with
  | EmptyString => [EmptyString]
  | String c t =>
      if Ascii.eqb c "/" then EmptyString :: elements t
      else match elements t with
           | h :: r => String c h :: r
           | [] => [String c EmptyString]
           end
  end.

Definition rooted (s : string) : bool := HasPrefix s "/".

(** One element of the path against the elements kept so far (last
    kept element first). *)
Definition cleanStep (isRooted : bool) (kept : list string) (e : string) : list string :=
  if String.eqb e "" || String.eqb e "." then kept
  else if String.eqb e ".." then
    match kept with
    | top :: rest => if String.eqb top ".." then e :: kept else rest
    | [] => if isRooted then [] else [e]
    end
  else e :: kept.

Fixpoint joinSlash (l : list string) : string :=
  match l with
  | [] => ""
  | [e] => e
  | e :: r => e +:+ "/" +:+ joinSlash r
  end.

(** [filepath.Clean] *)
Definition Clean (s : string) : string :=
  let kept := rev (fold_left (cleanStep (rooted s)) (elements s) []) in
  let body := joinSlash kept in
  if rooted s then "/" +:+ body
  else if String.eqb body "" then "." else body.

(** [filepath.Join(a, b)] *)
Definition Join (a b : string) : string :=
  if String.eqb a "" then (if String.eqb b "" then "" else Clean b)
  else if String.eqb b "" then Clean a
  else Clean (a +:+ "/" +:+ b).

(** Index after the last slash of [s] (0 when it has none). *)
Fixpoint afterLastSlash (s : string) : nat :=
  match s with
  | EmptyString => O
  | String c t =>
      if Contains t "/" then S (afterLastSlash t)
      else if Ascii.eqb c "/" then 1%nat else O
  end.

(** [filepath.Dir] *)
Definition Dir (s : string) : string := Clean (sliceTo (afterLastSlash s) s).

(** [filepath.Base] *)
Definition Base (s : string) : string :=
  if String.eqb s "" then "."
  else match rev (filter (fun e => negb (String.eqb e "")) (elements s)) with
       | e :: _ => e
       | [] => "/"
       end.

End filepath.

(** [getFileSize] (the same function in both packages) *)
Definition getFileSize (filePath : string) : M (option Z) := OS.Stat filePath.

(** Go's [int] and [int64] are 64 bits wide here: [int64(maxSizeKB * 1024)]
    is the product wrapped around. *)
Definition wrap64 (z : Z) : Z := (z + 2^63) mod 2^64 - 2^63.

(** [io.Copy(tmpFile, resp.Body)] into the file just created at [path]:
    the whole body is streamed into the file, whatever its length. *)
Definition ioCopy (w : World) (path : string) (resp : Response) : M error :=
  match writeErr w path with
  | Some (e, n) => OS.Put path (mkFile Partial n) ;; ret (Some e)
  | None =>
      OS.Put path (mkFile (BodyBytes (resp_body resp))
                          (Z.of_nat (length (resp_body resp)))) ;;
      ret (resp_body_err resp)
  end.

(** [io.ReadAll(io.LimitReader(resp.Body, n))]: reading stops after [n]
    bytes, so an error of the body is only met when the body is shorter. *)
Definition readAllLimited (n : Z) (resp : Response) : list byte * error :=
  (firstn (Z.to_nat n) (resp_body resp),
   if Z.of_nat (length (resp_body resp)) <? n then resp_body_err resp else None).

(** ** The Screenshotter of the root package *)

Module Screenshotter.

Record Screenshotter := mk { timeout : Z; verbose : bool }.

(** [NewScreenshotter] *)
Definition NewScreenshotter (timeout : Z) (verbose : bool) : Screenshotter :=
  mk timeout verbose.

Definition width : Z := 1024.
Definition height : Z := 768.

(** [image.NewRGBA] followed by the background fill of [img.Bounds()]. *)
Definition background (c : RGBA) : Image := [(mkRect 0 0 width height, c)].

(** The loops [for i := 0; i < n; i++] of the generators: row [i] starts
    at [y = base + i*step]; the loop breaks at the first [y > bound]. *)
Fixpoint rows (n : nat) (i base step bound : Z) (row : Z -> Rect) (c : RGBA) : Image :=
  match n with
  | O => []
  | S k =>
      let y := base + i * step in
      if y >? bound then []
      else (row y, c) :: rows k (i + 1) base step bound row c
  end.

(** [saveImage] *)
Definition saveImage (w : World) (img : Image) (outputPath : string) : M error :=
  match createErr w outputPath with
  | Some e => ret (Some (Errorf "failed to create file" e))
  | None =>
      match writeErr w outputPath with
      | Some (e, n) =>
          OS.Put outputPath (mkFile Partial n) ;;
          ret (Some (Errorf "failed to encode JPEG" e))
      | None =>
          OS.Put outputPath (mkFile (JpegData 85 img) (jpegSize w 85 img)) ;;
          ret None
      end
  end.

Definition pdfImage : Image :=
  (background (mkRGBA 245 245 250 255)
  ++ [(mkRect 0 0 width 100, mkRGBA 41 128 185 255)]
  ++ rows 15 0 150 40 (height - 100)
       (fun y => mkRect 50 y (width - 50) (y + 25)) (mkRGBA 100 100 100 255)
  ++ [(mkRect 0 (height - 50) width height, mkRGBA 200 200 200 255)])%list.

(** [createPDFVisualization] *)
Definition createPDFVisualization (w : World)
    (outputPath url contentLength : string) : M error :=
  saveImage w pdfImage outputPath.

Definition htmlImage : Image :=
  (background (mkRGBA 250 250 250 255)
  ++ [(mkRect 0 0 width 60, mkRGBA 52 73 94 255)]
  ++ rows 12 0 100 50 (height - 100)
       (fun y => mkRect 30 y (width - 30) (y + 30)) (mkRGBA 149 165 166 255)
  ++ [(mkRect (width - 200) 80 width (height - 50), mkRGBA 189 195 199 255)]
  ++ [(mkRect 0 (height - 50) width height, mkRGBA 44 62 80 255)])%list.

(** [createHTMLVisualization] *)
Definition createHTMLVisualization (w : World)
    (outputPath url : string) (contentLength : Z) : M error :=
  saveImage w htmlImage outputPath.

Definition successImage : Image :=
  (background (mkRGBA 230 245 230 255)
  ++ [(mkRect 0 0 width 120, mkRGBA 46 204 113 255)]
  ++ rows 10 0 200 50 (height - 150)
       (fun y => mkRect 100 y (width - 100) (y + 30)) (mkRGBA 52 152 219 255))%list.

(** [createSuccessVisualization] *)
Definition createSuccessVisualization (w : World)
    (outputPath url contentType : string) : M error :=
  saveImage w successImage outputPath.

Definition errorImage : Image :=
  (background (mkRGBA 245 230 230 255)
  ++ [(mkRect 0 0 width 150, mkRGBA 231 76 60 255)]
  ++ [(mkRect 50 250 (width - 50) 350, mkRGBA 192 57 43 255)])%list.

(** [createErrorImage]: [title] and [detail] are received and not drawn. *)
Definition createErrorImage (w : World)
    (outputPath title detail : string) : M error :=
  saveImage w errorImage outputPath.

(** The four kinds of placeholder, and the generator call behind each. *)
Inductive Category := CatError | CatPDF | CatHTML | CatSuccess.

Inductive Synthetic :=
| ErrorImage (title detail : string)
| PDFVisualization (url contentLength : string)
| HTMLVisualization (url : string) (contentLength : Z)
| SuccessVisualization (url contentType : string).

Definition category (g : Synthetic) : Category :=
  match g with
  | ErrorImage _ _ => CatError
  | PDFVisualization _ _ => CatPDF
  | HTMLVisualization _ _ => CatHTML
  | SuccessVisualization _ _ => CatSuccess
  end.

(** Running a generator call. *)
Definition generate (w : World) (outputPath : string) (g : Synthetic) : M error :=
  match g with
  | ErrorImage title detail => createErrorImage w outputPath title detail
  | PDFVisualization url cl => createPDFVisualization w outputPath url cl
  | HTMLVisualization url cl => createHTMLVisualization w outputPath url cl
  | SuccessVisualization url ct => createSuccessVisualization w outputPath url ct
  end.

(** [captureWithPageRender]: the response body is closed unread. *)
Definition captureWithPageRender (w : World) (s : Screenshotter)
    (url outputPath : string) : M error :=
  match newRequestErr w url with
  | Some e => createErrorImage w outputPath "Request failed" e
  | None =>
      match clientDo w (timeout s) url with
      | inl e => createErrorImage w outputPath "Connection failed" e
      | inr resp =>
          let contentType := resp_content_type resp in
          if resp_status resp =? 200 then
            if Contains contentType "pdf" then
              createPDFVisualization w outputPath url (resp_content_length_hdr resp)
            else if Contains contentType "html" then
              createHTMLVisualization w outputPath url (resp_ContentLength resp)
            else createSuccessVisualization w outputPath url contentType
          else createErrorImage w outputPath (Sprintf_HTTP (resp_status resp)) url
      end
  end.

(** The generator call [captureWithPageRender] ends with, as data. *)
Definition pageRenderCall (w : World) (s : Screenshotter) (url : string) : Synthetic :=
  match newRequestErr w url with
  | Some e => ErrorImage "Request failed" e
  | None =>
      match clientDo w (timeout s) url with
      | inl e => ErrorImage "Connection failed" e
      | inr resp =>
          let contentType := resp_content_type resp in
          if resp_status resp =? 200 then
            if Contains contentType "pdf" then
              PDFVisualization url (resp_content_length_hdr resp)
            else if Contains contentType "html" then
              HTMLVisualization url (resp_ContentLength resp)
            else SuccessVisualization url contentType
          else ErrorImage (Sprintf_HTTP (resp_status resp)) url
      end
  end.

(** [captureWithWkhtmltoimage] *)
Definition captureWithWkhtmltoimage (w : World) (s : Screenshotter)
    (url outputPath : string) : M error :=
  err <- cmdRun w "wkhtmltoimage" ["--quiet"; url; outputPath] outputPath ;;
  match err with
  | Some e => ret (Some (Errorf "wkhtmltoimage failed" e))
  | None => ret None
  end.

Definition chromeArgs (url outputPath : string) : list string :=
  ["--headless"; "--disable-gpu"; "--no-sandbox";
   "--screenshot=" +:+ outputPath; "--window-size=1024,768"; url].

(** [captureWithChrome] *)
Definition captureWithChrome (w : World) (s : Screenshotter)
    (url outputPath : string) : M error :=
  err <- cmdRun w "google-chrome" (chromeArgs url outputPath) outputPath ;;
  match err with
  | Some e => ret (Some (Errorf "chrome failed" e))
  | None => ret None
  end.

(** [captureWithChromium] *)
Definition captureWithChromium (w : World) (s : Screenshotter)
    (url outputPath : string) : M error :=
  err <- cmdRun w "chromium" (chromeArgs url outputPath) outputPath ;;
  match err with
  | Some e => ret (Some (Errorf "chromium failed" e))
  | None => ret None
  end.

(** One renderer of [Capture]: probe, then run; [true] when the
    renderer ran and returned no error. *)
Definition tryRenderer (w : World) (tool : string) (run : M error) : M bool :=
  if lookPath w tool then
    err <- run ;;
    ret (match err with None => true | Some _ => false end)
  else ret false.

(** [Capture]; the context argument is never read. *)
Definition Capture (w : World) (s : Screenshotter) (url outputPath : string) : M error :=
  ok1 <- tryRenderer w "wkhtmltoimage" (captureWithWkhtmltoimage w s url outputPath) ;;
  if ok1 then ret None else
  ok2 <- tryRenderer w "google-chrome" (captureWithChrome w s url outputPath) ;;
  if ok2 then ret None else
  ok3 <- tryRenderer w "chromium" (captureWithChromium w s url outputPath) ;;
  if ok3 then ret None else
  captureWithPageRender w s url outputPath.

(** [capturePDFWithPdftoppm]: with [-png -singlefile] the tool writes
    [<root>.png]; the deferred [os.Remove(tempPPM)] runs on both exits. *)
Definition capturePDFWithPdftoppm (w : World) (s : Screenshotter)
    (pdfPath outputPath : string) : M error :=
  let tempPPM := TrimSuffix outputPath ".png" +:+ ".ppm" in
  let root := TrimSuffix outputPath ".png" in
  err <- cmdRun w "pdftoppm"
           ["-png"; "-f"; "1"; "-l"; "1"; "-singlefile"; pdfPath; root]
           (root +:+ ".png") ;;
  OS.Remove tempPPM ;;
  match err with
  | Some e => ret (Some (Errorf "pdftoppm failed" e))
  | None => ret None
  end.

(** [capturePDFWithImageMagick] *)
Definition capturePDFWithImageMagick (w : World) (s : Screenshotter)
    (pdfPath outputPath : string) : M error :=
  err <- cmdRun w "convert"
           ["-density"; "150"; "-quality"; "85"; pdfPath +:+ "[0]";
            "-resize"; "1024x768"; outputPath]
           outputPath ;;
  match err with
  | Some e => ret (Some (Errorf "imagemagick failed" e))
  | None => ret None
  end.

(** [capturePDFWithPdfimages] *)
Definition capturePDFWithPdfimages (w : World) (s : Screenshotter)
    (pdfPath outputPath : string) : M error :=
  let tempDir := filepath.Dir outputPath in
  let tempBase := filepath.Join tempDir ".pdfimage" in
  let firstImage := tempBase +:+ "-000.png" in
  err <- cmdRun w "pdfimages" ["-png"; "-f"; "1"; "-l"; "1"; pdfPath; tempBase]
           firstImage ;;
  match err with
  | Some e => ret (Some (Errorf "pdfimages failed" e))
  | None =>
      found <- OS.Stat firstImage ;;
      match found with
      | Some _ =>
          rerr <- OS.Rename firstImage outputPath ;;
          match rerr with
          | Some e => ret (Some (Errorf "failed to move extracted image" e))
          | None => ret None
          end
      | None => ret (Some "no images extracted from PDF")
      end
  end.

(** The part of [CapturePDF] after [defer os.Remove(tempPDF)] is
    registered: the first rasterizer found on the path decides. *)
Definition rasterize (w : World) (s : Screenshotter)
    (url outputPath tempPDF : string) (resp : Response) : M error :=
  if lookPath w "pdftoppm" then capturePDFWithPdftoppm w s tempPDF outputPath
  else if lookPath w "convert" then capturePDFWithImageMagick w s tempPDF outputPath
  else if lookPath w "pdfimages" then capturePDFWithPdfimages w s tempPDF outputPath
  else createPDFVisualization w outputPath url (resp_content_length_hdr resp).

(** [CapturePDF] *)
Definition CapturePDF (w : World) (s : Screenshotter)
    (url outputPath tempDir : string) : M error :=
  match mkdirErr w tempDir with
  | Some e => ret (Some (Errorf "failed to create temp directory" e))
  | None =>
  match newRequestErr w url with
  | Some e => createErrorImage w outputPath "Request failed" e
  | None =>
  match clientDo w (timeout s) url with
  | inl e => createErrorImage w outputPath "Download failed" e
  | inr resp =>
      if negb (resp_status resp =? 200) then
        createErrorImage w outputPath (Sprintf_HTTP (resp_status resp)) url
      else
        let tempPDF := filepath.Join tempDir "temp.pdf" in
        match createErr w tempPDF with
        | Some e => ret (Some (Errorf "failed to create temp PDF" e))
        | None =>
            err <- ioCopy w tempPDF resp ;;
            match err with
            | Some e => ret (Some (Errorf "failed to save temp PDF" e))
            | None =>
                (* defer os.Remove(tempPDF) is registered here *)
                r <- rasterize w s url outputPath tempPDF resp ;;
                OS.Remove tempPDF ;;
                ret r
            end
        end
  end end end.

End Screenshotter.

(** ** regexp: the one pattern of [sanitizeFilename] *)

Module Regexp.

Definition byteOf (c : ascii) : Z := Z.of_N (N_of_ascii c).

Definition between (lo hi : Z) (c : ascii) : bool :=
  (lo <=? byteOf c) && (byteOf c <=? hi).

(** The class [[a-zA-Z0-9._-]]. *)
Definition inClass (c : ascii) : bool :=
  between 97 122 c || between 65 90 c || between 48 57 c
  || Ascii.eqb c "." || Ascii.eqb c "_" || Ascii.eqb c "-".

(** Width in bytes of the rune at the head of [s], as [utf8.DecodeRune]
    finds it: 1 for ASCII and for every byte of an ill-formed sequence. *)
Definition runeWidth (s : string) : nat :=
  match s with
  | EmptyString => O
  | String b0 t =>
      if between 0 127 b0 then 1%nat
      else if between 194 223 b0 then
        match t with
        | String b1 _ => if between 128 191 b1 then 2%nat else 1%nat
        | _ => 1%nat
        end
      else if between 224 239 b0 then
        let lo := if byteOf b0 =? 224 then 160 else 128 in
        let hi := if byteOf b0 =? 237 then 159 else 191 in
        match t with
        | String b1 (String b2 _) =>
            if between lo hi b1 && between 128 191 b2 then 3%nat else 1%nat
        | _ => 1%nat
        end
      else if between 240 244 b0 then
        let lo := if byteOf b0 =? 240 then 144 else 128 in
        let hi := if byteOf b0 =? 244 then 143 else 191 in
        match t with
        | String b1 (String b2 (String b3 _)) =>
            if between lo hi b1 && between 128 191 b2 && between 128 191 b3
            then 4%nat else 1%nat
        | _ => 1%nat
        end
      else 1%nat
  end.

(** [regexp.MustCompile(`[^a-zA-Z0-9._-]`).ReplaceAllString(s, "_")]:
    every rune outside the class becomes one underscore.  [skip] counts
    the bytes still to drop of a rune already replaced. *)
Fixpoint replaceOutside (skip : nat) (s : string) : string :=
  match s with
  | EmptyString => EmptyString
  | String c t =>
      match skip with
      | S k => replaceOutside k t
      | O =>
          if inClass c then String c (replaceOutside 0 t)
          else String "_" (replaceOutside (runeWidth s - 1) t)
      end
  end.

Definition ReplaceAllString (s : string) : string := replaceOutside 0 s.

End Regexp.

(** ** main.go (root package) *)

(** [Result] *)
Record Result := mkResult {
  URL : string;
  Title : string;
  Snippet : string;
  Content_ : string;
  MatchingLine : string;
  Keywords : list string
}.

Module Main.

(** [sanitizeFilename] *)
Definition sanitizeFilename (url : string) : string :=
  let url := CutFirst url "https://" in
  let url := CutFirst url "http://" in
  let url := Regexp.ReplaceAllString url in
  if len url >? 50 then sliceTo 50 url else url.

(** [optimizeImageSize] *)
Definition optimizeImageSize (w : World) (filePath : string) (maxSizeKB : Z) : M error :=
  osize <- getFileSize filePath ;;
  match osize with
  | None => ret (Some ("stat " +:+ filePath +:+ ": no such file or directory"))
  | Some size =>
      let maxSizeBytes := wrap64 (maxSizeKB * 1024) in
      if size <=? maxSizeBytes then ret None
      else
        let tempFile := filePath +:+ ".tmp.jpg" in
        err <- cmdRun w "convert"
                 [filePath; "-quality"; "60"; "-resize"; "50%"; tempFile] tempFile ;;
        match err with
        | None =>
            onew <- getFileSize tempFile ;;
            match onew with
            | Some newSize =>
                if newSize <? maxSizeBytes then
                  OS.Remove filePath ;;
                  _ <- OS.Rename tempFile filePath ;;
                  ret None
                else (OS.Remove tempFile ;; ret None)
            | None => (OS.Remove tempFile ;; ret None)
            end
        | Some _ => ret None
        end
  end.

(** The body of the [for i, result := range results] loop of
    [captureScreenshots]; the messages printed are left out. *)
Fixpoint captureLoop (w : World) (s : Screenshotter.Screenshotter)
    (outputDir : string) (results : list Result) : M unit :=
  match results with
  | [] => ret tt
  | result :: rest =>
      let filename := sanitizeFilename (URL result) in
      let filePath := filepath.Join outputDir (filename +:+ ".png") in
      err <- Screenshotter.Capture w s (URL result) filePath ;;
      match err with
      | Some _ => captureLoop w s outputDir rest
      | None =>
          _ <- optimizeImageSize w filePath 120 ;;
          captureLoop w s outputDir rest
      end
  end.

(** [captureScreenshots] *)
Definition captureScreenshots (w : World) (results : list Result)
    (outputDir : string) (timeout : Z) (verbose : bool) : M unit :=
  captureLoop w (Screenshotter.NewScreenshotter timeout verbose) outputDir results.

(** The loop of [captureScreenshotsWithPDF]. *)
Fixpoint capturePDFLoop (w : World) (s : Screenshotter.Screenshotter)
    (outputDir : string) (results : list Result) : M unit :=
  match results with
  | [] => ret tt
  | result :: rest =>
      let filename := sanitizeFilename (URL result) in
      let filePath := filepath.Join outputDir (filename +:+ ".png") in
      err <- Screenshotter.CapturePDF w s (URL result) filePath
               (filepath.Join outputDir ".temp") ;;
      match err with
      | Some _ => capturePDFLoop w s outputDir rest
      | None =>
          _ <- optimizeImageSize w filePath 120 ;;
          capturePDFLoop w s outputDir rest
      end
  end.

(** [captureScreenshotsWithPDF] *)
Definition captureScreenshotsWithPDF (w : World) (results : list Result)
    (outputDir : string) (timeout : Z) (verbose : bool) : M unit :=
  capturePDFLoop w (Screenshotter.NewScreenshotter timeout verbose) outputDir results.

End Main.

(** ** dorkergoodnew *)

Module DorkerGoodNew.

(** One recompression pass of [compressImage]: [Some tt] when the pass
    replaced the image (the function returns), [None] when it falls
    through to what follows. *)
Definition compressPass (w : World) (imagePath tempFile : string)
    (args : list string) (maxSizeBytes : Z) : M (option unit) :=
  if lookPath w "convert" then
    err <- cmdRun w "convert" args tempFile ;;
    match err with
    | None =>
        onew <- getFileSize tempFile ;;
        match onew with
        | Some newSize =>
            if newSize <? maxSizeBytes then
              OS.Remove imagePath ;;
              _ <- OS.Rename tempFile imagePath ;;
              ret (Some tt)
            else (OS.Remove tempFile ;; ret None)
        | None => (OS.Remove tempFile ;; ret None)
        end
    | Some _ => ret None
    end
  else ret None.

(** [compressImage] *)
Definition compressImage (w : World) (imagePath : string) (maxSizeKB : Z) : M error :=
  osize <- getFileSize imagePath ;;
  match osize with
  | None => ret (Some ("stat " +:+ imagePath +:+ ": no such file or directory"))
  | Some size =>
      let maxSizeBytes := wrap64 (maxSizeKB * 1024) in
      if size <=? maxSizeBytes then ret None
      else
        let tempFile := imagePath +:+ ".tmp.jpg" in
        r1 <- compressPass w imagePath tempFile
                [imagePath; "-quality"; "50"; "-resize"; "80%"; "-strip"; tempFile]
                maxSizeBytes ;;
        match r1 with
        | Some _ => ret None
        | None =>
            let tempFile := imagePath +:+ ".tmp2.jpg" in
            r2 <- compressPass w imagePath tempFile
                    [imagePath; "-quality"; "30"; "-resize"; "50%"; "-strip";
                     "-define"; "jpeg:dct-method=float"; tempFile]
                    maxSizeBytes ;;
            ret None
        end
  end.

(** [os.WriteFile(path, data, 0644)] *)
Definition WriteFile (w : World) (path : string) (text : string) : M error :=
  match createErr w path with
  | Some e => ret (Some e)
  | None =>
      match writeErr w path with
      | Some (e, n) => OS.Put path (mkFile Partial n) ;; ret (Some e)
      | None => OS.Put path (mkFile (TextData text) (len text)) ;; ret None
      end
  end.

Definition nl : string := String (ascii_of_nat 10) EmptyString.

(** [createErrorFile] *)
Definition createErrorFile (w : World) (outputPath title detail : string) : M error :=
  WriteFile w (outputPath +:+ ".err")
    ("ERROR: " +:+ title +:+ nl +:+ "Details: " +:+ detail +:+ nl).

(** One rasterizer of this package's [CapturePDF]: probe, run, then
    [compressImage(imagePath, 100)]; [true] when all of it went through
    and the function returns [nil]. *)
Definition tryRasterizer (w : World) (tool : string) (args : list string)
    (imagePath : string) : M bool :=
  if lookPath w tool then
    err <- cmdRun w tool args imagePath ;;
    match err with
    | None =>
        cerr <- compressImage w imagePath 100 ;;
        ret (match cerr with None => true | Some _ => false end)
    | Some _ => ret false
    end
  else ret false.

(** The rasterizer chain of this package's [CapturePDF], after
    [defer os.Remove(tempPDF)]. *)
Definition rasterize (w : World) (outputPath tempPDF : string) : M error :=
  let imagePath := outputPath +:+ ".png" in
  ok1 <- tryRasterizer w "pdftoppm"
           ["-png"; "-f"; "1"; "-l"; "1"; "-singlefile"; tempPDF; outputPath]
           imagePath ;;
  if ok1 then ret None else
  ok2 <- tryRasterizer w "convert"
           ["-density"; "150"; "-quality"; "70"; tempPDF +:+ "[0]";
            "-resize"; "1024x768"; "-strip"; imagePath]
           imagePath ;;
  if ok2 then ret None else
  ok3 <- tryRasterizer w "gs"
           ["-q"; "-dNOPAUSE"; "-dBATCH"; "-dSAFER"; "-sDEVICE=jpeg";
            "-dFirstPage=1"; "-dLastPage=1"; "-dJPEGQ=70"; "-r150";
            "-sOutputFile=" +:+ imagePath; tempPDF]
           imagePath ;;
  if ok3 then ret None else
  ret (Some "no PDF conversion tools available").

(** [CapturePDF] of this package. *)
Definition CapturePDF (w : World) (timeout : Z)
    (url outputPath tempDir : string) : M error :=
  match mkdirErr w tempDir with
  | Some e => ret (Some (Errorf "failed to create temp directory" e))
  | None =>
  match newRequestErr w url with
  | Some e => createErrorFile w outputPath "Request failed" e
  | None =>
  match clientDo w timeout url with
  | inl e => createErrorFile w outputPath "Download failed" e
  | inr resp =>
      if negb (resp_status resp =? 200) then
        createErrorFile w outputPath (Sprintf_HTTP (resp_status resp)) url
      else
        let tempPDF :=
          filepath.Join tempDir ("temp_" +:+ filepath.Base url +:+ ".pdf") in
        match createErr w tempPDF with
        | Some e => ret (Some (Errorf "failed to create temp PDF" e))
        | None =>
            err <- ioCopy w tempPDF resp ;;
            match err with
            | Some e => ret (Some (Errorf "failed to save temp PDF" e))
            | None =>
                (* defer os.Remove(tempPDF) is registered here *)
                r <- rasterize w outputPath tempPDF ;;
                OS.Remove tempPDF ;;
                ret r
            end
        end
  end end end.

(** [fetchContent] of dorker.go: the client of [NewGoogleDorker] has a
    30 second timeout; at most [1024*100] bytes of the body are read. *)
Definition fetchContent (w : World) (url : string) : list byte :=
  match newRequestErr w url with
  | Some _ => []
  | None =>
      match clientDo w 30 url with
      | inl _ => []
      | inr resp =>
          match readAllLimited (1024 * 100) resp with
          | (_, Some _) => []
          | (content, None) => content
          end
      end
  end.

End DorkerGoodNew.

(** ** Worlds and states used in the examples *)

Module Samples.

Definition notFound : ToolResult :=
  mkToolResult (Some "executable file not found in $PATH") 0 None.

Definition exit1 (elapsed : Z) : ToolResult :=
  mkToolResult (Some "exit status 1") elapsed None.

Definition wrote (elapsed size : Z) : ToolResult :=
  mkToolResult None elapsed (Some size).

(** No tool installed, no server reachable, a sound disk. *)
Definition bare : World := {|
  lookPath := fun _ => false;
  runTool := fun _ _ => notFound;
  newRequestErr := fun _ => None;
  clientDo := fun _ _ => inl "dial tcp: connection refused";
  mkdirErr := fun _ => None;
  createErr := fun _ => None;
  writeErr := fun _ => None;
  jpegSize := fun _ _ => 30000
|}.

(** [bare] with the given tools installed, behaving as [run] says. *)
Definition withTools (tools : list string)
    (run : string -> list string -> ToolResult) (w : World) : World := {|
  lookPath := fun t => existsb (String.eqb t) tools;
  runTool := fun t args => if existsb (String.eqb t) tools then run t args else notFound;
  newRequestErr := newRequestErr w;
  clientDo := clientDo w;
  mkdirErr := mkdirErr w;
  createErr := createErr w;
  writeErr := writeErr w;
  jpegSize := jpegSize w
|}.

(** [w] with a server that answers every request with [resp]. *)
Definition withServer (resp : Response) (w : World) : World := {|
  lookPath := lookPath w;
  runTool := runTool w;
  newRequestErr := newRequestErr w;
  clientDo := fun _ _ => inr resp;
  mkdirErr := mkdirErr w;
  createErr := createErr w;
  writeErr := writeErr w;
  jpegSize := jpegSize w
|}.

Definition emptyState : State := mkState ∅ [] 0.

(** A state whose only file is an image of [size] bytes at [path]. *)
Definition oneFile (path : string) (size : Z) : State :=
  mkState {[ path := mkFile (ToolOutput "wkhtmltoimage" []) size ]} [] 0.

Definition shooter : Screenshotter.Screenshotter :=
  Screenshotter.NewScreenshotter 10 true.

End Samples.

Module OptimizerSamples.
Import Samples.

Definition shot : string := "shots/example.com_report.png".

(** A 200000 byte artifact against the 120 KB budget. *)
Definition big : State := oneFile shot 200000.

(** [convert] installed, writing candidates of 150000 bytes. *)
Definition weakConvert : World :=
  withTools ["convert"] (fun _ _ => wrote 2 150000) bare.

(** [convert] installed, writing candidates of 90000 bytes. *)
Definition goodConvert : World :=
  withTools ["convert"] (fun _ _ => wrote 2 90000) bare.

End OptimizerSamples.

(** ** The strategy chain in the words of the specification

    These definitions are not translated from the code: they say what a
    ranked strategy list with availability probing and first-success
    semantics does, to be compared with [Screenshotter.Capture]. *)

Module Chain.

(** Strategies are tried in priority order; one whose tool is absent is
    skipped, an available one is run; the first run without error ends
    the chain; when no strategy is left the fallback runs. *)
Fixpoint strategyChain (w : World) (strategies : list (string * M error))
    (fallback : M error) : M error :=
  match strategies with
  | [] => fallback
  | (tool, run) :: rest =>
      if lookPath w tool then
        err <- run ;;
        match err with
        | None => ret None
        | Some _ => strategyChain w rest fallback
        end
      else strategyChain w rest fallback
  end.

(** The renderers in priority order. *)
Definition renderers : list string := ["wkhtmltoimage"; "google-chrome"; "chromium"].

(** The command line of a renderer. *)
Definition rendererArgs (tool url outputPath : string) : list string :=
  if String.eqb tool "wkhtmltoimage" then ["--quiet"; url; outputPath]
  else Screenshotter.chromeArgs url outputPath.

Definition runsClean (w : World) (tool url outputPath : string) : bool :=
  match tr_err (runTool w tool (rendererArgs tool url outputPath)) with
  | None => true
  | Some _ => false
  end.

(** The renderers the chain runs, in order, and the winner if there is
    one: absent tools are passed over, the walk ends at the first
    available tool that runs without error. *)
Fixpoint attempts (w : World) (url outputPath : string) (tools : list string)
    : list string * option string :=
  match tools with
  | [] => ([], None)
  | t :: rest =>
      if lookPath w t then
        if runsClean w t url outputPath then ([t], Some t)
        else let '(tried, winner) := attempts w url outputPath rest in
             (t :: tried, winner)
      else attempts w url outputPath rest
  end.

(** The state after the given renderers have run, one after the other. *)
Definition afterRuns (w : World) (url outputPath : string)
    (tried : list string) (st : State) : State :=
  fold_left
    (fun st t => snd (cmdRun w t (rendererArgs t url outputPath) outputPath st))
    tried st.

End Chain.

Module TimeoutSamples.
Import Samples.

Definition url : string := "http://example.com/".
Definition out : string := "shots/example.com_.png".



End TimeoutSamples.

(** The image each kind of placeholder shows. *)
Definition categoryImage (c : Screenshotter.Category) : Image :=
  match c with
  | Screenshotter.CatError => Screenshotter.errorImage
  | Screenshotter.CatPDF => Screenshotter.pdfImage
  | Screenshotter.CatHTML => Screenshotter.htmlImage
  | Screenshotter.CatSuccess => Screenshotter.successImage
  end.

Module ServerSamples.
Import Samples.

Definition url : string := "http://example.com/page".
Definition out : string := "shots/example.com_page.png".

Definition answer (status : Z) (contentType : string) : Response :=
  mkResponse status contentType "" (-1) [] None.


(** No renderer installed; the server answers 404. *)
Definition notFoundPage : World := withServer (answer 404 "text/html") bare.

End ServerSamples.

Module PdfSamples.
Import Samples.

Definition url : string := "http://example.com/report.pdf".
Definition out : string := "shots/example.com_report.pdf.png".
Definition tempDir : string := "shots/.temp".
Definition tempPDF : string := "shots/.temp/temp.pdf".

(** The bytes of "%PDF". *)
Definition smallBody : list byte := [x25; x50; x44; x46].

Definition pdfAnswer (body : list byte) (bodyErr : option string) : Response :=
  mkResponse 200 "application/pdf" "" (-1) body bodyErr.

(** pdftoppm is installed and exits with an error; convert is installed
    and works; the server delivers the document. *)
Definition brokenPdftoppm : World :=
  withServer (pdfAnswer smallBody None)
    (withTools ["pdftoppm"; "convert"]
       (fun t _ => if String.eqb t "pdftoppm" then exit1 1 else wrote 2 40000)
       bare).

(** The connection drops while the body is being read. *)
Definition droppedDownload : World :=
  withServer (pdfAnswer smallBody (Some "unexpected EOF"))
    (withTools ["pdftoppm"] (fun _ _ => wrote 1 40000) bare).

(** A body one byte longer than the 100 KB that [fetchContent] reads. *)
Definition bigBody : list byte := repeat x00 (Z.to_nat 102401).

Definition bigDocument : World :=
  withServer (pdfAnswer bigBody None)
    (withTools ["pdftoppm"] (fun _ _ => wrote 1 40000) bare).

End PdfSamples.

(** [true] when every byte of the string satisfies [P]. *)
Fixpoint allChars (P : ascii -> bool) (s : string) : bool :=
  match s with
  | EmptyString => true
  | String c t => P c && allChars P t
  end.

Definition notSlash (c : ascii) : bool := negb (Ascii.eqb c "/").

Module BatchSamples.
Import Samples.

(** Two distinct URLs of one batch. *)
Definition first : string := "http://example.com/a?b".

Definition result (url : string) : Result := mkResult url "" "" "" "" [].

(** wkhtmltoimage is installed; the size of what it writes depends on
    its command line, that is on the URL. *)
Definition renderer : World :=
  withTools ["wkhtmltoimage"]
    (fun _ args => wrote 1 (1000 + Z.of_nat (length (List.filter (String.eqb first) args))))
    bare.

End BatchSamples.


(** ** dorkergoodnew: saving page content *)

Module PageContent.

(** The loop of [contains]: [n] iterations are left, [i] is the index. *)
Fixpoint containsLoop (n i : nat) (s substr : string) : bool :=
  match n with
  | O => false
  | S k =>
      if String.eqb (sliceTo (String.length substr) (sliceFrom i s)) substr
      then true
      else containsLoop k (S i) s substr
  end.

(** [contains]: [for i := 0; i <= len(s)-len(substr); i++] compares
    [s[i:i+len(substr)]] with [substr]. *)
Definition contains (s substr : string) : bool :=
  containsLoop (Z.to_nat (len s - len substr + 1)) 0 s substr.

(** The extension [saveContent] picks for a content type. *)
Definition contentExt (contentType : string) : string :=
  if negb (String.eqb contentType "") then
    if contains contentType "pdf" then ".pdf"
    else if contains contentType "json" then ".json"
    else if contains contentType "text" then ".txt"
    else ".html"
  else ".html".

(** [os.WriteFile(path, data, 0644)] for a byte slice. *)
Definition WriteBytes (w : World) (path : string) (data : list byte) : M error :=
  match createErr w path with
  | Some e => ret (Some e)
  | None =>
      match writeErr w path with
      | Some (e, n) => OS.Put path (mkFile Partial n) ;; ret (Some e)
      | None =>
          OS.Put path (mkFile (BodyBytes data) (Z.of_nat (length data))) ;;
          ret None
      end
  end.

(** [saveContent] *)
Definition saveContent (w : World) (outputPath : string) (content : list byte)
    (contentType url : string) : M error :=
  let ext := contentExt contentType in
  let fullPath := outputPath +:+ ext in
  let dir := filepath.Dir fullPath in
  match mkdirErr w dir with
  | Some e => ret (Some (Errorf "failed to create directory" e))
  | None =>
      err <- WriteBytes w fullPath content ;;
      match err with
      | Some e => ret (Some (Errorf "failed to write file" e))
      | None => ret None
      end
  end.

(** The ceiling of [capturePageContent]: [10*1024*1024]. *)
Definition pageLimit : Z := 10 * 1024 * 1024.

(** [capturePageContent] *)
Definition capturePageContent (w : World) (timeout : Z) (url outputPath : string)
    : M error :=
  match newRequestErr w url with
  | Some e => DorkerGoodNew.createErrorFile w outputPath "Request failed" e
  | None =>
      match clientDo w timeout url with
      | inl e => DorkerGoodNew.createErrorFile w outputPath "Connection failed" e
      | inr resp =>
          if negb (resp_status resp =? 200) then
            DorkerGoodNew.createErrorFile w outputPath
              (Sprintf_HTTP (resp_status resp)) url
          else
            match readAllLimited pageLimit resp with
            | (_, Some e) => DorkerGoodNew.createErrorFile w outputPath "Read failed" e
            | (content, None) =>
                saveContent w outputPath content (resp_content_type resp) url
            end
      end
  end.

(** [Capture] of dorkergoodnew *)
Definition Capture (w : World) (timeout : Z) (url outputPath : string) : M error :=
  capturePageContent w timeout url outputPath.

End PageContent.

(** ** dorkergoodnew/dorker.go: the search client *)

Module Dorker.

(** [GoogleCredential] and [Config] *)
Record GoogleCredential := mkCredential { APIKey : string; SearchEngineID : string }.
Record Config := mkConfig { Google : list GoogleCredential }.

(** An item of a [customsearch.Search] answer. *)
Record Item := mkItem { Link : string; ItemTitle : string; ItemSnippet : string }.

(** One call [svc.Cse.List().Q(q).Cx(cx).Num(num).Start(start)] made with
    the service of an API key. *)
Record Request := mkRequest {
  rq_key : string;
  rq_cx : string;
  rq_q : string;
  rq_num : Z;
  rq_start : Z
}.

(** The search service: the error of [customsearch.NewService] for a
    key, and what [call.Context(ctx).Do()] answers to a request, an error
    or [resp.Items]. *)
Record SearchAPI := mkSearchAPI {
  newService : string -> option string;
  listDo : Request -> string + list Item
}.

(** [min] *)
Definition min (a b : Z) : Z := if a <? b then a else b.

(** [len(results)] *)
Definition count (results : list Result) : Z := Z.of_nat (length results).

(** [for _, item := range resp.Items]: items are appended, each with its
    fetched content, until [maxResults] results are held. *)
Fixpoint addItems (w : World) (maxResults : Z) (items : list Item)
    (results : list Result) : list Result :=
  match items with
  | [] => results
  | item :: rest =>
      if count results >=? maxResults then results
      else
        let content := DorkerGoodNew.fetchContent w (Link item) in
        addItems w maxResults rest
          (results ++ [mkResult (Link item) (ItemTitle item) (ItemSnippet item)
                         (Stdlib.Strings.String.string_of_list_byte content) "" []])%list
  end.

(** What the pagination loop hands on: the results, [lastErr], and the
    requests made so far, oldest first. *)
Definition Progress : Type := list Result * error * list Request.

(** [for startIndex := 1; len(results) < maxResults; startIndex += 10];
    [fuel] bounds the number of iterations, [None] is running out of it. *)
Fixpoint paginate (fuel : nat) (api : SearchAPI) (w : World) (cred : GoogleCredential)
    (query : string) (maxResults startIndex : Z)
    (results : list Result) (lastErr : error) (reqs : list Request) : option Progress :=
  if count results <? maxResults then
    match fuel with
    | O => None
    | S k =>
        let resultsNeeded := maxResults - count results in
        let numToFetch := min resultsNeeded 10 in
        let rq := mkRequest (APIKey cred) (SearchEngineID cred) query numToFetch startIndex in
        match listDo api rq with
        | inl err => Some (results, Some err, (reqs ++ [rq])%list)
        | inr items =>
            if (length items =? 0)%nat then
              Some (results, Some "no more results found", (reqs ++ [rq])%list)
            else
              let results' := addItems w maxResults items results in
              if Z.of_nat (length items) <? numToFetch then
                Some (results', lastErr, (reqs ++ [rq])%list)
              else
                paginate k api w cred query maxResults (wrap64 (startIndex + 10))
                  results' lastErr ((reqs ++ [rq])%list)
        end
    end
  else Some (results, lastErr, reqs).

(** [for i, cred := range g.config.Google] and what follows it. *)
Fixpoint tryCredentials (api : SearchAPI) (w : World) (query : string) (maxResults : Z)
    (creds : list GoogleCredential)
    (results : list Result) (lastErr : error) (reqs : list Request)
    : option (list Result * error * list Request) :=
  match creds with
  | [] =>
      match lastErr with
      | Some e => Some ([], Some e, reqs)
      | None => Some (results, None, reqs)
      end
  | cred :: rest =>
      match newService api (APIKey cred) with
      | Some err => tryCredentials api w query maxResults rest results (Some err) reqs
      | None =>
          match paginate (Z.to_nat maxResults) api w cred query maxResults 1
                  results lastErr reqs with
          | None => None
          | Some (results', lastErr', reqs') =>
              if (0 <? length results')%nat then Some (results', None, reqs')
              else tryCredentials api w query maxResults rest results'
                     (Some "no results found") reqs'
          end
      end
  end.

(** [Search]: the results and the error it returns, with the requests it
    made. *)
Definition Search (api : SearchAPI) (w : World) (config : Config)
    (query : string) (maxResults : Z) : option (list Result * error * list Request) :=
  if (length (Google config) =? 0)%nat then
    Some ([], Some "no Google API credentials configured", [])
  else tryCredentials api w query maxResults (Google config) [] None [].

(** The links of the items that the requests were answered with. *)
Definition answeredLinks (api : SearchAPI) (reqs : list Request) : list string :=
  flat_map (fun rq => match listDo api rq with
                      | inl _ => []
                      | inr items => map Link items
                      end) reqs.

End Dorker.

Module SearchSamples.

Definition item (n : string) : Dorker.Item :=
  Dorker.mkItem ("http://example.com/" +:+ n) n "".

Definition page1 : list Dorker.Item :=
  map item ["a"; "b"; "c"; "d"; "e"; "f"; "g"; "h"; "i"; "j"].

(** The first key is refused; with the second, the first page has ten
    items and the second page fails. *)
Definition api : Dorker.SearchAPI :=
  Dorker.mkSearchAPI
    (fun key => if String.eqb key "bad" then Some "invalid key" else None)
    (fun rq => if Dorker.rq_start rq =? 1 then inr page1 else inl "quota exceeded").

Definition config : Dorker.Config :=
  Dorker.mkConfig [Dorker.mkCredential "bad" "cx0"; Dorker.mkCredential "good" "cx1"].

End SearchSamples.

(** The result [Search] builds from an item. *)
Definition resultOf (w : World) (item : Dorker.Item) : Result :=
  mkResult (Dorker.Link item) (Dorker.ItemTitle item) (Dorker.ItemSnippet item)
    (Stdlib.Strings.String.string_of_list_byte
       (DorkerGoodNew.fetchContent w (Dorker.Link item))) "" [].

(** A request [Search] may send for a query under a configuration. *)
Definition wellFormed (config : Dorker.Config) (query : string) (maxResults : Z)
    (rq : Dorker.Request) : Prop :=
  1 <= Dorker.rq_num rq <= 10
  /\ Dorker.rq_num rq <= maxResults
  /\ Dorker.rq_q rq = query
  /\ In (Dorker.mkCredential (Dorker.rq_key rq) (Dorker.rq_cx rq)) (Dorker.Google config).

(** A computation that deletes no file. *)
Definition keepsFiles {A} (m : M A) : Prop :=
  forall st q, is_Some (st_fs st !! q) -> is_Some (st_fs (snd (m st)) !! q).

(** ** Text utilities of main.go *)

(** The parts of Go's [strings] package that consult the Unicode tables:
    they are used only for strings with a byte of [0x80] or above. *)
Record Unicode := mkUnicode {
  mapToLower : string -> string;        (* strings.Map(unicode.ToLower, s) *)
  fieldsFunc : string -> list string    (* strings.FieldsFunc(s, unicode.IsSpace) *)
}.

Module Text.

Definition isASCIIByte (c : ascii) : bool := Regexp.byteOf c <? 128.

(** Go's [asciiSpace]: tab, newline, vertical tab, form feed, carriage
    return and space. *)
Definition asciiSpace (c : ascii) : bool :=
  Regexp.between 9 13 c || (Regexp.byteOf c =? 32).

Definition lowerByte (c : ascii) : ascii :=
  if Regexp.between 65 90 c then ascii_of_N (N_of_ascii c + 32) else c.

Fixpoint mapBytes (f : ascii -> ascii) (s : string) : string :=
  match s with
  | EmptyString => EmptyString
  | String c t => String (f c) (mapBytes f t)
  end.

(** [strings.ToLower] *)
Definition ToLower (u : Unicode) (s : string) : string :=
  if allChars isASCIIByte s then mapBytes lowerByte s else mapToLower u s.

(** The ASCII path of [strings.Fields]: [cur] is the field being read,
    if any. *)
Fixpoint asciiFields (cur : option string) (s : string) : list string :=
  match s with
  | EmptyString => match cur with Some f => [f] | None => [] end
  | String c t =>
      if asciiSpace c then
        match cur with
        | Some f => f :: asciiFields None t
        | None => asciiFields None t
        end
      else
        asciiFields (Some (match cur with
                           | Some f => f +:+ String c EmptyString
                           | None => String c EmptyString
                           end)) t
  end.

(** [strings.Fields] *)
Definition Fields (u : Unicode) (s : string) : list string :=
  if allChars isASCIIByte s then asciiFields None s else fieldsFunc u s.

(** [strings.TrimLeft(s, cutset)] for a cutset of ASCII bytes. *)
Fixpoint TrimLeft (s : string) (cut : ascii -> bool) : string :=
  match s with
  | EmptyString => EmptyString
  | String c t => if cut c then TrimLeft t cut else s
  end.

(** [strings.TrimRight(s, cutset)] for a cutset of ASCII bytes. *)
Fixpoint TrimRight (s : string) (cut : ascii -> bool) : string :=
  match s with
  | EmptyString => EmptyString
  | String c t =>
      match TrimRight t cut with
      | EmptyString => if cut c then EmptyString else String c EmptyString
      | t' => String c t'
      end
  end.

(** The cutset of [extractKeywords]: the double and the single quote. *)
Definition isQuote (c : ascii) : bool :=
  (Regexp.byteOf c =? 34) || (Regexp.byteOf c =? 39).

(** [strings.Trim] with that cutset. *)
Definition TrimQuotes (s : string) : string := TrimRight (TrimLeft s isQuote) isQuote.

(** [strings.TrimPrefix] *)
Definition TrimPrefix (s p : string) : string :=
  if HasPrefix s p then sliceFrom (String.length p) s else s.

Fixpoint filterBytes (keep : ascii -> bool) (s : string) : string :=
  match s with
  | EmptyString => EmptyString
  | String c t => if keep c then String c (filterBytes keep t) else filterBytes keep t
  end.

(** The class [[a-z0-9.-]]. *)
Definition inDomainClass (c : ascii) : bool :=
  Regexp.between 97 122 c || Regexp.between 48 57 c
  || Ascii.eqb c "." || Ascii.eqb c "-".

(** [regexp.MustCompile(`[^a-z0-9.-]`).ReplaceAllString] with the empty string: every
    rune outside the class is dropped; a rune with a byte of [0x80] or
    above is outside the class, so the bytes of the class are what is
    left. *)
Definition dropOutsideDomainClass (s : string) : string := filterBytes inDomainClass s.

Definition operators : list string :=
  ["site:"; "ext:"; "inurl:"; "intitle:"; "intext:"; "filetype:"; "cache:"; "link:"].

(** [for _, op := range operators]: is [part] an operator? *)
Definition isOperator (u : Unicode) (part : string) : bool :=
  existsb (fun op => HasPrefix (ToLower u part) op) operators.

(** The loop of [extractKeywords] over the parts of the query. *)
Fixpoint keywordsOf (u : Unicode) (parts : list string) (keywords : list string)
    : list string :=
  match parts with
  | [] => keywords
  | part :: rest =>
      if isOperator u part then keywordsOf u rest keywords
      else
        let cleanedPart := TrimQuotes part in
        if negb (String.eqb cleanedPart "")
        then keywordsOf u rest (keywords ++ [cleanedPart])%list
        else keywordsOf u rest keywords
  end.

(** [extractKeywords] *)
Definition extractKeywords (u : Unicode) (query : string) : list string :=
  let keywords := keywordsOf u (Fields u query) [] in
  if (length keywords =? 0)%nat then [""] else keywords.

(** The loop of [extractTargetDomain]. *)
Fixpoint targetDomainOf (u : Unicode) (parts : list string) : string :=
  match parts with
  | [] => ""
  | part :: rest =>
      if HasPrefix (ToLower u part) "site:" then
        let domain := TrimPrefix (ToLower u part) "site:" in
        let domain := TrimQuotes domain in
        let domain := dropOutsideDomainClass domain in
        if negb (String.eqb domain "") then domain else targetDomainOf u rest
      else targetDomainOf u rest
  end.

(** [extractTargetDomain] of dorkergoodnew *)
Definition extractTargetDomain (u : Unicode) (query : string) : string :=
  targetDomainOf u (Fields u query).

(** The results directory of [main]: [targetDir]. *)
Definition targetDir (u : Unicode) (query : string) : string :=
  let targetDomain := extractTargetDomain u query in
  let targetDomain :=
    if String.eqb targetDomain "" then "unknown_target" else targetDomain in
  let resultsBaseDir := "results" in
  filepath.Join resultsBaseDir targetDomain.

(** [truncate]; [None] is the panic of [s[:maxLen]] for a negative
    [maxLen]. *)
Definition truncate (s : string) (maxLen : Z) : option string :=
  if len s >? maxLen then
    if maxLen <? 0 then None
    else Some (sliceTo (Z.to_nat maxLen) s +:+ "...")
  else Some s.

End Text.

Module TextSamples.

(** Unicode tables that are never consulted for ASCII input. *)
Definition noTables : Unicode := mkUnicode (fun s => s) (fun s => [s]).

End TextSamples.

(** ** extractMatchingLine *)

Module MatchingLine.

Definition ofBytes (l : list Z) : string :=
  String.string_of_list_ascii (map (fun z => ascii_of_N (Z.to_N z)) l).

(** The runes of [unicode.IsSpace] in UTF-8: tab to carriage return,
    space, U+0085, U+00A0, U+1680, U+2000 to U+200A, U+2028, U+2029,
    U+202F, U+205F and U+3000. *)
Definition unicodeSpaces : list string :=
  map ofBytes
    [[9]; [10]; [11]; [12]; [13]; [32]; [194; 133]; [194; 160]; [225; 154; 128];
     [226; 128; 128]; [226; 128; 129]; [226; 128; 130]; [226; 128; 131];
     [226; 128; 132]; [226; 128; 133]; [226; 128; 134]; [226; 128; 135];
     [226; 128; 136]; [226; 128; 137]; [226; 128; 138];
     [226; 128; 168]; [226; 128; 169]; [226; 128; 175]; [226; 129; 159];
     [227; 128; 128]].

(** [strings.TrimLeftFunc(s, unicode.IsSpace)]: runes are dropped from
    the front while they are white space. *)
Fixpoint trimLeftSpace (fuel : nat) (s : string) : string :=
  match fuel with
  | O => s
  | S f =>
      match find (fun p => HasPrefix s p) unicodeSpaces with
      | Some p => trimLeftSpace f (sliceFrom (String.length p) s)
      | None => s
      end
  end.

(** [strings.TrimRightFunc(s, unicode.IsSpace)] *)
Fixpoint trimRightSpace (fuel : nat) (s : string) : string :=
  match fuel with
  | O => s
  | S f =>
      match find (fun p => HasSuffix s p) unicodeSpaces with
      | Some p => trimRightSpace f (sliceTo (String.length s - String.length p) s)
      | None => s
      end
  end.

(** [strings.TrimSpace] *)
Definition TrimSpace (s : string) : string :=
  let s := trimLeftSpace (String.length s) s in
  trimRightSpace (String.length s) s.

(** [strings.Split(s, "\n")] *)
Fixpoint splitLines (s : string) : list string :=
  match s with
  | EmptyString => [EmptyString]
  | String c t =>
      if Regexp.byteOf c =? 10 then EmptyString :: splitLines t
      else match splitLines t with
           | h :: r => String c h :: r
           | [] => [String c EmptyString]
           end
  end.

(** The ASCII part of the class [[\x00-\x08\x0B-\x0C\x0E-\x1F\x7F-\xFF]]. *)
Definition inControlClass (c : ascii) : bool :=
  Regexp.between 0 8 c || Regexp.between 11 12 c || Regexp.between 14 31 c
  || (Regexp.byteOf c =? 127).

(** The replacement of every run of runes of that class by one space.
    The runes U+0080 to U+00FF of the class are the two-byte sequences
    with a first byte of [0xC2] or [0xC3]; [inRun] says that the rune
    before was of the class. *)
Fixpoint squeezeControl (inRun : bool) (s : string) : string :=
  match s with
  | EmptyString => EmptyString
  | String c t =>
      if inControlClass c then
        if inRun then squeezeControl true t else String " " (squeezeControl true t)
      else
        match t with
        | String d t' =>
            if Regexp.between 194 195 c && Regexp.between 128 191 d then
              if inRun then squeezeControl true t'
              else String " " (squeezeControl true t')
            else String c (squeezeControl false t)
        | EmptyString => String c EmptyString
        end
  end.

(** The class [\s] of the regexp package: tab, newline, form feed,
    carriage return and space. *)
Definition isReSpace (c : ascii) : bool :=
  Regexp.between 9 10 c || Regexp.between 12 13 c || (Regexp.byteOf c =? 32).

(** The replacement of every run of [\s] by one space. *)
Fixpoint squeezeSpace (inRun : bool) (s : string) : string :=
  match s with
  | EmptyString => EmptyString
  | String c t =>
      if isReSpace c then
        if inRun then squeezeSpace true t else String " " (squeezeSpace true t)
      else String c (squeezeSpace false t)
  end.

(** The two [ReplaceAllString] calls on a line. *)
Definition clean (line : string) : string :=
  squeezeSpace false (squeezeControl false line).

(** [if len(line) > 200 { return line[:200] }; return line] *)
Definition cut200 (line : string) : string :=
  if len line >? 200 then sliceTo 200 line else line.

(** The first loop: the first line that holds a keyword. *)
Fixpoint firstMatch (u : Unicode) (lines keywords : list string) : option string :=
  match lines with
  | [] => None
  | line :: rest =>
      let line := TrimSpace line in
      if len line <? 5 then firstMatch u rest keywords
      else
        let line := clean line in
        if existsb (fun keyword =>
                      Contains (Text.ToLower u line) (Text.ToLower u keyword))
                   keywords
        then Some (cut200 line)
        else firstMatch u rest keywords
  end.

(** The second loop: the first meaningful line. *)
Fixpoint firstMeaningful (lines : list string) : option string :=
  match lines with
  | [] => None
  | line :: rest =>
      let line := TrimSpace line in
      if (len line >? 10) && negb (HasPrefix line "%PDF")
      then Some (cut200 (clean line))
      else firstMeaningful rest
  end.

(** [extractMatchingLine] *)
Definition extractMatchingLine (u : Unicode) (content : string)
    (keywords : list string) : string :=
  let lines := splitLines content in
  match firstMatch u lines keywords with
  | Some line => line
  | None =>
      match firstMeaningful lines with
      | Some line => line
      | None => "No content extracted"
      end
  end.

(** Bytes that are neither control bytes nor DEL. *)
Definition notControl (c : ascii) : bool :=
  negb (Regexp.between 0 31 c || (Regexp.byteOf c =? 127)).

End MatchingLine.

(** ** dorkergoodnew: the loop of captureScreenshots *)

Module NewBatch.

(** One turn of the loop of [captureScreenshots]: [None] when the
    capture fails ([continue]), else the [size] printed after
    [size, _ := getFileSize(filePath)]. *)
Definition captureOne (w : World) (timeout : Z) (outputDir : string)
    (result : Result) : M (option Z) :=
  let filename := Main.sanitizeFilename (URL result) in
  let filePath := filepath.Join outputDir filename in
  err <- PageContent.Capture w timeout (URL result) filePath ;;
  match err with
  | Some _ => ret None
  | None =>
      size <- getFileSize filePath ;;
      ret (Some (match size with Some n => n | None => 0 end))
  end.

End NewBatch.

Module NewBatchSamples.
Import Samples.

(** The server delivers a small document with a PDF type. *)
Definition server : World := withServer (PdfSamples.pdfAnswer PdfSamples.smallBody None) bare.

End NewBatchSamples.

(** * Properties *)

(** ** Sanity checks of the library models *)

Example filepath_samples :
  filepath.Join "shots" "a.png" = "shots/a.png"
  /\ filepath.Join "shots//x/../" "a.png" = "shots/a.png"
  /\ filepath.Join "" "a.png" = "a.png"
  /\ filepath.Join "/" "a.png" = "/a.png"
  /\ filepath.Join "." ".pdfimage" = ".pdfimage"
  /\ filepath.Dir "shots/a.png" = "shots"
  /\ filepath.Dir "a.png" = "."
  /\ filepath.Dir "/a.png" = "/"
  /\ filepath.Clean "a/../.." = ".."
  /\ filepath.Clean "/.." = "/"
  /\ filepath.Clean "../a/.." = ".."
  /\ filepath.Clean "../.." = "../.."
  /\ filepath.Join "shots" ".temp" = "shots/.temp".
Proof. repeat split; vm_compute; reflexivity. Qed.

(** ** The monad and the file system *)

Lemma append_length (s t : string) :
  String.length (s +:+ t) = (String.length s + String.length t)%nat.
Proof. induction s as [|c s IH]; simpl; [reflexivity | now rewrite IH]. Qed.

Lemma append_neq (p suffix : string) :
  suffix <> "" -> p <> p +:+ suffix.
Proof.
  intros Hs Heq. apply (f_equal String.length) in Heq.
  rewrite append_length in Heq.
  destruct suffix; [congruence | simpl in Heq; lia].
Qed.

Lemma append_assoc (s t u : string) : (s +:+ t) +:+ u = s +:+ (t +:+ u).
Proof.
  induction s as [|c s IH]; [reflexivity|].
  change (String c ((s +:+ t) +:+ u) = String c (s +:+ (t +:+ u))).
  now rewrite IH.
Qed.

Lemma tmp_jpg_neq (p : string) : p <> p +:+ ".tmp.jpg".
Proof. apply append_neq; discriminate. Qed.

Lemma tmp2_jpg_neq (p : string) : p <> p +:+ ".tmp2.jpg".
Proof. apply append_neq; discriminate. Qed.

(** [cmdRun] changes the file system at the tool's output path only. *)
Lemma cmdRun_other (w : World) tool args out st (p : string) :
  p <> out -> st_fs (snd (cmdRun w tool args out st)) !! p = st_fs st !! p.
Proof.
  intros Hne. unfold cmdRun; simpl.
  destruct (tr_written (runTool w tool args)); [|reflexivity].
  now rewrite lookup_insert_ne by congruence.
Qed.

Lemma cmdRun_err (w : World) tool args out st :
  fst (cmdRun w tool args out st) = tr_err (runTool w tool args).
Proof. reflexivity. Qed.

Lemma cmdRun_clock (w : World) tool args out st :
  st_clock (snd (cmdRun w tool args out st)) = st_clock st + tr_elapsed (runTool w tool args).
Proof. reflexivity. Qed.

Lemma cmdRun_runs (w : World) tool args out st :
  st_runs (snd (cmdRun w tool args out st)) = (st_runs st ++ [mkRun tool args])%list.
Proof. reflexivity. Qed.

(** ** The size optimizer *)

Section Optimizer.

Variable w : World.

(** Unfolds the monadic plumbing of a goal. *)
Ltac run_monad :=
  unfold bind, ret, getFileSize, OS.Stat, OS.Remove, OS.Rename, OS.Put; simpl.

(** The attempt shared by [optimizeImageSize] and [compressPass]: once
    [convert] has run, the candidate at [tmp] is accepted when it is
    below the budget and removed otherwise. *)
Lemma accept_or_discard (maxB : Z) (p tmp : string) (f : File) (st1 : State)
    (A : Type) (yes no : A) :
  p <> tmp ->
  st_fs st1 !! p = Some f ->
  let step :=
    (onew <- getFileSize tmp ;;
     match onew with
     | Some newSize =>
         if newSize <? maxB then
           OS.Remove p ;; _ <- OS.Rename tmp p ;; ret yes
         else (OS.Remove tmp ;; ret no)
     | None => (OS.Remove tmp ;; ret no)
     end) st1 in
  (fst step = no /\ st_fs (snd step) !! p = Some f
   /\ (forall g, st_fs st1 !! tmp = Some g -> maxB <= f_size g)
   /\ (forall q, q <> tmp -> st_fs (snd step) !! q = st_fs st1 !! q))
  \/ (fst step = yes /\ exists g, st_fs st1 !! tmp = Some g
      /\ st_fs (snd step) !! p = Some g /\ f_size g < maxB).
Proof.
  intros Hne Hp. run_monad.
  destruct (st_fs st1 !! tmp) as [g|] eqn:Htmp; simpl.
  - destruct (f_size g <? maxB) eqn:Hlt; simpl.
    + apply Z.ltb_lt in Hlt. right.
      rewrite lookup_delete_ne by congruence. rewrite Htmp; simpl.
      split; [reflexivity|]. exists g. rewrite lookup_insert_eq.
      split; [reflexivity|]. split; [reflexivity|assumption].
    + apply Z.ltb_ge in Hlt. left. rewrite lookup_delete_ne by congruence.
      split; [reflexivity|]. split; [assumption|]. split.
      * intros g' Hg'. injection Hg' as <-. assumption.
      * intros q Hq. now rewrite lookup_delete_ne by congruence.
  - left. rewrite lookup_delete_ne by congruence.
    split; [reflexivity|]. split; [assumption|]. split.
    + intros g' Hg'. discriminate.
    + intros q Hq. now rewrite lookup_delete_ne by congruence.
Qed.

(** [optimizeImageSize] on an artifact that exists: no error, and the
    artifact is either the one it was or a candidate below the budget
    that a successful [convert] run left at the temporary path. *)
Lemma optimizeImageSize_outcome (p : string) (kb : Z) (st : State) (f : File) :
  st_fs st !! p = Some f ->
  let maxB := wrap64 (kb * 1024) in
  let tmp := p +:+ ".tmp.jpg" in
  let args := [p; "-quality"; "60"; "-resize"; "50%"; tmp] in
  let r := Main.optimizeImageSize w p kb st in
  fst r = None
  /\ (st_fs (snd r) !! p = Some f
      \/ (maxB < f_size f
          /\ tr_err (runTool w "convert" args) = None
          /\ exists g, st_fs (snd (cmdRun w "convert" args tmp st)) !! tmp = Some g
               /\ st_fs (snd r) !! p = Some g /\ f_size g < maxB)).
Proof.
  intros Hp maxB tmp args r. subst r.
  destruct (Main.optimizeImageSize w p kb st) as [e st'] eqn:Hrun; cbn [fst snd].
  unfold Main.optimizeImageSize in Hrun. fold maxB tmp args in Hrun.
  unfold bind at 1 in Hrun. unfold getFileSize at 1, OS.Stat in Hrun.
  rewrite Hp in Hrun. change (f_size <$> Some f) with (Some (f_size f)) in Hrun.
  cbv iota beta in Hrun.
  destruct (f_size f <=? maxB) eqn:Hle.
  { injection Hrun as <- <-. auto. }
  apply Z.leb_gt in Hle.
  unfold bind at 1 in Hrun.
  pose proof (cmdRun_other w "convert" args tmp st p (tmp_jpg_neq p)) as Hkeep.
  pose proof (cmdRun_err w "convert" args tmp st) as Herr.
  destruct (cmdRun w "convert" args tmp st) as [err st1] eqn:Hcmd.
  simpl in Hkeep, Herr. rewrite Hp in Hkeep. subst err.
  destruct (tr_err (runTool w "convert" args)) as [e'|] eqn:He.
  { injection Hrun as <- <-. auto. }
  destruct (accept_or_discard maxB p tmp f st1 (option string) None None
              (tmp_jpg_neq p) Hkeep)
    as [(H1 & H2 & _)|(H1 & g & Hg & H2 & H3)];
    rewrite Hrun in *; simpl in *.
  - auto.
  - split; [assumption|]. right. split; [assumption|]. split; [reflexivity|].
    exists g. auto.
Qed.

(** One pass of [compressImage]: it either falls through with the
    artifact untouched (only the temporary path may have changed), or
    replaces the artifact by a candidate below the budget. *)
Lemma compressPass_outcome (p tmp : string) (args : list string) (maxB : Z)
    (st : State) (f : File) :
  p <> tmp ->
  st_fs st !! p = Some f ->
  let r := DorkerGoodNew.compressPass w p tmp args maxB st in
  (fst r = None /\ st_fs (snd r) !! p = Some f
   /\ (forall q, q <> tmp -> st_fs (snd r) !! q = st_fs st !! q))
  \/ (fst r = Some tt
      /\ lookPath w "convert" = true
      /\ tr_err (runTool w "convert" args) = None
      /\ exists g, st_fs (snd (cmdRun w "convert" args tmp st)) !! tmp = Some g
           /\ st_fs (snd r) !! p = Some g /\ f_size g < maxB).
Proof.
  intros Hne Hp r. subst r.
  destruct (DorkerGoodNew.compressPass w p tmp args maxB st) as [e st'] eqn:Hrun;
    cbn [fst snd].
  unfold DorkerGoodNew.compressPass in Hrun.
  destruct (lookPath w "convert") eqn:Hlook.
  2:{ injection Hrun as <- <-. left. auto. }
  unfold bind at 1 in Hrun.
  pose proof (cmdRun_other w "convert" args tmp st) as Hother.
  pose proof (cmdRun_err w "convert" args tmp st) as Herr.
  destruct (cmdRun w "convert" args tmp st) as [err st1] eqn:Hcmd.
  cbn [fst snd] in Hother, Herr. subst err.
  assert (Hkeep : st_fs st1 !! p = Some f) by (rewrite Hother; assumption).
  destruct (tr_err (runTool w "convert" args)) as [e'|] eqn:He.
  { injection Hrun as <- <-. left. auto. }
  destruct (accept_or_discard maxB p tmp f st1 (option unit) (Some tt) None Hne Hkeep)
    as [(H1 & H2 & _ & H4)|(H1 & g & Hg & H2 & H3)];
    rewrite Hrun in *; cbn [fst snd] in *.
  - left. split; [assumption|]. split; [assumption|].
    intros q Hq. rewrite H4, Hother by assumption. reflexivity.
  - right. split; [assumption|]. split; [reflexivity|]. split; [reflexivity|].
    exists g. auto.
Qed.

(** [compressImage] on an artifact that exists: no error, and the
    artifact is either the one it was or a file below the budget. *)
Lemma compressImage_outcome (p : string) (kb : Z) (st : State) (f : File) :
  st_fs st !! p = Some f ->
  let maxB := wrap64 (kb * 1024) in
  let r := DorkerGoodNew.compressImage w p kb st in
  fst r = None
  /\ (st_fs (snd r) !! p = Some f
      \/ (maxB < f_size f
          /\ lookPath w "convert" = true
          /\ exists g, st_fs (snd r) !! p = Some g /\ f_size g < maxB)).
Proof.
  intros Hp maxB r. subst r.
  destruct (DorkerGoodNew.compressImage w p kb st) as [e st'] eqn:Hrun; cbn [fst snd].
  unfold DorkerGoodNew.compressImage in Hrun. fold maxB in Hrun.
  unfold bind at 1 in Hrun. unfold getFileSize at 1, OS.Stat in Hrun.
  rewrite Hp in Hrun. change (f_size <$> Some f) with (Some (f_size f)) in Hrun.
  cbv iota beta in Hrun.
  destruct (f_size f <=? maxB) eqn:Hle.
  { injection Hrun as <- <-. auto. }
  apply Z.leb_gt in Hle.
  unfold bind at 1 in Hrun.
  match type of Hrun with
  | context [DorkerGoodNew.compressPass w p ?tmp ?args maxB st] =>
      destruct (compressPass_outcome p tmp args maxB st f (tmp_jpg_neq p) Hp)
        as [(H1 & H2 & H3)|(H1 & Hl & _ & g & _ & H2 & H3)];
      destruct (DorkerGoodNew.compressPass w p tmp args maxB st) as [r1 st1];
      cbn [fst snd] in *; subst r1
  end.
  2:{ injection Hrun as <- <-. split; [reflexivity|]. right. eauto. }
  unfold bind at 1 in Hrun.
  match type of Hrun with
  | context [DorkerGoodNew.compressPass w p ?tmp ?args maxB st1] =>
      destruct (compressPass_outcome p tmp args maxB st1 f (tmp2_jpg_neq p) H2)
        as [(H1' & H2' & _)|(H1' & Hl & _ & g & _ & H2' & H3')];
      destruct (DorkerGoodNew.compressPass w p tmp args maxB st1) as [r2 st2];
      cbn [fst snd] in *; subst r2
  end.
  - injection Hrun as <- <-. auto.
  - injection Hrun as <- <-. split; [reflexivity|]. right. eauto.
Qed.




End Optimizer.



(** C5.  The size optimizer is monotonically non-worsening.  For an
    artifact [f] at [p], after [optimizeImageSize], after [compressImage]
    and after each single pass of [compressImage] there is still an
    artifact at [p]; it is [f] itself, or [f] was over the budget and the
    new file is strictly below the budget, hence strictly smaller than
    [f].  In both cases it is no larger than [f]. *)
Theorem optimizer_never_grows
    (w : World) (p : string) (kb : Z) (st : State) (f : File) :
  st_fs st !! p = Some f ->
  let maxB := wrap64 (kb * 1024) in
  let improved (st' : State) :=
    exists g, st_fs st' !! p = Some g
      /\ (g = f \/ (maxB < f_size f /\ f_size g < maxB /\ f_size g < f_size f))
      /\ f_size g <= f_size f in
  improved (snd (Main.optimizeImageSize w p kb st))
  /\ improved (snd (DorkerGoodNew.compressImage w p kb st))
  /\ (maxB < f_size f ->
      forall tmp args, p <> tmp ->
        improved (snd (DorkerGoodNew.compressPass w p tmp args maxB st))).
Proof.
  intros Hp maxB improved. repeat split.
  - destruct (optimizeImageSize_outcome w p kb st f Hp)
      as (_ & [H|(Hbig & _ & g & _ & Hg & Hlt)]).
    + exists f. split; [exact H|]. split; [auto | lia].
    + exists g. fold maxB in Hbig, Hlt. split; [exact Hg|]. split; [right|]; lia.
  - destruct (compressImage_outcome w p kb st f Hp)
      as (_ & [H|(Hbig & _ & g & Hg & Hlt)]).
    + exists f. split; [exact H|]. split; [auto | lia].
    + exists g. fold maxB in Hbig, Hlt. split; [exact Hg|]. split; [right|]; lia.
  - intros Hbig tmp args Hne.
    destruct (compressPass_outcome w p tmp args maxB st f Hne Hp)
      as [(_ & H & _)|(_ & _ & _ & g & _ & Hg & Hlt)].
    + exists f. split; [exact H|]. split; [auto | lia].
    + exists g. split; [exact Hg|]. split; [right|]; lia.
Qed.

Lemma optimizer_never_grows_witness :
  let w := OptimizerSamples.goodConvert in
  let p := OptimizerSamples.shot in
  (exists g,
     st_fs (snd (Main.optimizeImageSize w p 120 OptimizerSamples.big)) !! p = Some g
     /\ f_size g <= 200000)
  /\ (exists g,
       st_fs (snd (DorkerGoodNew.compressPass w p (p +:+ ".tmp.jpg")
                    [p; "-quality"; "50"; "-resize"; "80%"; "-strip"; p +:+ ".tmp.jpg"]
                    (wrap64 (120 * 1024)) OptimizerSamples.big)) !! p = Some g
       /\ f_size g <= 200000).
Proof.
  intros w p.
  destruct (optimizer_never_grows w p 120 OptimizerSamples.big
              (mkFile (ToolOutput "wkhtmltoimage" []) 200000))
    as ((g & Hg & _ & Hle) & _ & Hpass).
  - vm_compute. reflexivity.
  - split.
    + exists g. split; [exact Hg | exact Hle].
    + destruct (Hpass ltac:(vm_compute; reflexivity) (p +:+ ".tmp.jpg")
                  [p; "-quality"; "50"; "-resize"; "80%"; "-strip"; p +:+ ".tmp.jpg"]
                  ltac:(vm_compute; discriminate))
        as (g' & Hg' & _ & Hle').
      exists g'. split; [exact Hg' | exact Hle'].
Defined.

Example optimizer_accepts_fitting_candidate :
  f_size <$> st_fs (snd (Main.optimizeImageSize OptimizerSamples.goodConvert
                           OptimizerSamples.shot 120 OptimizerSamples.big))
               !! OptimizerSamples.shot = Some 90000.
Proof. vm_compute. reflexivity. Qed.

Example optimizer_without_convert :
  let r := Main.optimizeImageSize Samples.bare OptimizerSamples.shot 120
             OptimizerSamples.big in
  let r' := DorkerGoodNew.compressImage Samples.bare OptimizerSamples.shot 120
              OptimizerSamples.big in
  fst r = None /\ f_size <$> st_fs (snd r) !! OptimizerSamples.shot = Some 200000
  /\ fst r' = None /\ f_size <$> st_fs (snd r') !! OptimizerSamples.shot = Some 200000
  /\ st_runs (snd r') = [].
Proof. vm_compute. repeat split; reflexivity. Qed.

Example optimizer_on_missing_file :
  fst (Main.optimizeImageSize OptimizerSamples.goodConvert OptimizerSamples.shot 120
         Samples.emptyState)
  = Some "stat shots/example.com_report.png: no such file or directory".
Proof. reflexivity. Qed.

Example optimizer_within_budget_runs_nothing :
  Main.optimizeImageSize OptimizerSamples.goodConvert OptimizerSamples.shot 120
    (Samples.oneFile OptimizerSamples.shot 122880)
  = (None, Samples.oneFile OptimizerSamples.shot 122880).
Proof. reflexivity. Qed.

(** ** The synthetic generators *)

Section Generators.

Variable w : World.

(** [saveImage] runs no tool and spends no time in one; it touches the
    file system at its output path only; when it returns [nil] the file
    there is the JPEG encoding of the image at quality 85. *)
Lemma saveImage_spec (img : Image) (out : string) (st : State) :
  let r := Screenshotter.saveImage w img out st in
  st_runs (snd r) = st_runs st
  /\ st_clock (snd r) = st_clock st
  /\ (forall q, q <> out -> st_fs (snd r) !! q = st_fs st !! q)
  /\ (fst r = None ->
      st_fs (snd r) !! out = Some (mkFile (JpegData 85 img) (jpegSize w 85 img)))
  /\ (fst r = None <-> createErr w out = None /\ writeErr w out = None).
Proof.
  unfold Screenshotter.saveImage, bind, ret, OS.Put.
  destruct (createErr w out) as [e|]; [|destruct (writeErr w out) as [[e n]|]];
    cbn; repeat split; try congruence; try tauto;
    try (intros; rewrite lookup_insert_ne by congruence; reflexivity);
    try (intros; apply lookup_insert_eq); intros [? ?]; congruence.
Qed.

Lemma generate_spec (out : string) (g : Screenshotter.Synthetic) (st : State) :
  let r := Screenshotter.generate w out g st in
  st_runs (snd r) = st_runs st
  /\ st_clock (snd r) = st_clock st
  /\ (forall q, q <> out -> st_fs (snd r) !! q = st_fs st !! q)
  /\ (fst r = None <-> createErr w out = None /\ writeErr w out = None).
Proof.
  destruct g; cbn;
    unfold Screenshotter.createErrorImage, Screenshotter.createPDFVisualization,
      Screenshotter.createHTMLVisualization, Screenshotter.createSuccessVisualization;
    match goal with
    | |- context [Screenshotter.saveImage w ?img out st] =>
        destruct (saveImage_spec img out st) as (H1 & H2 & H3 & _ & H5)
    end; auto.
Qed.

(** [captureWithPageRender] runs the generator call [pageRenderCall]
    describes. *)
Lemma captureWithPageRender_generate (s : Screenshotter.Screenshotter)
    (url out : string) (st : State) :
  Screenshotter.captureWithPageRender w s url out st
  = Screenshotter.generate w out (Screenshotter.pageRenderCall w s url) st.
Proof.
  unfold Screenshotter.captureWithPageRender, Screenshotter.pageRenderCall.
  destruct (newRequestErr w url); [reflexivity|].
  destruct (clientDo w (Screenshotter.timeout s) url) as [e|resp]; [reflexivity|].
  cbv zeta. destruct (resp_status resp =? 200); [|reflexivity].
  destruct (Contains (resp_content_type resp) "pdf"); [reflexivity|].
  destruct (Contains (resp_content_type resp) "html"); reflexivity.
Qed.

Lemma captureWithPageRender_disk (s : Screenshotter.Screenshotter)
    (url out : string) (st : State) :
  fst (Screenshotter.captureWithPageRender w s url out st) = None
  <-> createErr w out = None /\ writeErr w out = None.
Proof. rewrite captureWithPageRender_generate. apply generate_spec. Qed.

Lemma captureWithPageRender_runs (s : Screenshotter.Screenshotter)
    (url out : string) (st : State) :
  st_runs (snd (Screenshotter.captureWithPageRender w s url out st)) = st_runs st.
Proof. rewrite captureWithPageRender_generate. apply generate_spec. Qed.

End Generators.

(** ** The non-PDF capture chain *)

(** C4.  [Capture] is the strategy chain over wkhtmltoimage, google-chrome
    and chromium, in this order, with [captureWithPageRender] as the
    fallback.  The renderers it runs are exactly [attempts]: a renderer
    absent from the path is never run, every renderer run before the
    winner returned an error, and the chain stops at the first renderer
    that runs without error, returning [nil].  When no renderer is both
    available and successful, [Capture] is [captureWithPageRender] on the
    state the failed runs left, which returns an error only when the
    output file cannot be created or written. *)
Theorem Capture_is_first_success_chain
    (w : World) (s : Screenshotter.Screenshotter) (url out : string) (st : State) :
  let r := Screenshotter.Capture w s url out st in
  let '(tried, winner) := Chain.attempts w url out Chain.renderers in
  r = Chain.strategyChain w
        [("wkhtmltoimage", Screenshotter.captureWithWkhtmltoimage w s url out);
         ("google-chrome", Screenshotter.captureWithChrome w s url out);
         ("chromium", Screenshotter.captureWithChromium w s url out)]
        (Screenshotter.captureWithPageRender w s url out) st
  /\ tried = take (length tried) (filter (fun t => lookPath w t = true) Chain.renderers)
  /\ st_runs (snd r)
     = (st_runs st
        ++ map (fun t => mkRun t (Chain.rendererArgs t url out)) tried)%list
  /\ match winner with
     | Some t =>
         fst r = None
         /\ snd r = Chain.afterRuns w url out tried st
         /\ last tried = Some t
         /\ lookPath w t = true
         /\ tr_err (runTool w t (Chain.rendererArgs t url out)) = None
     | None =>
         r = Screenshotter.captureWithPageRender w s url out
               (Chain.afterRuns w url out tried st)
         /\ Forall (fun t => tr_err (runTool w t (Chain.rendererArgs t url out)) <> None)
                   tried
         /\ (fst r = None <-> createErr w out = None /\ writeErr w out = None)
     end.
Proof.
  unfold Screenshotter.Capture, Screenshotter.tryRenderer, Chain.strategyChain,
    Chain.attempts, Chain.renderers, Chain.runsClean, Chain.afterRuns,
    Screenshotter.captureWithWkhtmltoimage, Screenshotter.captureWithChrome,
    Screenshotter.captureWithChromium, bind, ret.
  cbn [Chain.rendererArgs String.eqb Ascii.eqb Bool.eqb].
  rewrite !filter_cons, filter_nil. unfold cmdRun.
  destruct (lookPath w "wkhtmltoimage") eqn:L1;
  destruct (lookPath w "google-chrome") eqn:L2;
  destruct (lookPath w "chromium") eqn:L3;
  destruct (tr_err (runTool w "wkhtmltoimage" ["--quiet"; url; out])) eqn:E1;
  destruct (tr_err (runTool w "google-chrome" (Screenshotter.chromeArgs url out))) eqn:E2;
  destruct (tr_err (runTool w "chromium" (Screenshotter.chromeArgs url out))) eqn:E3;
  cbn; rewrite ?E1, ?E2, ?E3; cbn; rewrite <- ?app_assoc; cbn;
  rewrite ?captureWithPageRender_runs; cbn;
  repeat match goal with |- _ /\ _ => split end;
  try apply captureWithPageRender_disk; try reflexivity; try assumption;
  try (repeat (constructor;
               [unfold Chain.rendererArgs; cbn; rewrite ?E1, ?E2, ?E3; discriminate|]);
       constructor);
  try (symmetry; apply app_nil_r).
Qed.

(** ** Time spent in external tools *)




(** ** The synthetic generator's categories *)

Lemma Sprintf_HTTP_404 : Sprintf_HTTP 404 = "HTTP 404".
Proof. vm_compute. reflexivity. Qed.

(** The pictures of the four kinds differ pairwise: the kind of a
    placeholder can be read off the artifact. *)
Lemma categoryImage_inj (c1 c2 : Screenshotter.Category) :
  categoryImage c1 = categoryImage c2 -> c1 = c2.
Proof. destruct c1, c2; vm_compute; intros H; try reflexivity; discriminate H. Qed.

(** The title and the detail given to [createErrorImage] leave no trace
    in what it writes. *)
Lemma createErrorImage_ignores_text (w : World) (out t1 d1 t2 d2 : string) :
  Screenshotter.createErrorImage w out t1 d1 = Screenshotter.createErrorImage w out t2 d2.
Proof. reflexivity. Qed.

(** A generator call that returns [nil] has written, at quality 85, the
    JPEG encoding of the picture of its kind. *)
Lemma generate_writes (w : World) (out : string) (g : Screenshotter.Synthetic) (st : State) :
  fst (Screenshotter.generate w out g st) = None ->
  st_fs (snd (Screenshotter.generate w out g st)) !! out
  = Some (mkFile (JpegData 85 (categoryImage (Screenshotter.category g)))
                 (jpegSize w 85 (categoryImage (Screenshotter.category g)))).
Proof.
  destruct g; cbn;
    unfold Screenshotter.createErrorImage, Screenshotter.createPDFVisualization,
      Screenshotter.createHTMLVisualization, Screenshotter.createSuccessVisualization;
    apply saveImage_spec.
Qed.




(** ** The PDF rasterizer chain *)

(** In the root package the first rasterizer found on the path decides:
    its result, error or not, is the result of the chain. *)
Lemma rasterize_first_available_is_final
    (w : World) (s : Screenshotter.Screenshotter) (url out tempPDF : string)
    (resp : Response) :
  lookPath w "pdftoppm" = true ->
  Screenshotter.rasterize w s url out tempPDF resp
  = Screenshotter.capturePDFWithPdftoppm w s tempPDF out.
Proof. intros H. unfold Screenshotter.rasterize. now rewrite H. Qed.

(** With no rasterizer on the path the chain ends in the PDF placeholder. *)
Lemma rasterize_without_tools
    (w : World) (s : Screenshotter.Screenshotter) (url out tempPDF : string)
    (resp : Response) :
  lookPath w "pdftoppm" = false ->
  lookPath w "convert" = false ->
  lookPath w "pdfimages" = false ->
  Screenshotter.rasterize w s url out tempPDF resp
  = Screenshotter.generate w out
      (Screenshotter.PDFVisualization url (resp_content_length_hdr resp)).
Proof. intros H1 H2 H3. unfold Screenshotter.rasterize. now rewrite H1, H2, H3. Qed.

(** C1.  The code at the failing input: pdftoppm is on the path and exits
    with an error, convert is on the path and would succeed.  [CapturePDF]
    of the root package returns the error of pdftoppm; convert is never
    run, no placeholder is written and no artifact exists at the output
    path.  The claim has the chain advance to convert; so does [CapturePDF]
    of dorkergoodnew in the same world, and [Capture] for renderers. *)
Theorem CapturePDF_stops_at_failing_pdftoppm :
  let w := PdfSamples.brokenPdftoppm in
  let r := Screenshotter.CapturePDF w Samples.shooter PdfSamples.url PdfSamples.out
             PdfSamples.tempDir Samples.emptyState in
  let r' := DorkerGoodNew.CapturePDF w 10 PdfSamples.url "shots/example.com_report.pdf"
              PdfSamples.tempDir Samples.emptyState in
  lookPath w "pdftoppm" = true
  /\ lookPath w "convert" = true
  /\ tr_err (runTool w "convert"
               ["-density"; "150"; "-quality"; "85"; PdfSamples.tempPDF +:+ "[0]";
                "-resize"; "1024x768"; PdfSamples.out]) = None
  /\ fst r = Some "pdftoppm failed: exit status 1"
  /\ map r_tool (st_runs (snd r)) = ["pdftoppm"]
  /\ st_fs (snd r) !! PdfSamples.out = None
  /\ fst r' = None
  /\ map r_tool (st_runs (snd r')) = ["pdftoppm"; "convert"]
  /\ f_size <$> st_fs (snd r') !! PdfSamples.out = Some 40000.
Proof. vm_compute. repeat split; reflexivity. Qed.

Example CapturePDF_without_rasterizers :
  let w := Samples.withServer (PdfSamples.pdfAnswer PdfSamples.smallBody None)
             Samples.bare in
  let r := Screenshotter.CapturePDF w Samples.shooter PdfSamples.url PdfSamples.out
             PdfSamples.tempDir Samples.emptyState in
  fst r = None
  /\ map_to_list (st_fs (snd r))
     = [(PdfSamples.out, mkFile (JpegData 85 Screenshotter.pdfImage) 30000)]
  /\ st_runs (snd r) = [].
Proof. vm_compute. repeat split; reflexivity. Qed.

Example CapturePDF_on_404 :
  let r := Screenshotter.CapturePDF ServerSamples.notFoundPage Samples.shooter
             PdfSamples.url PdfSamples.out PdfSamples.tempDir Samples.emptyState in
  fst r = None
  /\ map_to_list (st_fs (snd r))
     = [(PdfSamples.out, mkFile (JpegData 85 Screenshotter.errorImage) 30000)].
Proof. vm_compute. repeat split; reflexivity. Qed.

(** Past the point where [defer os.Remove(tempPDF)] is registered, the
    temporary file is gone when [CapturePDF] returns. *)
Lemma CapturePDF_removes_temp_after_download
    (w : World) (s : Screenshotter.Screenshotter) (url out tempDir : string)
    (st : State) (resp : Response) :
  mkdirErr w tempDir = None ->
  newRequestErr w url = None ->
  clientDo w (Screenshotter.timeout s) url = inr resp ->
  resp_status resp = 200 ->
  createErr w (filepath.Join tempDir "temp.pdf") = None ->
  writeErr w (filepath.Join tempDir "temp.pdf") = None ->
  resp_body_err resp = None ->
  st_fs (snd (Screenshotter.CapturePDF w s url out tempDir st))
    !! filepath.Join tempDir "temp.pdf" = None.
Proof.
  intros Hmk Hreq Hdo Hst Hcr Hwr Hbody.
  unfold Screenshotter.CapturePDF. rewrite Hmk, Hreq, Hdo, Hst. cbn [Z.eqb Pos.eqb negb].
  cbv zeta. rewrite Hcr. unfold ioCopy. rewrite Hwr, Hbody.
  unfold bind, ret, OS.Put, OS.Remove. cbn.
  destruct (Screenshotter.rasterize _ _ _ _ _ _ _) as [e st1]. cbn.
  apply lookup_delete_eq.
Qed.

(** C2.  The code at the failing input: the connection drops while the
    body is copied into the temporary file.  [CapturePDF] returns
    "failed to save temp PDF" from a point before
    [defer os.Remove(tempPDF)] is registered, and the temporary file it
    created is still there; the claim has it removed on this path too. *)
Theorem CapturePDF_leaks_temp_on_failed_copy :
  let w := PdfSamples.droppedDownload in
  let r := Screenshotter.CapturePDF w Samples.shooter PdfSamples.url PdfSamples.out
             PdfSamples.tempDir Samples.emptyState in
  let r' := DorkerGoodNew.CapturePDF w 10 PdfSamples.url "shots/example.com_report.pdf"
              PdfSamples.tempDir Samples.emptyState in
  Samples.emptyState.(st_fs) !! PdfSamples.tempPDF = None
  /\ fst r = Some "failed to save temp PDF: unexpected EOF"
  /\ st_fs (snd r) !! PdfSamples.tempPDF
     = Some (mkFile (BodyBytes PdfSamples.smallBody) 4)
  /\ fst r' = Some "failed to save temp PDF: unexpected EOF"
  /\ st_fs (snd r') !! "shots/.temp/temp_report.pdf.pdf"
     = Some (mkFile (BodyBytes PdfSamples.smallBody) 4).
Proof. vm_compute. repeat split; reflexivity. Qed.

(** ** Bytes read from the network *)

(** [fetchContent] never returns more than 100 KB. *)
Lemma fetchContent_bounded (w : World) (url : string) :
  Z.of_nat (length (DorkerGoodNew.fetchContent w url)) <= 1024 * 100.
Proof.
  unfold DorkerGoodNew.fetchContent, readAllLimited.
  destruct (newRequestErr w url); [cbn; lia|].
  destruct (clientDo w 30 url) as [e|resp]; [cbn; lia|].
  destruct (if _ <? _ then _ else _); [cbn; lia|].
  rewrite length_firstn. lia.
Qed.

(** The download of [CapturePDF] copies the whole body, whatever its
    length. *)
Lemma ioCopy_whole_body (w : World) (path : string) (resp : Response) (st : State) :
  writeErr w path = None ->
  st_fs (snd (ioCopy w path resp st)) !! path
  = Some (mkFile (BodyBytes (resp_body resp)) (Z.of_nat (length (resp_body resp)))).
Proof.
  intros H. unfold ioCopy. rewrite H. unfold bind, ret, OS.Put. cbn.
  apply lookup_insert_eq.
Qed.

(** C6.  The code at the failing input: a document of 102401 bytes.  The
    raw content fetch stops after 102400 bytes; the PDF download of
    [CapturePDF] has no ceiling and copies all 102401 bytes into the
    temporary file, which is what pdftoppm is then run on. *)
Theorem PDF_download_is_not_capped :
  let w := PdfSamples.bigDocument in
  let resp := PdfSamples.pdfAnswer PdfSamples.bigBody None in
  let r := Screenshotter.CapturePDF w Samples.shooter PdfSamples.url PdfSamples.out
             PdfSamples.tempDir Samples.emptyState in
  Z.of_nat (length (resp_body resp)) = 102401
  /\ Z.of_nat (length (DorkerGoodNew.fetchContent w PdfSamples.url)) = 102400
  /\ f_size <$> st_fs (snd (ioCopy w PdfSamples.tempPDF resp Samples.emptyState))
                  !! PdfSamples.tempPDF = Some 102401
  /\ fst r = None
  /\ st_runs (snd r)
     = [mkRun "pdftoppm" ["-png"; "-f"; "1"; "-l"; "1"; "-singlefile";
                          PdfSamples.tempPDF; "shots/example.com_report.pdf"]].
Proof. vm_compute. repeat split; reflexivity. Qed.

(** ** File names *)

Section FileNames.

Lemma sliceTo_length (n : nat) (s : string) :
  (String.length (sliceTo n s) <= n)%nat.
Proof.
  revert s. induction n as [|n IH]; intros [|c s]; simpl; try lia.
  specialize (IH s). lia.
Qed.

Lemma allChars_sliceTo (P : ascii -> bool) (n : nat) (s : string) :
  allChars P s = true -> allChars P (sliceTo n s) = true.
Proof.
  revert s. induction n as [|n IH]; intros [|c s]; simpl; auto.
  intros [Hc Hs]%andb_prop. rewrite Hc. simpl. auto.
Qed.

Lemma allChars_app (P : ascii -> bool) (s t : string) :
  allChars P (s +:+ t) = allChars P s && allChars P t.
Proof. induction s as [|c s IH]; simpl; [reflexivity|]. now rewrite IH, andb_assoc. Qed.

Lemma allChars_impl (P Q : ascii -> bool) (s : string) :
  (forall c, P c = true -> Q c = true) ->
  allChars P s = true -> allChars Q s = true.
Proof.
  intros HPQ. induction s as [|c s IH]; simpl; [reflexivity|].
  intros [Hc Hs]%andb_prop. rewrite (HPQ c Hc). simpl. auto.
Qed.

(** Whatever the input, the pattern leaves only bytes of the class. *)
Lemma replaceOutside_inClass (skip : nat) (s : string) :
  allChars Regexp.inClass (Regexp.replaceOutside skip s) = true.
Proof.
  revert skip. induction s as [|c s IH]; intros skip; simpl; [reflexivity|].
  destruct skip as [|k]; [|apply IH].
  destruct (Regexp.inClass c) eqn:Hc; simpl; [rewrite Hc|]; simpl; apply IH.
Qed.

Lemma sanitizeFilename_inClass (url : string) :
  allChars Regexp.inClass (Main.sanitizeFilename url) = true.
Proof.
  unfold Main.sanitizeFilename, Regexp.ReplaceAllString.
  destruct (len _ >? 50); [apply allChars_sliceTo|]; apply replaceOutside_inClass.
Qed.

Lemma sanitizeFilename_length (url : string) :
  len (Main.sanitizeFilename url) <= 50.
Proof.
  unfold Main.sanitizeFilename.
  destruct (len _ >? 50) eqn:Hlen.
  - unfold len. pose proof (sliceTo_length 50 (Regexp.ReplaceAllString
      (CutFirst (CutFirst url "https://") "http://"))). lia.
  - lia.
Qed.

End FileNames.

Example sanitizeFilename_samples :
  Main.sanitizeFilename "https://example.com/docs/report.pdf" = "example.com_docs_report.pdf"
  /\ Main.sanitizeFilename "http://example.com/a?b=1&c=2" = "example.com_a_b_1_c_2"
  /\ Main.sanitizeFilename "ftp://http://x" = "ftp___x"
  /\ Main.sanitizeFilename
       "https://example.com/0123456789/0123456789/0123456789/0123456789/tail"
     = "example.com_0123456789_0123456789_0123456789_01234".
Proof. vm_compute. repeat split; reflexivity. Qed.

Example sanitizeFilename_counts_runes :
  Main.sanitizeFilename
    ("http://x/" +:+ String (ascii_of_nat 195) (String (ascii_of_nat 169) "z")) = "x__z"
  /\ Main.sanitizeFilename ("http://x/" +:+ String (ascii_of_nat 169) "z") = "x__z"
  /\ Main.sanitizeFilename
       ("http://x/" +:+ String (ascii_of_nat 195) (String (ascii_of_nat 40) "z")) = "x___z".
Proof. vm_compute. repeat split; reflexivity. Qed.


(** ** Output paths *)

Section Paths.

Lemma inClass_notSlash (c : ascii) : Regexp.inClass c = true -> notSlash c = true.
Proof.
  unfold notSlash. destruct (Ascii.eqb_spec c "/") as [->|]; [|reflexivity].
  vm_compute. discriminate.
Qed.

Lemma elements_nonempty (s : string) : filepath.elements s <> [].
Proof.
  destruct s as [|c s]; simpl; [discriminate|].
  destruct (Ascii.eqb c "/"); [discriminate|].
  destruct (filepath.elements s); discriminate.
Qed.

Lemma elements_no_slash (s : string) :
  allChars notSlash s = true -> filepath.elements s = [s].
Proof.
  induction s as [|c s IH]; simpl; [reflexivity|].
  unfold notSlash at 1. intros [Hc Hs]%andb_prop.
  apply negb_true_iff in Hc. rewrite Hc, (IH Hs). reflexivity.
Qed.

Lemma elements_app_slash (a b : string) :
  filepath.elements (a +:+ "/" +:+ b)
  = (filepath.elements a ++ filepath.elements b)%list.
Proof.
  induction a as [|c a IH]; simpl; [reflexivity|].
  destruct (Ascii.eqb c "/"); rewrite IH; [reflexivity|].
  pose proof (elements_nonempty a).
  destruct (filepath.elements a); [congruence | reflexivity].
Qed.

Lemma sliceFrom_app (x y : string) (n : nat) :
  sliceFrom (String.length x + n) (x +:+ y) = sliceFrom n y.
Proof. induction x as [|c x IH]; simpl; [reflexivity | exact IH]. Qed.

Lemma HasSuffix_app (x y suf : string) :
  HasSuffix y suf = true -> HasSuffix (x +:+ y) suf = true.
Proof.
  unfold HasSuffix. intros [Hlen Heq]%andb_prop.
  apply Nat.leb_le in Hlen. rewrite append_length.
  apply andb_true_intro. split; [apply Nat.leb_le; lia|].
  replace (String.length x + String.length y - String.length suf)%nat
    with (String.length x + (String.length y - String.length suf))%nat by lia.
  now rewrite sliceFrom_app.
Qed.

Lemma HasSuffix_self (x suf : string) : HasSuffix (x +:+ suf) suf = true.
Proof.
  apply HasSuffix_app. unfold HasSuffix.
  rewrite Nat.leb_refl, Nat.sub_diag. simpl. apply String.eqb_refl.
Qed.

Lemma joinSlash_last (l : list string) (b : string) :
  exists x, filepath.joinSlash (l ++ [b]) = x +:+ b.
Proof.
  induction l as [|e l IH]; simpl.
  - exists "". reflexivity.
  - destruct IH as [x Hx]. destruct (l ++ [b])%list eqn:Hl.
    + destruct l; discriminate.
    + rewrite Hx. exists (e +:+ "/" +:+ x).
      rewrite <- !append_assoc. reflexivity.
Qed.

(** A path whose last element is an ordinary name keeps that name at
    its end when cleaned. *)
Lemma Clean_keeps_last (s : string) (l : list string) (b suf : string) :
  filepath.elements s = (l ++ [b])%list ->
  (2 < String.length b)%nat ->
  HasSuffix b suf = true ->
  HasSuffix (filepath.Clean s) suf = true.
Proof.
  intros Hel Hlen Hsuf. unfold filepath.Clean. rewrite Hel, fold_left_app. simpl.
  assert (Hstep : forall kept,
             filepath.cleanStep (filepath.rooted s) kept b = b :: kept).
  { intros kept. unfold filepath.cleanStep.
    destruct b as [|c1 [|c2 [|c3 b']]]; simpl in Hlen; try lia.
    simpl. destruct (Ascii.eqb c1 "."); simpl;
      [destruct (Ascii.eqb c2 "."); simpl|]; reflexivity. }
  rewrite Hstep. simpl.
  destruct (joinSlash_last
              (rev (fold_left (filepath.cleanStep (filepath.rooted s)) l [])) b)
    as [x Hx].
  rewrite Hx.
  destruct (filepath.rooted s).
  - apply HasSuffix_app, HasSuffix_app, Hsuf.
  - destruct (String.eqb_spec (x +:+ b) "") as [Hempty|_].
    + apply (f_equal String.length) in Hempty. rewrite append_length in Hempty.
      simpl in Hempty. lia.
    + apply HasSuffix_app, Hsuf.
Qed.

(** The output path of a target ends in ".png" in every directory. *)
Lemma output_path_png (dir url : string) :
  HasSuffix (filepath.Join dir (Main.sanitizeFilename url +:+ ".png")) ".png" = true.
Proof.
  set (b := Main.sanitizeFilename url +:+ ".png").
  assert (Hb : allChars notSlash b = true).
  { unfold b. rewrite allChars_app. apply andb_true_intro. split; [|reflexivity].
    eapply allChars_impl; [apply inClass_notSlash | apply sanitizeFilename_inClass]. }
  assert (Hlen : (2 < String.length b)%nat).
  { unfold b. rewrite append_length. simpl. lia. }
  assert (Hsuf : HasSuffix b ".png" = true) by apply HasSuffix_self.
  assert (Hne : String.eqb b "" = false).
  { apply String.eqb_neq. intros Hb0. rewrite Hb0 in Hlen. simpl in Hlen. lia. }
  unfold filepath.Join. rewrite Hne.
  destruct (String.eqb dir "").
  - apply (Clean_keeps_last b [] b); auto using elements_no_slash.
  - apply (Clean_keeps_last _ (filepath.elements dir) b); auto.
    rewrite elements_app_slash, (elements_no_slash b Hb). reflexivity.
Qed.

End Paths.




(** * Further properties of the code *)

(** ** Substring search *)

Section Substrings.

Lemma append_cons (c : ascii) (a b : string) :
  String c a +:+ b = String c (a +:+ b).
Proof. reflexivity. Qed.

Lemma HasPrefix_iff (s p : string) :
  HasPrefix s p = true <-> exists b, s = p +:+ b.
Proof.
  unfold HasPrefix. revert s. induction p as [|c p IH]; intros s; simpl.
  - split; [intros _; exists s; reflexivity | intros _; destruct s; reflexivity].
  - destruct s as [|d s]; simpl.
    + split; [discriminate | intros [b Hb]; discriminate].
    + destruct (ascii_dec c d) as [->|Hne].
      * rewrite IH. split; intros [b Hb]; exists b; [now rewrite Hb | now injection Hb].
      * split; [discriminate | intros [b Hb]; injection Hb; congruence].
Qed.

Lemma sliceTo_prefix_iff (s p : string) :
  String.eqb (sliceTo (String.length p) s) p = true <-> exists b, s = p +:+ b.
Proof.
  rewrite String.eqb_eq. revert s. induction p as [|c p IH]; intros s; simpl.
  - split; [intros _; exists s; reflexivity | reflexivity].
  - destruct s as [|d s]; simpl.
    + split; [discriminate | intros [b Hb]; discriminate].
    + split.
      * intros [= -> H]. apply IH in H as [b ->]. exists b. reflexivity.
      * intros [b [= -> ->]]. f_equal. apply IH. exists b. reflexivity.
Qed.

Lemma sliceFrom_split (i : nat) (s : string) :
  (i <= String.length s)%nat ->
  exists a, s = a +:+ sliceFrom i s /\ String.length a = i.
Proof.
  revert s. induction i as [|i IH]; intros s Hi.
  - exists "". split; reflexivity.
  - destruct s as [|c s]; simpl in Hi; [lia|].
    destruct (IH s ltac:(lia)) as (a & Ha & Hlen).
    exists (String c a). rewrite append_cons. simpl.
    split; [now rewrite <- Ha | now rewrite Hlen].
Qed.

Lemma sliceFrom_app_exact (a b : string) : sliceFrom (String.length a) (a +:+ b) = b.
Proof. induction a as [|c a IH]; simpl; [destruct b; reflexivity | exact IH]. Qed.

(** The loop finds [substr] exactly when it starts at one of the indices
    the loop visits. *)
Lemma containsLoop_iff (n i : nat) (s substr : string) :
  PageContent.containsLoop n i s substr = true
  <-> exists j, (i <= j < i + n)%nat
                /\ String.eqb (sliceTo (String.length substr) (sliceFrom j s)) substr = true.
Proof.
  revert i. induction n as [|n IH]; intros i; simpl.
  - split; [discriminate | intros (j & Hj & _); lia].
  - destruct (String.eqb _ substr) eqn:Hhere.
    + split; [intros _; exists i; split; [lia | exact Hhere] | reflexivity].
    + rewrite IH. split; intros (j & Hj & Hm).
      * exists j. split; [lia | exact Hm].
      * exists j. split; [|exact Hm].
        destruct (Nat.eq_dec j i) as [->|]; [congruence | lia].
Qed.

End Substrings.

Lemma contains_iff (s substr : string) :
  PageContent.contains s substr = true <-> exists a b, s = a +:+ substr +:+ b.
Proof.
  unfold PageContent.contains, len.
  rewrite containsLoop_iff. split.
  - intros (j & Hj & Hm). apply sliceTo_prefix_iff in Hm as [b Hb].
    destruct (sliceFrom_split j s) as (a & Ha & _); [lia|].
    exists a, b. now rewrite <- Hb.
  - intros (a & b & ->). exists (String.length a). split.
    + rewrite !append_length. lia.
    + rewrite sliceFrom_app_exact. apply sliceTo_prefix_iff. exists b. reflexivity.
Qed.

(** X1.  The hand-written [contains] of dorkergoodnew is substring search:
    it answers [true] exactly when [s] can be cut into a part before
    [substr], [substr] itself, and a part after.  In particular the empty
    string is found in every string, and nothing longer than [s] is found
    in [s]. *)
Theorem contains_is_substring_search (s substr : string) :
  (PageContent.contains s substr = true <-> exists a b, s = a +:+ substr +:+ b)
  /\ PageContent.contains s "" = true
  /\ ((String.length s < String.length substr)%nat ->
      PageContent.contains s substr = false).
Proof.
  split; [apply contains_iff|]. split.
  - apply contains_iff. exists "", s. reflexivity.
  - intros Hlen. destruct (PageContent.contains s substr) eqn:Hc; [|reflexivity].
    apply contains_iff in Hc as (a & b & ->). rewrite !append_length in Hlen. lia.
Qed.

(** ** Saving page content *)

Section PageContentFacts.

Variable w : World.

Lemma WriteBytes_spec (path : string) (data : list byte) (st : State) :
  let r := PageContent.WriteBytes w path data st in
  st_runs (snd r) = st_runs st
  /\ (forall q, q <> path -> st_fs (snd r) !! q = st_fs st !! q)
  /\ (fst r = None ->
      st_fs (snd r) = <[path := mkFile (BodyBytes data) (Z.of_nat (length data))]> (st_fs st))
  /\ (fst r = None <-> createErr w path = None /\ writeErr w path = None).
Proof.
  unfold PageContent.WriteBytes, bind, ret, OS.Put.
  destruct (createErr w path) as [e|]; [|destruct (writeErr w path) as [[e n]|]];
    cbn; repeat split; try congruence; try tauto;
    try (intros; rewrite lookup_insert_ne by congruence; reflexivity);
    intros [? ?]; congruence.
Qed.

Lemma WriteFile_spec (path text : string) (st : State) :
  let r := DorkerGoodNew.WriteFile w path text st in
  st_runs (snd r) = st_runs st
  /\ (forall q, q <> path -> st_fs (snd r) !! q = st_fs st !! q)
  /\ (fst r = None ->
      st_fs (snd r) = <[path := mkFile (TextData text) (len text)]> (st_fs st))
  /\ (fst r = None <-> createErr w path = None /\ writeErr w path = None).
Proof.
  unfold DorkerGoodNew.WriteFile, bind, ret, OS.Put.
  destruct (createErr w path) as [e|]; [|destruct (writeErr w path) as [[e n]|]];
    cbn; repeat split; try congruence; try tauto;
    try (intros; rewrite lookup_insert_ne by congruence; reflexivity);
    intros [? ?]; congruence.
Qed.

Lemma saveContent_spec (out : string) (content : list byte) (ct url : string)
    (st : State) :
  let r := PageContent.saveContent w out content ct url st in
  let path := out +:+ PageContent.contentExt ct in
  st_runs (snd r) = st_runs st
  /\ (forall q, q <> path -> st_fs (snd r) !! q = st_fs st !! q)
  /\ (fst r = None ->
      st_fs (snd r)
      = <[path := mkFile (BodyBytes content) (Z.of_nat (length content))]> (st_fs st))
  /\ (fst r = None <->
      mkdirErr w (filepath.Dir path) = None
      /\ createErr w path = None /\ writeErr w path = None).
Proof.
  unfold PageContent.saveContent. cbv zeta.
  destruct (mkdirErr w _) as [e|] eqn:Hmk.
  { cbn. repeat split; try congruence; try tauto. intros (? & _); congruence. }
  unfold bind.
  destruct (WriteBytes_spec (out +:+ PageContent.contentExt ct) content st)
    as (H1 & H2 & H3 & H4).
  destruct (PageContent.WriteBytes w _ content st) as [[e|] st1]; cbn in *.
  - repeat split; try assumption; try congruence.
    intros (_ & Hc & Hw). assert (Some e = None) by (apply H4; auto). congruence.
  - repeat split; try assumption; auto; apply H4; reflexivity.
Qed.

End PageContentFacts.



(** X4.  [fetchContent] returns the empty string on every failure, and
    otherwise the first [1024*100] bytes of the body, at most, whatever
    the status code of the answer: a read error only empties the result
    when it is met before the limit. *)
Theorem fetchContent_is_bounded_prefix (w : World) (url : string) :
  let c := DorkerGoodNew.fetchContent w url in
  Z.of_nat (length c) <= 1024 * 100
  /\ (newRequestErr w url <> None -> c = [])
  /\ (forall e, clientDo w 30 url = inl e -> c = [])
  /\ (forall resp,
        newRequestErr w url = None ->
        clientDo w 30 url = inr resp ->
        (exists rest, resp_body resp = (c ++ rest)%list)
        /\ (resp_body_err resp = None \/ 1024 * 100 <= Z.of_nat (length (resp_body resp)) ->
            c = firstn (Z.to_nat (1024 * 100)) (resp_body resp))
        /\ (resp_body_err resp <> None ->
            Z.of_nat (length (resp_body resp)) < 1024 * 100 -> c = [])).
Proof.
  cbv zeta. split; [apply fetchContent_bounded|].
  unfold DorkerGoodNew.fetchContent, readAllLimited.
  destruct (newRequestErr w url) as [e|].
  { repeat split; try reflexivity; intros; congruence. }
  split; [congruence|].
  destruct (clientDo w 30 url) as [e|resp].
  { split; [reflexivity | intros; congruence]. }
  split; [intros; congruence|].
  intros resp' _ [= <-].
  destruct (Z.of_nat (length (resp_body resp)) <? 1024 * 100) eqn:Hlt.
  - apply Z.ltb_lt in Hlt. destruct (resp_body_err resp) as [e|].
    + repeat split.
      * exists (resp_body resp). reflexivity.
      * intros [?|?]; [congruence | lia].
    + repeat split.
      * exists (skipn (Z.to_nat (1024 * 100)) (resp_body resp)).
        symmetry. apply firstn_skipn.
      * congruence.
  - apply Z.ltb_ge in Hlt. repeat split.
    + exists (skipn (Z.to_nat (1024 * 100)) (resp_body resp)).
      symmetry. apply firstn_skipn.
    + intros; lia.
Qed.

(** ** More on the size optimizer *)

(** X5.  An artifact that already fits the budget is left alone: both
    optimizers return [nil] with the machine exactly as it was; no tool
    is run and no file is touched. *)
Theorem optimizer_is_noop_within_budget
    (w : World) (p : string) (kb : Z) (st : State) (f : File) :
  st_fs st !! p = Some f ->
  f_size f <= wrap64 (kb * 1024) ->
  Main.optimizeImageSize w p kb st = (None, st)
  /\ DorkerGoodNew.compressImage w p kb st = (None, st).
Proof.
  intros Hp Hfit. apply Z.leb_le in Hfit.
  unfold Main.optimizeImageSize, DorkerGoodNew.compressImage, bind, getFileSize, OS.Stat.
  rewrite Hp. change (f_size <$> Some f) with (Some (f_size f)). cbv iota beta zeta.
  rewrite Hfit. split; reflexivity.
Qed.

Lemma optimizer_is_noop_within_budget_witness :
  Main.optimizeImageSize OptimizerSamples.goodConvert OptimizerSamples.shot 120
    (Samples.oneFile OptimizerSamples.shot 100000)
  = (None, Samples.oneFile OptimizerSamples.shot 100000).
Proof.
  apply (optimizer_is_noop_within_budget OptimizerSamples.goodConvert
           OptimizerSamples.shot 120 (Samples.oneFile OptimizerSamples.shot 100000)
           (mkFile (ToolOutput "wkhtmltoimage" []) 100000)).
  - vm_compute. reflexivity.
  - vm_compute. discriminate.
Defined.

(** X6.  [optimizeImageSize] cleans up after a [convert] run that exits
    with status 0: whether the candidate was accepted or discarded, no
    file is left at the temporary path, and apart from the artifact and
    the temporary path the disk is as it was. *)
Theorem optimizer_removes_its_temporary_file
    (w : World) (p : string) (kb : Z) (st : State) (f : File) :
  st_fs st !! p = Some f ->
  wrap64 (kb * 1024) < f_size f ->
  let tmp := p +:+ ".tmp.jpg" in
  tr_err (runTool w "convert" [p; "-quality"; "60"; "-resize"; "50%"; tmp]) = None ->
  let st' := snd (Main.optimizeImageSize w p kb st) in
  st_fs st' !! tmp = None
  /\ (forall q, q <> p -> q <> tmp -> st_fs st' !! q = st_fs st !! q).
Proof.
  intros Hp Hbig tmp Herr st'. subst st'.
  apply Z.leb_gt in Hbig.
  unfold Main.optimizeImageSize, bind, getFileSize, OS.Stat.
  rewrite Hp. change (f_size <$> Some f) with (Some (f_size f)). cbv iota beta zeta.
  rewrite Hbig. fold tmp.
  pose proof (cmdRun_err w "convert" [p; "-quality"; "60"; "-resize"; "50%"; tmp] tmp st)
    as He.
  pose proof (cmdRun_other w "convert" [p; "-quality"; "60"; "-resize"; "50%"; tmp] tmp st)
    as Hother.
  destruct (cmdRun w "convert" _ tmp st) as [err st1]. cbn [fst snd] in *.
  rewrite Herr in He. subst err.
  assert (Hne : p <> tmp) by apply tmp_jpg_neq.
  destruct (st_fs st1 !! tmp) as [g|] eqn:Htmp; cbn.
  - destruct (f_size g <? wrap64 (kb * 1024)); cbn; unfold OS.Rename; cbn.
    + rewrite lookup_delete_ne by congruence. rewrite Htmp. cbn. split.
      * rewrite lookup_insert_ne by congruence. apply lookup_delete_eq.
      * intros q Hq1 Hq2.
        rewrite lookup_insert_ne, !lookup_delete_ne by congruence. now apply Hother.
    + split; [apply lookup_delete_eq|].
      intros q Hq1 Hq2. rewrite lookup_delete_ne by congruence. now apply Hother.
  - split; [apply lookup_delete_eq|].
    intros q Hq1 Hq2. rewrite lookup_delete_ne by congruence. now apply Hother.
Qed.

Lemma optimizer_removes_its_temporary_file_witness :
  st_fs (snd (Main.optimizeImageSize OptimizerSamples.weakConvert OptimizerSamples.shot 120
                OptimizerSamples.big)) !! (OptimizerSamples.shot +:+ ".tmp.jpg") = None.
Proof.
  pose proof (optimizer_removes_its_temporary_file OptimizerSamples.weakConvert
                OptimizerSamples.shot 120 OptimizerSamples.big
                (mkFile (ToolOutput "wkhtmltoimage" []) 200000)) as H.
  cbv zeta in H. destruct H as [Hgone _].
  - vm_compute. reflexivity.
  - vm_compute. reflexivity.
  - vm_compute. reflexivity.
  - exact Hgone.
Defined.

(** ** More on file names *)

Section Idempotence.

Lemma CutFirst_absent (s old : string) (bad : ascii) :
  Regexp.inClass bad = false ->
  (exists a b, old = a +:+ String bad b) ->
  allChars Regexp.inClass s = true ->
  CutFirst s old = s.
Proof.
  intros Hbad (a & b & ->) Hs.
  induction s as [|c s IH].
  - cbn [CutFirst]. destruct (HasPrefix "" (a +:+ String bad b)) eqn:Hp; [|reflexivity].
    apply HasPrefix_iff in Hp as [x Hx]. destruct a; discriminate.
  - simpl in Hs. apply andb_prop in Hs as [Hc Hs].
    cbn [CutFirst]. destruct (HasPrefix (String c s) (a +:+ String bad b)) eqn:Hp.
    + exfalso. apply HasPrefix_iff in Hp as [x Hx].
      assert (Hall : allChars Regexp.inClass (String c s) = true)
        by (simpl; now rewrite Hc, Hs).
      rewrite Hx, !allChars_app in Hall. cbn [allChars] in Hall.
      rewrite Hbad in Hall. cbn in Hall.
      rewrite andb_false_r in Hall. discriminate.
    + now rewrite (IH Hs).
Qed.

Lemma replaceOutside_fixed (s : string) :
  allChars Regexp.inClass s = true -> Regexp.replaceOutside 0 s = s.
Proof.
  induction s as [|c s IH]; simpl; [reflexivity|].
  intros [Hc Hs]%andb_prop. now rewrite Hc, (IH Hs).
Qed.

End Idempotence.

(** X7.  [sanitizeFilename] is idempotent, and it leaves alone every
    string of at most 50 bytes that is made of [[a-zA-Z0-9._-]] only. *)
Theorem sanitizeFilename_idempotent (url : string) :
  Main.sanitizeFilename (Main.sanitizeFilename url) = Main.sanitizeFilename url
  /\ (allChars Regexp.inClass url = true -> len url <= 50 ->
      Main.sanitizeFilename url = url).
Proof.
  assert (Hfix : forall s, allChars Regexp.inClass s = true -> len s <= 50 ->
                           Main.sanitizeFilename s = s).
  { intros s Hs Hlen. unfold Main.sanitizeFilename, Regexp.ReplaceAllString.
    rewrite (CutFirst_absent s "https://" ":");
      [|reflexivity | exists "https", "//"; reflexivity | exact Hs].
    rewrite (CutFirst_absent s "http://" ":");
      [|reflexivity | exists "http", "//"; reflexivity | exact Hs].
    rewrite (replaceOutside_fixed s Hs).
    destruct (len s >? 50) eqn:Hgt; [|reflexivity].
    apply Z.gtb_lt in Hgt. lia. }
  split.
  - apply Hfix; [apply sanitizeFilename_inClass | apply sanitizeFilename_length].
  - apply Hfix.
Qed.

(** ** More on [CapturePDF] of the root package *)




(** X10.  [capturePDFWithPdfimages] returns [nil] only when it has moved
    the extracted image: the file that pdfimages left at
    [<dir>/.pdfimage-000.png] is then the artifact at the output path and
    is gone from where it was.  When pdfimages exits with status 0 and
    that file is missing, the error is "no images extracted from PDF". *)
Theorem pdfimages_success_moves_the_image
    (w : World) (s : Screenshotter.Screenshotter) (pdf out : string) (st : State) :
  let base := filepath.Join (filepath.Dir out) ".pdfimage" in
  let first := base +:+ "-000.png" in
  let args := ["-png"; "-f"; "1"; "-l"; "1"; pdf; base] in
  let ran := snd (cmdRun w "pdfimages" args first st) in
  let r := Screenshotter.capturePDFWithPdfimages w s pdf out st in
  (fst r = None ->
   tr_err (runTool w "pdfimages" args) = None
   /\ exists f, st_fs ran !! first = Some f
        /\ st_fs (snd r) !! out = Some f
        /\ (first <> out -> st_fs (snd r) !! first = None))
  /\ (tr_err (runTool w "pdfimages" args) = None ->
      st_fs ran !! first = None ->
      fst r = Some "no images extracted from PDF").
Proof.
  cbv zeta.
  destruct (Screenshotter.capturePDFWithPdfimages w s pdf out st) as [res st'] eqn:Hrun.
  cbn [fst snd]. unfold Screenshotter.capturePDFWithPdfimages in Hrun. cbv zeta in Hrun.
  set (base := filepath.Join (filepath.Dir out) ".pdfimage") in *.
  set (first := base +:+ "-000.png") in *.
  set (args := ["-png"; "-f"; "1"; "-l"; "1"; pdf; base]) in *.
  unfold bind at 1 in Hrun.
  pose proof (cmdRun_err w "pdfimages" args first st) as He.
  destruct (cmdRun w "pdfimages" args first st) as [err st1]. cbn [fst snd] in *.
  subst err. destruct (tr_err (runTool w "pdfimages" args)) as [e|].
  { injection Hrun as <- <-. split; [discriminate | congruence]. }
  unfold bind, ret, OS.Stat, OS.Rename in Hrun.
  destruct (st_fs st1 !! first) as [f|] eqn:Hf; cbn in Hrun.
  - rewrite Hf in Hrun. injection Hrun as <- <-. cbn.
    split; [|congruence]. intros _. split; [reflexivity|].
    exists f. split; [reflexivity|]. split; [apply lookup_insert_eq|].
    intros Hne. rewrite lookup_insert_ne by congruence. apply lookup_delete_eq.
  - injection Hrun as <- <-. split; [discriminate | reflexivity].
Qed.

(** ** [CapturePDF] of dorkergoodnew *)

Section NewCapturePDF.

Variable w : World.

Lemma elements_last_suffix (x suf : string) :
  allChars notSlash suf = true ->
  exists l e, filepath.elements (x +:+ suf) = (l ++ [e +:+ suf])%list.
Proof.
  intros Hsuf. induction x as [|c x (l & e & IH)].
  - exists [], "". simpl. now apply elements_no_slash.
  - rewrite append_cons. simpl. destruct (Ascii.eqb c "/").
    + exists ("" :: l), e. now rewrite IH.
    + rewrite IH. destruct l as [|h l]; simpl.
      * exists [], (String c e). reflexivity.
      * exists (String c h :: l), e. reflexivity.
Qed.

(** A joined path whose last element is given a suffix without slashes
    still ends with that suffix. *)
Lemma Join_keeps_suffix (dir x suf : string) :
  allChars notSlash suf = true ->
  (2 < String.length suf)%nat ->
  HasSuffix (filepath.Join dir (x +:+ suf)) suf = true.
Proof.
  intros Hsuf Hlen.
  destruct (elements_last_suffix x suf Hsuf) as (l & e & Hel).
  assert (Hne : String.eqb (x +:+ suf) "" = false).
  { apply String.eqb_neq. intros H0. apply (f_equal String.length) in H0.
    rewrite append_length in H0. simpl in H0. lia. }
  assert (Hlast : (2 < String.length (e +:+ suf))%nat)
    by (rewrite append_length; lia).
  unfold filepath.Join. rewrite Hne. destruct (String.eqb dir "").
  - apply (Clean_keeps_last _ l (e +:+ suf)); auto using HasSuffix_self.
  - apply (Clean_keeps_last _ (filepath.elements dir ++ l) (e +:+ suf));
      auto using HasSuffix_self.
    rewrite elements_app_slash, Hel, app_assoc. reflexivity.
Qed.

Lemma suffixes_differ (p q a b : string) :
  String.length a = String.length b -> a <> b ->
  HasSuffix p a = true -> HasSuffix q b = true -> p <> q.
Proof.
  unfold HasSuffix. intros Hlen Hab [_ Ha]%andb_prop [_ Hb]%andb_prop ->.
  apply String.eqb_eq in Ha, Hb. rewrite Hlen in Ha. congruence.
Qed.

Lemma tempPDF_is_not_the_image (tempDir url out : string) :
  filepath.Join tempDir ("temp_" +:+ filepath.Base url +:+ ".pdf") <> out +:+ ".png".
Proof.
  apply (suffixes_differ _ _ ".pdf" ".png"); [reflexivity | discriminate | |].
  - replace ("temp_" +:+ filepath.Base url +:+ ".pdf")
      with (("temp_" +:+ filepath.Base url) +:+ ".pdf") by apply append_assoc.
    apply Join_keeps_suffix; [reflexivity | simpl; lia].
  - apply HasSuffix_self.
Qed.

(** [compressImage] returns [nil] only for an image that exists, and the
    image still exists afterwards. *)
Lemma compressImage_nil_has_image (p : string) (kb : Z) (st : State) :
  fst (DorkerGoodNew.compressImage w p kb st) = None ->
  exists f, st_fs (snd (DorkerGoodNew.compressImage w p kb st)) !! p = Some f.
Proof.
  destruct (st_fs st !! p) as [f|] eqn:Hp.
  - intros _. destruct (compressImage_outcome w p kb st f Hp)
      as (_ & [H|(_ & _ & g & Hg & _)]); eauto.
  - unfold DorkerGoodNew.compressImage, bind, getFileSize, OS.Stat.
    rewrite Hp. cbn. discriminate.
Qed.

Lemma tryRasterizer_true (tool : string) (args : list string) (img : string) (st : State) :
  fst (DorkerGoodNew.tryRasterizer w tool args img st) = true ->
  lookPath w tool = true
  /\ tr_err (runTool w tool args) = None
  /\ exists f, st_fs (snd (DorkerGoodNew.tryRasterizer w tool args img st)) !! img = Some f.
Proof.
  destruct (DorkerGoodNew.tryRasterizer w tool args img st) as [ok st'] eqn:Hrun.
  cbn [fst snd]. unfold DorkerGoodNew.tryRasterizer in Hrun.
  destruct (lookPath w tool); [|injection Hrun as <- _; discriminate].
  unfold bind at 1 in Hrun. pose proof (cmdRun_err w tool args img st) as He.
  destruct (cmdRun w tool args img st) as [err st1]. cbn [fst] in He. subst err.
  destruct (tr_err (runTool w tool args)); [injection Hrun as <- _; discriminate|].
  unfold bind, ret in Hrun. pose proof (compressImage_nil_has_image img 100 st1) as Hc.
  destruct (DorkerGoodNew.compressImage w img 100 st1) as [[e|] st2]; cbn in *;
    injection Hrun as <- <-; [discriminate|].
  intros _. auto.
Qed.

Lemma rasterize_nil (out tempPDF : string) (st : State) :
  fst (DorkerGoodNew.rasterize w out tempPDF st) = None ->
  (exists f, st_fs (snd (DorkerGoodNew.rasterize w out tempPDF st)) !! (out +:+ ".png")
             = Some f)
  /\ exists t args, In t ["pdftoppm"; "convert"; "gs"]
       /\ lookPath w t = true /\ tr_err (runTool w t args) = None.
Proof.
  destruct (DorkerGoodNew.rasterize w out tempPDF st) as [res st'] eqn:Hrun.
  cbn [fst snd]. unfold DorkerGoodNew.rasterize in Hrun. cbv zeta in Hrun.
  repeat (unfold bind at 1 in Hrun;
          match type of Hrun with
          | context [DorkerGoodNew.tryRasterizer w ?t ?a ?i ?s] =>
              pose proof (tryRasterizer_true t a i s) as Ht;
              destruct (DorkerGoodNew.tryRasterizer w t a i s) as [[|] ?];
              cbn [fst snd] in *;
              [destruct (Ht eq_refl) as (Hl & He & Hf); injection Hrun as <- <-;
               intros _; split; [exact Hf|]; exists t, a; simpl; tauto
              | clear Ht]
          end).
  injection Hrun as <- <-. discriminate.
Qed.

End NewCapturePDF.

(** X11.  When the download succeeded, [CapturePDF] of dorkergoodnew
    returns [nil] only if an image file exists at [outputPath + ".png"]
    on return: a rasterizer that exits with status 0 without leaving the
    image does not end the chain.  Some rasterizer among pdftoppm,
    convert and gs was then on the path and ran without error, and the
    temporary PDF is gone. *)
Theorem new_CapturePDF_success_has_image
    (w : World) (timeout : Z) (url out tempDir : string) (st : State) (resp : Response) :
  newRequestErr w url = None ->
  clientDo w timeout url = inr resp ->
  resp_status resp = 200 ->
  let r := DorkerGoodNew.CapturePDF w timeout url out tempDir st in
  let tempPDF := filepath.Join tempDir ("temp_" +:+ filepath.Base url +:+ ".pdf") in
  fst r = None ->
  (exists f, st_fs (snd r) !! (out +:+ ".png") = Some f)
  /\ st_fs (snd r) !! tempPDF = None
  /\ exists t args, In t ["pdftoppm"; "convert"; "gs"]
       /\ lookPath w t = true /\ tr_err (runTool w t args) = None.
Proof.
  intros Hreq Hdo Hst. cbv zeta.
  destruct (DorkerGoodNew.CapturePDF w timeout url out tempDir st) as [res st'] eqn:Hrun.
  cbn [fst snd]. unfold DorkerGoodNew.CapturePDF in Hrun.
  destruct (mkdirErr w tempDir); [injection Hrun as <- _; discriminate|].
  rewrite Hreq, Hdo, Hst in Hrun. cbn [Z.eqb Pos.eqb negb] in Hrun. cbv zeta in Hrun.
  set (tempPDF := filepath.Join tempDir ("temp_" +:+ filepath.Base url +:+ ".pdf")) in *.
  destruct (createErr w tempPDF); [injection Hrun as <- _; discriminate|].
  unfold bind at 1 in Hrun.
  destruct (ioCopy w tempPDF resp st) as [[e|] st1];
    [injection Hrun as <- _; discriminate|].
  unfold bind at 1 in Hrun.
  pose proof (rasterize_nil w out tempPDF st1) as Hr.
  destruct (DorkerGoodNew.rasterize w out tempPDF st1) as [res1 st2].
  cbn [fst snd] in Hr. unfold bind, ret, OS.Remove in Hrun. cbn in Hrun.
  injection Hrun as <- <-. intros ->.
  destruct (Hr eq_refl) as ((f & Hf) & Htool). cbn.
  split; [|split; [apply lookup_delete_eq | exact Htool]].
  exists f. rewrite lookup_delete_ne; [exact Hf|].
  apply tempPDF_is_not_the_image.
Qed.

Lemma new_CapturePDF_success_witness :
  exists f,
    st_fs (snd (DorkerGoodNew.CapturePDF PdfSamples.brokenPdftoppm 10 PdfSamples.url
                  "shots/example.com_report.pdf" PdfSamples.tempDir Samples.emptyState))
      !! "shots/example.com_report.pdf.png" = Some f.
Proof.
  pose proof (new_CapturePDF_success_has_image PdfSamples.brokenPdftoppm 10
                PdfSamples.url "shots/example.com_report.pdf" PdfSamples.tempDir
                Samples.emptyState (PdfSamples.pdfAnswer PdfSamples.smallBody None)) as H.
  cbv zeta in H. destruct H as (Himg & _).
  - reflexivity.
  - reflexivity.
  - reflexivity.
  - vm_compute. reflexivity.
  - exact Himg.
Defined.



(** ** The search client *)

Example Search_sample :
  match Dorker.Search SearchSamples.api Samples.bare SearchSamples.config "site:example.com" 15 with
  | Some (results, err, reqs) =>
      err = None /\ length results = 10%nat
      /\ map Dorker.rq_start reqs = [1; 11] /\ map Dorker.rq_num reqs = [10; 5]
      /\ map Dorker.rq_key reqs = ["good"; "good"]
  | None => False
  end.
Proof. vm_compute. repeat split; reflexivity. Qed.

Section SearchFacts.

Variable api : Dorker.SearchAPI.
Variable w : World.

Lemma addItems_spec (maxResults : Z) (items : list Dorker.Item) (results : list Result) :
  Dorker.addItems w maxResults items results
  = (results
     ++ map (resultOf w)
          (firstn (Z.to_nat (maxResults - Dorker.count results)) items))%list.
Proof.
  revert results. induction items as [|item items IH]; intros results.
  - simpl. rewrite firstn_nil. simpl. now rewrite app_nil_r.
  - cbn [Dorker.addItems]. destruct (Dorker.count results >=? maxResults) eqn:Hfull.
    + apply Z.geb_le in Hfull.
      replace (Z.to_nat (maxResults - Dorker.count results)) with 0%nat by lia.
      simpl. now rewrite app_nil_r.
    + rewrite Z.geb_leb in Hfull. apply Z.leb_gt in Hfull. cbv zeta.
      rewrite IH. unfold Dorker.count in *. rewrite length_app. simpl.
      replace (Z.to_nat (maxResults - Z.of_nat (length results)))
        with (S (Z.to_nat (maxResults - Z.of_nat (length results + 1)))) by lia.
      simpl. rewrite <- app_assoc. reflexivity.
Qed.

Lemma answeredLinks_app (r1 r2 : list Dorker.Request) :
  Dorker.answeredLinks api (r1 ++ r2)
  = (Dorker.answeredLinks api r1 ++ Dorker.answeredLinks api r2)%list.
Proof. unfold Dorker.answeredLinks. apply flat_map_app. Qed.

Lemma map_URL_resultOf (items : list Dorker.Item) :
  map URL (map (resultOf w) items) = map Dorker.Link items.
Proof. rewrite map_map. reflexivity. Qed.

Lemma firstn_own_length {A} (k : nat) (b : list A) :
  firstn (length (firstn k b)) b = firstn k b.
Proof.
  revert k. induction b as [|x b IH]; intros [|k]; simpl; try reflexivity.
  now rewrite IH.
Qed.

Lemma prefix_app_firstn {A} (a b : list A) (k : nat) :
  (a ++ firstn k b)%list = firstn (length (a ++ firstn k b)%list) (a ++ b)%list.
Proof. now rewrite length_app, firstn_app_2, firstn_own_length. Qed.

Variable cred : Dorker.GoogleCredential.
Variable query : string.
Variable maxResults : Z.

(** What the requests of one credential look like. *)
Let sentBy (rq : Dorker.Request) : Prop :=
  1 <= Dorker.rq_num rq <= 10
  /\ Dorker.rq_num rq <= maxResults
  /\ Dorker.rq_q rq = query
  /\ Dorker.rq_key rq = Dorker.APIKey cred
  /\ Dorker.rq_cx rq = Dorker.SearchEngineID cred.

(** The pagination loop ends before its fuel does, within
    [ceil(needed/10)] requests, and what it collects is a prefix of the
    links it was answered with. *)
Lemma paginate_spec (fuel : nat) :
  forall (start : Z) (results : list Result) (lastErr : error)
         (reqs : list Dorker.Request),
  (Z.to_nat (maxResults - Dorker.count results) <= fuel)%nat ->
  map URL results = firstn (length results) (Dorker.answeredLinks api reqs) ->
  (Dorker.count results < maxResults ->
   map URL results = Dorker.answeredLinks api reqs) ->
  (results = [] -> Dorker.answeredLinks api reqs = []) ->
  exists results' lastErr' new,
    Dorker.paginate fuel api w cred query maxResults start results lastErr reqs
    = Some (results', lastErr', (reqs ++ new)%list)
    /\ (exists extra, results' = (results ++ extra)%list)
    /\ Dorker.count results' <= Z.max maxResults (Dorker.count results)
    /\ map URL results'
       = firstn (length results') (Dorker.answeredLinks api (reqs ++ new))
    /\ (results' = [] -> Dorker.answeredLinks api (reqs ++ new) = [])
    /\ Z.of_nat (length new)
       <= (Z.max 0 (maxResults - Dorker.count results) + 9) / 10
    /\ Forall sentBy new.
Proof.
  induction fuel as [|k IH]; intros start results lastErr reqs Hfuel Hpre Hfull Hnil.
  - cbn [Dorker.paginate]. destruct (Dorker.count results <? maxResults) eqn:Hlt.
    + apply Z.ltb_lt in Hlt. lia.
    + apply Z.ltb_ge in Hlt. exists results, lastErr, [].
      rewrite app_nil_r. repeat split; auto;
        try (exists []; now rewrite app_nil_r); try lia;
        try (simpl; apply Z.div_pos; lia).
  - cbn [Dorker.paginate]. destruct (Dorker.count results <? maxResults) eqn:Hlt.
    2:{ apply Z.ltb_ge in Hlt. exists results, lastErr, [].
        rewrite app_nil_r. repeat split; auto;
          try (exists []; now rewrite app_nil_r); try lia;
          try (simpl; apply Z.div_pos; lia). }
    apply Z.ltb_lt in Hlt. cbv zeta.
    set (d := maxResults - Dorker.count results) in *.
    set (rq := Dorker.mkRequest (Dorker.APIKey cred) (Dorker.SearchEngineID cred) query
                 (Dorker.min d 10) start).
    assert (Hcount : 0 <= Dorker.count results) by (unfold Dorker.count; lia).
    assert (Hnum : 1 <= Dorker.min d 10 <= 10 /\ Dorker.min d 10 <= d).
    { unfold Dorker.min. destruct (d <? 10) eqn:E;
        [apply Z.ltb_lt in E | apply Z.ltb_ge in E]; lia. }
    assert (Hsent : sentBy rq).
    { unfold sentBy. cbn. repeat split; try lia; reflexivity. }
    assert (Hone : 1 <= (Z.max 0 d + 9) / 10).
    { apply Z.div_le_lower_bound; lia. }
    specialize (Hfull Hlt).
    assert (Hquiet : forall results' lastErr',
               (match Dorker.listDo api rq with
                | inl _ => [] | inr items => map Dorker.Link items end) = [] ->
               results' = results ->
               exists (r : list Result) (e : error) (new : list Dorker.Request),
                 Some (results', lastErr', (reqs ++ [rq])%list) = Some (r, e, (reqs ++ new)%list)
                 /\ (exists extra, r = (results ++ extra)%list)
                 /\ Dorker.count r <= Z.max maxResults (Dorker.count results)
                 /\ map URL r = firstn (length r) (Dorker.answeredLinks api (reqs ++ new))
                 /\ (r = [] -> Dorker.answeredLinks api (reqs ++ new) = [])
                 /\ Z.of_nat (length new) <= (Z.max 0 d + 9) / 10
                 /\ Forall sentBy new).
    { intros results' lastErr' Hlinks ->. exists results, lastErr', [rq].
      assert (Hsame : Dorker.answeredLinks api (reqs ++ [rq]) = Dorker.answeredLinks api reqs).
      { rewrite answeredLinks_app. unfold Dorker.answeredLinks at 2. simpl.
        rewrite Hlinks. simpl. now rewrite app_nil_r. }
      rewrite Hsame. repeat split; auto;
        try (exists []; now rewrite app_nil_r); try lia; try (simpl; lia). }
    destruct (Dorker.listDo api rq) as [err|items] eqn:Hdo.
    { apply Hquiet; reflexivity. }
    destruct (length items =? 0)%nat eqn:Hempty.
    { apply Nat.eqb_eq in Hempty. apply Hquiet; [|reflexivity].
      destruct items; [reflexivity | discriminate]. }
    apply Nat.eqb_neq in Hempty.
    rewrite addItems_spec. fold d.
    set (taken := firstn (Z.to_nat d) items).
    set (results' := (results ++ map (resultOf w) taken)%list).
    assert (Hlinks : Dorker.answeredLinks api (reqs ++ [rq])
                     = (map URL results ++ map Dorker.Link items)%list).
    { rewrite answeredLinks_app, Hfull. unfold Dorker.answeredLinks at 2. simpl.
      rewrite Hdo. now rewrite app_nil_r. }
    assert (Htaken : length taken = Nat.min (Z.to_nat d) (length items))
      by apply length_firstn.
    assert (Hcount' : Dorker.count results' = Dorker.count results + Z.of_nat (length taken)).
    { unfold results', Dorker.count. rewrite length_app, length_map. lia. }
    assert (Hprefix : map URL results'
                      = firstn (length results') (Dorker.answeredLinks api (reqs ++ [rq]))).
    { rewrite Hlinks. unfold results'. rewrite map_app, map_URL_resultOf.
      unfold taken. rewrite <- firstn_map.
      rewrite length_app, length_map, <- (length_map Dorker.Link), <- firstn_map.
      rewrite <- (length_map URL results), <- length_app.
      apply prefix_app_firstn. }
    assert (Hnonempty : results' <> []).
    { intros H0. apply (f_equal (@length Result)) in H0. fold (length results') in H0.
      assert (Dorker.count results' = 0) by (unfold Dorker.count; rewrite H0; reflexivity).
      lia. }
    destruct (Z.of_nat (length items) <? Dorker.min d 10) eqn:Hshort.
    + exists results', lastErr, [rq]. repeat split; auto;
        try (eexists; reflexivity); try lia; try (intros; contradiction);
        try (simpl; lia).
    + apply Z.ltb_ge in Hshort.
      destruct (IH (wrap64 (start + 10)) results' lastErr (reqs ++ [rq])%list)
        as (r & e & new & Hrun & (extra & Hextra) & Hle & Hmap & Hnil' & Hlen & Hall).
      * lia.
      * exact Hprefix.
      * intros Hmore. rewrite Hlinks. unfold results'.
        rewrite map_app, map_URL_resultOf. f_equal. f_equal.
        unfold taken. apply firstn_all2. lia.
      * intros; contradiction.
      * exists r, e, ([rq] ++ new)%list. rewrite app_assoc.
        split; [exact Hrun|]. split.
        { exists (map (resultOf w) taken ++ extra)%list.
          rewrite Hextra. unfold results'. now rewrite <- app_assoc. }
        split; [lia|]. split; [exact Hmap|]. split; [exact Hnil'|]. split.
        { rewrite length_app. simpl length.
          assert (Hstep : (Z.max 0 (maxResults - Dorker.count results') + 9) / 10 + 1
                          <= (Z.max 0 d + 9) / 10).
          { destruct (Z_le_gt_dec (maxResults - Dorker.count results') 0) as [Hdone|Hmore].
            - replace (Z.max 0 (maxResults - Dorker.count results')) with 0 by lia.
              change ((0 + 9) / 10) with 0. lia.
            - assert (10 <= Z.of_nat (length taken)).
              { unfold Dorker.min in Hshort. destruct (d <? 10) eqn:E;
                  [apply Z.ltb_lt in E | apply Z.ltb_ge in E]; lia. }
              replace ((Z.max 0 (maxResults - Dorker.count results') + 9) / 10 + 1)
                with ((Z.max 0 (maxResults - Dorker.count results') + 9 + 1 * 10) / 10)
                by (rewrite Z.div_add by lia; reflexivity).
              apply Z.div_le_mono; lia. }
          lia. }
        { constructor; assumption. }
Qed.

End SearchFacts.

Section CredentialLoop.

Variable api : Dorker.SearchAPI.
Variable w : World.
Variable query : string.
Variable maxResults : Z.

(** The requests one pass over the credentials may add. *)
Let perCredential : Z := (Z.max 0 maxResults + 9) / 10.

Lemma tryCredentials_spec (creds : list Dorker.GoogleCredential) :
  forall (results : list Result) (lastErr : error) (reqs : list Dorker.Request),
  results = [] ->
  Dorker.answeredLinks api reqs = [] ->
  (creds <> [] \/ lastErr <> None) ->
  exists rs err new,
    Dorker.tryCredentials api w query maxResults creds results lastErr reqs
    = Some (rs, err, (reqs ++ new)%list)
    /\ (err = None <-> rs <> [])
    /\ Dorker.count rs <= Z.max 0 maxResults
    /\ map URL rs = firstn (length rs) (Dorker.answeredLinks api (reqs ++ new))
    /\ Z.of_nat (length new) <= Z.of_nat (length creds) * perCredential
    /\ Forall (fun rq => 1 <= Dorker.rq_num rq <= 10
                         /\ Dorker.rq_num rq <= maxResults
                         /\ Dorker.rq_q rq = query
                         /\ In (Dorker.mkCredential (Dorker.rq_key rq) (Dorker.rq_cx rq))
                               creds) new
    /\ (maxResults <= 0 -> rs = [] /\ new = []).
Proof.
  assert (Hper : 0 <= perCredential) by (apply Z.div_pos; lia).
  induction creds as [|cred rest IH]; intros results lastErr reqs -> Hlinks Hsome.
  - destruct lastErr as [e|]; [|destruct Hsome; congruence].
    exists [], (Some e), []. cbn. rewrite app_nil_r.
    repeat split; try congruence; try (intros; discriminate); try lia; auto;
      try (unfold Dorker.count; simpl; lia).
  - cbn [Dorker.tryCredentials].
    destruct (Dorker.newService api (Dorker.APIKey cred)) as [err|].
    + destruct (IH [] (Some err) reqs eq_refl Hlinks)
        as (rs & e & new & Hrun & Hiff & Hle & Hmap & Hlen & Hall & Hzero);
        [right; discriminate|].
      exists rs, e, new. repeat split; try apply Hiff; auto.
      * cbn [length]. rewrite Nat2Z.inj_succ. nia.
      * eapply Forall_impl; [exact Hall|]. cbn. intros rq ((? & ?) & ? & ? & ?).
        repeat split; auto.
      * now apply Hzero.
      * now apply Hzero.
    + destruct (paginate_spec api w cred query maxResults (Z.to_nat maxResults)
                  1 [] lastErr reqs)
        as (results' & lastErr' & new1 & Hrun & _ & Hle & Hmap & Hnil & Hlen & Hall).
      * unfold Dorker.count. simpl. lia.
      * reflexivity.
      * intros _. now rewrite Hlinks.
      * intros _. exact Hlinks.
      * rewrite Hrun. unfold Dorker.count in Hle, Hlen. simpl length in Hle, Hlen.
        replace (Z.max 0 (maxResults - Z.of_nat 0)) with (Z.max 0 maxResults) in Hlen by lia.
        fold perCredential in Hlen.
        assert (Hsent : Forall (fun rq => 1 <= Dorker.rq_num rq <= 10
                                  /\ Dorker.rq_num rq <= maxResults
                                  /\ Dorker.rq_q rq = query
                                  /\ In (Dorker.mkCredential (Dorker.rq_key rq)
                                           (Dorker.rq_cx rq)) (cred :: rest)) new1).
        { eapply Forall_impl; [exact Hall|]. cbn.
          intros rq ((? & ?) & ? & ? & Hk & Hc). repeat split; auto.
          left. rewrite Hk, Hc. destruct cred; reflexivity. }
        destruct (0 <? length results')%nat eqn:Hany.
        -- apply Nat.ltb_lt in Hany.
           exists results', None, new1. split; [reflexivity|].
           assert (results' <> []) by (intros ->; simpl in Hany; lia).
           repeat split; auto; try (intros; congruence); try (unfold Dorker.count; lia);
             try (cbn [length]; rewrite Nat2Z.inj_succ; nia); try (exfalso; lia).
        -- apply Nat.ltb_ge in Hany.
           assert (results' = []) as -> by (destruct results'; [reflexivity | simpl in Hany; lia]).
           destruct (IH [] (Some "no results found") (reqs ++ new1)%list eq_refl
                       (Hnil eq_refl))
             as (rs & e & new2 & Hrun2 & Hiff & Hle2 & Hmap2 & Hlen2 & Hall2 & Hzero);
             [right; discriminate|].
           exists rs, e, (new1 ++ new2)%list. rewrite app_assoc.
           split; [exact Hrun2|]. split; [exact Hiff|]. split; [exact Hle2|].
           split; [exact Hmap2|]. split; [|split].
           ++ rewrite length_app. cbn [length]. rewrite Nat2Z.inj_succ. nia.
           ++ apply Forall_app. split; [exact Hsent|].
              eapply Forall_impl; [exact Hall2|]. cbn. intros rq ((? & ?) & ? & ? & ?).
              repeat split; auto.
           ++ intros Hz. destruct (Hzero Hz) as [-> ->]. split; [reflexivity|].
              assert (perCredential = 0).
              { unfold perCredential. replace (Z.max 0 maxResults) with 0 by lia.
                reflexivity. }
              destruct new1; [reflexivity | simpl in Hlen; lia].
Qed.

End CredentialLoop.

(** X13.  [Search] always returns: per credential the pagination loop
    sends at most [ceil(maxResults/10)] requests.  Every request asks for
    between 1 and 10 items, never more than [maxResults], carries the
    query unchanged and uses a credential of the configuration. *)
Theorem Search_stays_within_quota
    (api : Dorker.SearchAPI) (w : World) (config : Dorker.Config)
    (query : string) (maxResults : Z) :
  match Dorker.Search api w config query maxResults with
  | None => False
  | Some (_, _, reqs) =>
      Z.of_nat (length reqs)
      <= Z.of_nat (length (Dorker.Google config)) * ((Z.max 0 maxResults + 9) / 10)
      /\ Forall (wellFormed config query maxResults) reqs
  end.
Proof.
  unfold Dorker.Search. destruct (Dorker.Google config) as [|cred rest] eqn:Hcfg.
  - cbn. split; [lia | constructor].
  - cbn [length Nat.eqb].
    destruct (tryCredentials_spec api w query maxResults (cred :: rest) [] None []
                eq_refl eq_refl)
      as (rs & e & new & Hrun & _ & _ & _ & Hlen & Hall & _); [left; discriminate|].
    rewrite Hrun. cbn [app]. split; [exact Hlen|].
    eapply Forall_impl; [exact Hall|]. unfold wellFormed. rewrite Hcfg. tauto.
Qed.

(** X14.  [Search] returns no error exactly when it returns results.
    It never returns more than [maxResults] of them, and their URLs are,
    in order and without gaps, the first links of the items the service
    answered with. *)
Theorem Search_results_are_a_bounded_prefix
    (api : Dorker.SearchAPI) (w : World) (config : Dorker.Config)
    (query : string) (maxResults : Z) :
  match Dorker.Search api w config query maxResults with
  | None => False
  | Some (results, err, reqs) =>
      (err = None <-> results <> [])
      /\ Dorker.count results <= Z.max 0 maxResults
      /\ map URL results = firstn (length results) (Dorker.answeredLinks api reqs)
  end.
Proof.
  unfold Dorker.Search. destruct (Dorker.Google config) as [|cred rest] eqn:Hcfg.
  - cbn. repeat split; try congruence; try lia; try (intros; discriminate);
      try (unfold Dorker.count; simpl; lia).
  - cbn [length Nat.eqb].
    destruct (tryCredentials_spec api w query maxResults (cred :: rest) [] None []
                eq_refl eq_refl)
      as (rs & e & new & Hrun & Hiff & Hle & Hmap & _); [left; discriminate|].
    rewrite Hrun. cbn [app] in *. auto.
Qed.

(** X15.  Edge cases of [Search]: without credentials it fails with "no
    Google API credentials configured"; asked for zero results or fewer,
    it sends no request and returns an error, not an empty success. *)
Theorem Search_edge_cases
    (api : Dorker.SearchAPI) (w : World) (config : Dorker.Config)
    (query : string) (maxResults : Z) :
  (Dorker.Google config = [] ->
   Dorker.Search api w config query maxResults
   = Some ([], Some "no Google API credentials configured", []))
  /\ (maxResults <= 0 ->
      exists e, Dorker.Search api w config query maxResults = Some ([], Some e, [])).
Proof.
  split.
  - intros Hcfg. unfold Dorker.Search. now rewrite Hcfg.
  - intros Hz. unfold Dorker.Search.
    destruct (Dorker.Google config) as [|cred rest] eqn:Hcfg.
    + eexists. reflexivity.
    + cbn [length Nat.eqb].
      destruct (tryCredentials_spec api w query maxResults (cred :: rest) [] None []
                  eq_refl eq_refl)
        as (rs & e & new & Hrun & Hiff & _ & _ & _ & _ & Hzero); [left; discriminate|].
      destruct (Hzero Hz) as [-> ->]. rewrite Hrun.
      destruct e as [e|]; [exists e; reflexivity|].
      exfalso. now apply Hiff.
Qed.

(** ** The batch *)

Section Batch.

Variable w : World.

Lemma keepsFiles_ret {A} (a : A) : keepsFiles (ret a).
Proof. intros st q H. exact H. Qed.

Lemma keepsFiles_bind {A B} (m : M A) (k : A -> M B) :
  keepsFiles m -> (forall a, keepsFiles (k a)) -> keepsFiles (bind m k).
Proof.
  intros Hm Hk st q H. unfold bind. specialize (Hm st q H).
  destruct (m st) as [a st1]. now apply Hk.
Qed.

Lemma keepsFiles_cmdRun (tool : string) (args : list string) (out : string) :
  keepsFiles (cmdRun w tool args out).
Proof.
  intros st q H. unfold cmdRun. cbn.
  destruct (tr_written _); [|exact H].
  destruct (decide (out = q)) as [->|Hne];
    [rewrite lookup_insert_eq; eauto | now rewrite lookup_insert_ne].
Qed.

Lemma keepsFiles_saveImage (img : Image) (out : string) :
  keepsFiles (Screenshotter.saveImage w img out).
Proof.
  intros st q H. unfold Screenshotter.saveImage, bind, ret, OS.Put.
  destruct (createErr w out); [exact H|].
  destruct (writeErr w out) as [[e n]|]; cbn;
    (destruct (decide (out = q)) as [->|Hne];
     [rewrite lookup_insert_eq; eauto | now rewrite lookup_insert_ne]).
Qed.

Lemma keepsFiles_pageRender (s : Screenshotter.Screenshotter) (url out : string) :
  keepsFiles (Screenshotter.captureWithPageRender w s url out).
Proof.
  intros st q H. rewrite captureWithPageRender_generate.
  destruct (Screenshotter.pageRenderCall w s url); cbn;
    now apply keepsFiles_saveImage.
Qed.

Lemma keepsFiles_renderer (tool : string) (args : list string) (out msg : string) :
  keepsFiles (Screenshotter.tryRenderer w tool
                (err <- cmdRun w tool args out ;;
                 match err with
                 | Some e => ret (Some (Errorf msg e))
                 | None => ret None
                 end)).
Proof.
  unfold Screenshotter.tryRenderer. destruct (lookPath w tool); [|apply keepsFiles_ret].
  repeat (apply keepsFiles_bind; [|intros]); try apply keepsFiles_ret.
  - apply keepsFiles_cmdRun.
  - destruct a; apply keepsFiles_ret.
Qed.

(** [Capture] deletes no file. *)
Lemma keepsFiles_Capture (s : Screenshotter.Screenshotter) (url out : string) :
  keepsFiles (Screenshotter.Capture w s url out).
Proof.
  unfold Screenshotter.Capture.
  apply keepsFiles_bind; [apply keepsFiles_renderer|]. intros [|]; [apply keepsFiles_ret|].
  apply keepsFiles_bind; [apply keepsFiles_renderer|]. intros [|]; [apply keepsFiles_ret|].
  apply keepsFiles_bind; [apply keepsFiles_renderer|]. intros [|]; [apply keepsFiles_ret|].
  apply keepsFiles_pageRender.
Qed.

(** Apart from the artifact and its temporary path, [optimizeImageSize]
    leaves the disk as it was. *)
Lemma optimizeImageSize_frame (p : string) (kb : Z) (st : State) (q : string) :
  q <> p -> q <> p +:+ ".tmp.jpg" ->
  st_fs (snd (Main.optimizeImageSize w p kb st)) !! q = st_fs st !! q.
Proof.
  intros Hq1 Hq2.
  destruct (Main.optimizeImageSize w p kb st) as [e st'] eqn:Hrun. cbn [snd].
  unfold Main.optimizeImageSize, bind at 1, getFileSize at 1, OS.Stat in Hrun.
  destruct (st_fs st !! p) as [f|]; cbn in Hrun; [|injection Hrun as _ <-; reflexivity].
  destruct (f_size f <=? wrap64 (kb * 1024)); [injection Hrun as _ <-; reflexivity|].
  unfold bind at 1 in Hrun.
  pose proof (cmdRun_other w "convert"
                [p; "-quality"; "60"; "-resize"; "50%"; p +:+ ".tmp.jpg"]
                (p +:+ ".tmp.jpg") st q Hq2) as Hother.
  destruct (cmdRun w "convert" _ (p +:+ ".tmp.jpg") st) as [[err|] st1];
    cbn [snd] in Hother; [injection Hrun as _ <-; exact Hother|].
  unfold bind, ret, getFileSize, OS.Stat, OS.Remove, OS.Rename in Hrun. cbn in Hrun.
  destruct (st_fs st1 !! (p +:+ ".tmp.jpg")) as [g|] eqn:Htmp; cbn in Hrun.
  - destruct (f_size g <? wrap64 (kb * 1024)); cbn in Hrun.
    + rewrite lookup_delete_ne in Hrun by apply tmp_jpg_neq. rewrite Htmp in Hrun.
      injection Hrun as _ <-. cbn.
      now rewrite lookup_insert_ne, !lookup_delete_ne by congruence.
    + injection Hrun as _ <-. cbn. now rewrite lookup_delete_ne by congruence.
  - injection Hrun as _ <-. cbn. now rewrite lookup_delete_ne by congruence.
Qed.

(** [optimizeImageSize] deletes nothing but its temporary file. *)
Lemma optimizeImageSize_keeps (p : string) (kb : Z) (st : State) (q : string) :
  q <> p +:+ ".tmp.jpg" ->
  is_Some (st_fs st !! q) ->
  is_Some (st_fs (snd (Main.optimizeImageSize w p kb st)) !! q).
Proof.
  intros Hq [f Hf]. destruct (decide (q = p)) as [->|Hne].
  - destruct (optimizeImageSize_outcome w p kb st f Hf)
      as (_ & [H|(_ & _ & g & _ & Hg & _)]); eauto.
  - rewrite optimizeImageSize_frame by assumption. eauto.
Qed.

Lemma png_is_not_a_temporary_path (q p : string) :
  HasSuffix q ".png" = true -> q <> p +:+ ".tmp.jpg".
Proof.
  intros Hq. apply (suffixes_differ _ _ ".png" ".jpg");
    [reflexivity | discriminate | exact Hq |].
  apply HasSuffix_app. reflexivity.
Qed.

(** The loop of [captureScreenshots] deletes no ".png" file. *)
Lemma captureLoop_keeps (s : Screenshotter.Screenshotter) (dir : string)
    (results : list Result) :
  forall st q, HasSuffix q ".png" = true ->
  is_Some (st_fs st !! q) ->
  is_Some (st_fs (snd (Main.captureLoop w s dir results st)) !! q).
Proof.
  induction results as [|r rest IH]; intros st q Hq Hsome; [exact Hsome|].
  cbn [Main.captureLoop]. cbv zeta. unfold bind at 1.
  pose proof (keepsFiles_Capture s (URL r)
                (filepath.Join dir (Main.sanitizeFilename (URL r) +:+ ".png")) st q Hsome)
    as Hcap.
  destruct (Screenshotter.Capture w s (URL r) _ st) as [[e|] st1]; cbn [snd] in Hcap.
  - now apply IH.
  - unfold bind.
    pose proof (optimizeImageSize_keeps
                  (filepath.Join dir (Main.sanitizeFilename (URL r) +:+ ".png")) 120 st1 q
                  (png_is_not_a_temporary_path q _ Hq) Hcap) as Hopt.
    destruct (Main.optimizeImageSize w _ 120 st1) as [e st2]. now apply IH.
Qed.

Hypothesis sound_disk : forall p, createErr w p = None /\ writeErr w p = None.
Hypothesis renderers_write :
  forall t args, In t ["wkhtmltoimage"; "google-chrome"; "chromium"] ->
                 tr_err (runTool w t args) = None ->
                 tr_written (runTool w t args) <> None.

Lemma tryRenderer_writes (tool : string) (args : list string) (out : string)
    (k : error -> M error) (st : State) :
  In tool ["wkhtmltoimage"; "google-chrome"; "chromium"] ->
  (forall err st0, snd (k err st0) = st0 /\ (fst (k err st0) = None <-> err = None)) ->
  let r := Screenshotter.tryRenderer w tool (bind (cmdRun w tool args out) k) st in
  fst r = true -> is_Some (st_fs (snd r) !! out).
Proof.
  intros Hin Hk. cbv zeta. unfold Screenshotter.tryRenderer.
  destruct (lookPath w tool); [|discriminate].
  unfold bind, ret, cmdRun.
  pose proof (renderers_write tool args Hin) as Hw.
  match goal with
  | |- context [k ?e ?s0] => destruct (Hk e s0) as [Hst Hiff]; destruct (k e s0) as [r st1]
  end.
  cbn [fst snd] in *. subst st1.
  destruct r as [e|]; [discriminate|]. intros _.
  assert (Herr : tr_err (runTool w tool args) = None) by now apply Hiff.
  destruct (tr_written (runTool w tool args)); [|now destruct Hw].
  cbn. rewrite lookup_insert_eq. eauto.
Qed.

(** On a sound disk, with renderers that write what they report as
    done, [Capture] returns [nil] and leaves a file at the output path. *)
Lemma Capture_creates (s : Screenshotter.Screenshotter) (url out : string) (st : State) :
  fst (Screenshotter.Capture w s url out st) = None
  /\ is_Some (st_fs (snd (Screenshotter.Capture w s url out st)) !! out).
Proof.
  destruct (Screenshotter.Capture w s url out st) as [res st'] eqn:Hrun. cbn [fst snd].
  unfold Screenshotter.Capture, Screenshotter.captureWithWkhtmltoimage,
    Screenshotter.captureWithChrome, Screenshotter.captureWithChromium in Hrun.
  repeat (unfold bind at 1 in Hrun;
          match type of Hrun with
          | context [Screenshotter.tryRenderer w ?t (bind (cmdRun w ?t ?a ?o) ?k) ?s0] =>
              pose proof (tryRenderer_writes t a o k s0) as Ht;
              destruct (Screenshotter.tryRenderer w t (bind (cmdRun w t a o) k) s0)
                as [[|] ?];
              cbn [fst snd] in Ht;
              [injection Hrun as <- <-; split;
               [reflexivity
               | apply Ht;
                 [simpl; tauto
                 | intros [?|] ?; split; [reflexivity | split; discriminate
                                         | reflexivity | split; reflexivity]
                 | reflexivity]]
              | clear Ht]
          end).
  cbv beta iota zeta in Hrun. rewrite captureWithPageRender_generate in Hrun.
  match type of Hrun with
  | Screenshotter.generate w out ?g ?s0 = _ =>
      pose proof (generate_spec w out g s0) as (_ & _ & _ & Hok);
      pose proof (generate_writes w out g s0) as Hfile;
      rewrite Hrun in Hok, Hfile; cbn [fst snd] in Hok, Hfile
  end.
  assert (res = None) as -> by (apply Hok; apply sound_disk).
  split; [reflexivity|]. rewrite Hfile by reflexivity. eauto.
Qed.

Lemma captureLoop_creates (s : Screenshotter.Screenshotter) (dir : string)
    (results : list Result) :
  forall st r, In r results ->
  is_Some (st_fs (snd (Main.captureLoop w s dir results st))
             !! filepath.Join dir (Main.sanitizeFilename (URL r) +:+ ".png")).
Proof.
  induction results as [|r0 rest IH]; intros st r Hin; [destruct Hin|].
  cbn [Main.captureLoop]. cbv zeta. unfold bind at 1.
  destruct (Capture_creates s (URL r0)
              (filepath.Join dir (Main.sanitizeFilename (URL r0) +:+ ".png")) st)
    as [Hnil Hfile].
  destruct (Screenshotter.Capture w s (URL r0) _ st) as [res st1].
  cbn [fst snd] in Hnil, Hfile. subst res. unfold bind.
  pose proof (optimizeImageSize_keeps
                (filepath.Join dir (Main.sanitizeFilename (URL r0) +:+ ".png")) 120 st1 _
                (png_is_not_a_temporary_path _ _ (output_path_png dir (URL r0))) Hfile)
    as Hopt.
  destruct (Main.optimizeImageSize w _ 120 st1) as [e st2]. cbn [snd] in Hopt.
  destruct Hin as [<-|Hin].
  - apply captureLoop_keeps; [apply output_path_png | exact Hopt].
  - now apply IH.
Qed.

End Batch.

(** X16.  On a disk where files can be created and written, and with
    renderers that leave their output file whenever they exit with status
    0, [captureScreenshots] ends with an artifact file at the output path
    of every target of the batch: no target is skipped, and no later
    target's capture or optimization deletes an earlier target's file. *)
Theorem batch_leaves_an_artifact_per_target
    (w : World) (results : list Result) (dir : string) (timeout : Z) (verbose : bool)
    (st : State) :
  (forall p, createErr w p = None /\ writeErr w p = None) ->
  (forall t args, In t ["wkhtmltoimage"; "google-chrome"; "chromium"] ->
                  tr_err (runTool w t args) = None ->
                  tr_written (runTool w t args) <> None) ->
  forall r, In r results ->
    exists f,
      st_fs (snd (Main.captureScreenshots w results dir timeout verbose st))
        !! filepath.Join dir (Main.sanitizeFilename (URL r) +:+ ".png") = Some f.
Proof.
  intros Hdisk Htools r Hin. unfold Main.captureScreenshots.
  apply (captureLoop_creates w Hdisk Htools _ dir results st r Hin).
Qed.

Lemma batch_leaves_an_artifact_per_target_witness :
  exists f,
    st_fs (snd (Main.captureScreenshots BatchSamples.renderer
                  [BatchSamples.result BatchSamples.first;
                   BatchSamples.result "http://example.org/"]
                  "shots" 10 true Samples.emptyState))
      !! "shots/example.org_.png" = Some f.
Proof.
  destruct (batch_leaves_an_artifact_per_target BatchSamples.renderer
              [BatchSamples.result BatchSamples.first;
               BatchSamples.result "http://example.org/"]
              "shots" 10 true Samples.emptyState) with
    (r := BatchSamples.result "http://example.org/") as [f Hf].
  - intros p. split; reflexivity.
  - intros t args _ Herr.
    unfold BatchSamples.renderer, Samples.withTools in *. cbn [runTool] in *.
    destruct (existsb (String.eqb t) ["wkhtmltoimage"]);
      [cbn; discriminate | cbn in Herr; discriminate Herr].
  - simpl. right. left. reflexivity.
  - exists f. exact Hf.
Defined.

(** ** Text utilities *)

Example text_samples :
  Text.extractKeywords TextSamples.noTables "site:example.com ext:pdf confidential"
  = ["confidential"]
  /\ Text.extractKeywords TextSamples.noTables "SITE:example.com  'annual report'  Ext:PDF"
     = ["annual"; "report"]
  /\ Text.extractKeywords TextSamples.noTables "site:example.com ext:pdf" = [""]
  /\ Text.extractKeywords TextSamples.noTables "" = [""]
  /\ Text.extractTargetDomain TextSamples.noTables "ext:pdf Site:Example.COM/docs budget"
     = "example.comdocs"
  /\ Text.extractTargetDomain TextSamples.noTables "site:'' site:b.org" = "b.org"
  /\ Text.extractTargetDomain TextSamples.noTables "budget report" = ""
  /\ Text.truncate "abcdef" 3 = Some "abc..."
  /\ Text.truncate "abc" 3 = Some "abc"
  /\ Text.truncate "abc" (-1) = None.
Proof. vm_compute. repeat split; reflexivity. Qed.

Section TextFacts.

Variable u : Unicode.

Lemma filterBytes_allChars (P : ascii -> bool) (s : string) :
  allChars P (Text.filterBytes P s) = true.
Proof.
  induction s as [|c s IH]; simpl; [reflexivity|].
  destruct (P c) eqn:Hc; simpl; [rewrite Hc|]; auto.
Qed.

Lemma targetDomainOf_class (parts : list string) :
  allChars Text.inDomainClass (Text.targetDomainOf u parts) = true.
Proof.
  induction parts as [|part rest IH]; simpl; [reflexivity|].
  destruct (HasPrefix (Text.ToLower u part) "site:"); [|exact IH].
  destruct (String.eqb _ ""); simpl; [exact IH|].
  apply filterBytes_allChars.
Qed.

Lemma inDomainClass_notSlash (c : ascii) :
  Text.inDomainClass c = true -> notSlash c = true.
Proof.
  unfold notSlash. destruct (Ascii.eqb_spec c "/") as [->|]; [|reflexivity].
  vm_compute. discriminate.
Qed.

Lemma TrimLeft_fixed (s : string) (cut : ascii -> bool) :
  Text.TrimLeft (Text.TrimLeft s cut) cut = Text.TrimLeft s cut.
Proof.
  induction s as [|c s IH]; simpl; [reflexivity|].
  destruct (cut c) eqn:Hc; [exact IH|]. simpl. now rewrite Hc.
Qed.

Lemma TrimRight_fixed (s : string) (cut : ascii -> bool) :
  Text.TrimRight (Text.TrimRight s cut) cut = Text.TrimRight s cut.
Proof.
  induction s as [|c s IH]; simpl; [reflexivity|].
  destruct (Text.TrimRight s cut) as [|d r] eqn:Hr.
  - destruct (cut c) eqn:Hc; simpl; [reflexivity|]. now rewrite Hc.
  - change (Text.TrimRight (String c (String d r)) cut)
      with (match Text.TrimRight (String d r) cut with
            | EmptyString => if cut c then EmptyString else String c EmptyString
            | t' => String c t'
            end).
    rewrite IH. reflexivity.
Qed.

Lemma TrimRight_keeps_head (s : string) (cut : ascii -> bool) :
  Text.TrimLeft s cut = s -> Text.TrimLeft (Text.TrimRight s cut) cut = Text.TrimRight s cut.
Proof.
  destruct s as [|c s]; simpl; [reflexivity|].
  destruct (cut c) eqn:Hc.
  - intros H. exfalso.
    assert (Hlen : forall t, (String.length (Text.TrimLeft t cut) <= String.length t)%nat).
    { induction t as [|e t IHt]; simpl; [lia|]. destruct (cut e); simpl; lia. }
    specialize (Hlen s). rewrite H in Hlen. simpl in Hlen. lia.
  - intros _. destruct (Text.TrimRight s cut); simpl; now rewrite Hc.
Qed.

Lemma TrimQuotes_fixed (s : string) :
  Text.TrimQuotes (Text.TrimQuotes s) = Text.TrimQuotes s.
Proof.
  unfold Text.TrimQuotes.
  rewrite (TrimRight_keeps_head (Text.TrimLeft s Text.isQuote)) by apply TrimLeft_fixed.
  apply TrimRight_fixed.
Qed.

Lemma keywordsOf_trimmed (parts acc : list string) :
  Forall (fun k => k <> "" /\ Text.TrimQuotes k = k) acc ->
  Forall (fun k => k <> "" /\ Text.TrimQuotes k = k) (Text.keywordsOf u parts acc).
Proof.
  revert acc. induction parts as [|part rest IH]; intros acc Hacc; simpl; [exact Hacc|].
  destruct (Text.isOperator u part); [now apply IH|].
  destruct (String.eqb_spec (Text.TrimQuotes part) "") as [He|Hne]; simpl; [now apply IH|].
  apply IH. apply Forall_app. split; [exact Hacc|].
  constructor; [|constructor]. split; [exact Hne|apply TrimQuotes_fixed].
Qed.

(** X18. [extractKeywords] never returns an empty list: a query without a
    keyword gives the list with the empty string alone; otherwise every
    keyword is non-empty and has no quote left at either end. *)
Theorem extractKeywords_never_empty (query : string) :
  Text.extractKeywords u query <> []
  /\ (Text.extractKeywords u query = [""]
      \/ Forall (fun k => k <> "" /\ Text.TrimQuotes k = k)
                (Text.extractKeywords u query)).
Proof.
  unfold Text.extractKeywords. cbv zeta.
  pose proof (keywordsOf_trimmed (Text.Fields u query) [] ltac:(constructor)) as H.
  destruct (Text.keywordsOf u (Text.Fields u query) []) as [|k ks]; simpl.
  - split; [discriminate|now left].
  - split; [discriminate|now right].
Qed.

(** X19. The target domain taken from a query holds only lower-case
    letters, digits, dots and hyphens, whatever the query. *)
Theorem extractTargetDomain_class (query : string) :
  allChars Text.inDomainClass (Text.extractTargetDomain u query) = true.
Proof. apply targetDomainOf_class. Qed.

(** X20. The results directory is [results/<domain>], with
    [unknown_target] for a query without a domain, except for the
    domains [.] and [..]: these give [results] itself and the current
    directory. *)
Theorem targetDir_of_domain (query : string) :
  let d := Text.extractTargetDomain u query in
  Text.targetDir u query =
    if String.eqb d "" then "results/unknown_target"
    else if String.eqb d ".." then "."
    else if String.eqb d "." then "results"
    else "results/" +:+ d.
Proof.
  cbv zeta. unfold Text.targetDir. cbv zeta.
  pose proof (targetDomainOf_class (Text.Fields u query)) as Hcls.
  destruct (String.eqb_spec (Text.extractTargetDomain u query) "") as [He|Hne].
  { vm_compute. reflexivity. }
  set (d := Text.extractTargetDomain u query) in *.
  unfold filepath.Join.
  change (String.eqb "results" "") with false. cbv iota.
  destruct (String.eqb_spec d "") as [|_]; [contradiction|].
  unfold filepath.Clean.
  change (filepath.rooted ("results" +:+ "/" +:+ d)) with false. cbv iota.
  rewrite elements_app_slash.
  rewrite (elements_no_slash d)
    by (eapply allChars_impl; [apply inDomainClass_notSlash|exact Hcls]).
  change (filepath.elements "results") with ["results"].
  cbn [app fold_left].
  change (filepath.cleanStep false [] "results") with ["results"].
  unfold filepath.cleanStep.
  destruct (String.eqb_spec d "") as [|_]; [contradiction|].
  destruct (String.eqb_spec d ".") as [->|Hdot]; [reflexivity|].
  destruct (String.eqb_spec d "..") as [->|Hdd]; [reflexivity|].
  cbn [orb]. change (String.eqb "results" "..") with false. cbv iota.
  cbn [rev app filepath.joinSlash]. reflexivity.
Qed.

End TextFacts.

Lemma sliceTo_length_exact (n : nat) (s : string) :
  (n <= String.length s)%nat -> String.length (sliceTo n s) = n.
Proof.
  revert s. induction n as [|n IH]; intros [|c s]; simpl; try lia.
  intros H. rewrite IH; lia.
Qed.

(** X17. [truncate] panics for a negative bound; otherwise it returns a
    short string unchanged and cuts a longer one to the bound followed
    by three dots, so that its result has at most three bytes more than
    the bound. *)
Theorem truncate_length (s : string) (maxLen : Z) :
  match Text.truncate s maxLen with
  | None => maxLen < 0
  | Some r =>
      0 <= maxLen /\ len r <= maxLen + 3
      /\ (if len s <=? maxLen then r = s
          else r = sliceTo (Z.to_nat maxLen) s +:+ "..." /\ len r = maxLen + 3)
  end.
Proof.
  unfold Text.truncate, len.
  destruct (Z.gtb_spec (Z.of_nat (String.length s)) maxLen) as [Hgt|Hle].
  - destruct (Z.ltb_spec maxLen 0) as [Hneg|Hpos]; [exact Hneg|].
    destruct (Z.leb_spec (Z.of_nat (String.length s)) maxLen) as [|_]; [lia|].
    rewrite append_length, sliceTo_length_exact by lia. simpl String.length.
    repeat split; try lia.
  - destruct (Z.leb_spec (Z.of_nat (String.length s)) maxLen) as [_|]; [|lia].
    repeat split; lia.
Qed.

Section KeywordPieces.

Variable u : Unicode.

Lemma append_nil_r (s : string) : s +:+ "" = s.
Proof.
  induction s as [|c s IH]; [reflexivity|].
  rewrite append_cons, IH. reflexivity.
Qed.

Lemma asciiFields_pieces (s : string) (cur : option string) (f : string) :
  In f (Text.asciiFields cur s) ->
  exists a b, match cur with Some g => g | None => "" end +:+ s = a +:+ f +:+ b.
Proof.
  revert cur. induction s as [|c s IH]; intros cur Hin; cbn [Text.asciiFields] in Hin.
  - destruct cur as [g|]; [|destruct Hin].
    destruct Hin as [<-|[]]. exists "", "". cbv beta iota.
    rewrite !append_nil_r. reflexivity.
  - destruct (Text.asciiSpace c).
    + destruct cur as [g|]; cbv beta iota.
      * destruct Hin as [<-|Hin].
        -- exists "", (String c s). reflexivity.
        -- destruct (IH None Hin) as (a & b & Hab). cbv beta iota in Hab.
           change ("" +:+ s) with s in Hab.
           exists (g +:+ String c a), b.
           rewrite append_assoc, append_cons, <- Hab. reflexivity.
      * destruct (IH None Hin) as (a & b & Hab). cbv beta iota in Hab.
        change ("" +:+ s) with s in Hab.
        exists (String c a), b. rewrite append_cons, <- Hab. reflexivity.
    + destruct (IH _ Hin) as (a & b & Hab). exists a, b. rewrite <- Hab.
      destruct cur as [g|]; cbv beta iota; [|reflexivity].
      rewrite append_assoc. reflexivity.
Qed.

Lemma TrimLeft_piece (s : string) (cut : ascii -> bool) :
  exists a, s = a +:+ Text.TrimLeft s cut.
Proof.
  induction s as [|c s [a Ha]]; cbn [Text.TrimLeft]; [now exists ""|].
  destruct (cut c); [|now exists ""].
  exists (String c a). rewrite append_cons, <- Ha. reflexivity.
Qed.

Lemma TrimRight_piece (s : string) (cut : ascii -> bool) :
  exists b, s = Text.TrimRight s cut +:+ b.
Proof.
  induction s as [|c s [b Hb]]; cbn [Text.TrimRight]; [now exists ""|].
  destruct (Text.TrimRight s cut) as [|d r] eqn:Hr.
  - change ("" +:+ b) with b in Hb. subst b. destruct (cut c).
    + now exists (String c s).
    + now exists s.
  - exists b. rewrite append_cons, <- Hb. reflexivity.
Qed.

Lemma TrimQuotes_piece (s : string) :
  exists a b, s = a +:+ Text.TrimQuotes s +:+ b.
Proof.
  unfold Text.TrimQuotes.
  destruct (TrimLeft_piece s Text.isQuote) as [a Ha].
  destruct (TrimRight_piece (Text.TrimLeft s Text.isQuote) Text.isQuote) as [b Hb].
  exists a, b. now rewrite <- Hb.
Qed.

Lemma keywordsOf_from_parts (parts acc : list string) (k : string) :
  In k (Text.keywordsOf u parts acc) ->
  In k acc \/ exists part, In part parts /\ k = Text.TrimQuotes part.
Proof.
  revert acc. induction parts as [|part rest IH]; intros acc Hin; simpl in Hin; [now left|].
  assert (Hrest : In k acc \/ (exists p, In p rest /\ k = Text.TrimQuotes p) ->
                  In k acc \/ exists p, In p (part :: rest) /\ k = Text.TrimQuotes p).
  { intros [H|(p & Hp & Hk)]; [now left|right; exists p; split; [now right|exact Hk]]. }
  destruct (Text.isOperator u part); [now apply Hrest, IH|].
  destruct (negb (String.eqb (Text.TrimQuotes part) "")); [|now apply Hrest, IH].
  destruct (IH _ Hin) as [Hacc|Hex]; [|now apply Hrest; right].
  apply in_app_or in Hacc. destruct Hacc as [Hacc|[<-|[]]]; [now left|].
  right. exists part. split; [now left|reflexivity].
Qed.

(** X21. For a query of ASCII bytes every keyword is a piece of the
    query as it was typed: the bytes of the keyword stand next to each
    other in the query, in the same case. *)
Theorem keywords_are_pieces_of_the_query (query k : string) :
  allChars Text.isASCIIByte query = true ->
  In k (Text.extractKeywords u query) ->
  exists a b, query = a +:+ k +:+ b.
Proof.
  intros Hascii Hin. unfold Text.extractKeywords in Hin. cbv zeta in Hin.
  destruct (Text.keywordsOf u (Text.Fields u query) []) as [|k0 ks] eqn:Hks.
  - simpl in Hin. destruct Hin as [<-|[]]. exists "", query. reflexivity.
  - change ((length (k0 :: ks) =? 0)%nat) with false in Hin. cbv iota in Hin.
    rewrite <- Hks in Hin.
    apply keywordsOf_from_parts in Hin. destruct Hin as [[]|(part & Hpart & ->)].
    unfold Text.Fields in Hpart. rewrite Hascii in Hpart.
    apply asciiFields_pieces in Hpart. destruct Hpart as (a & b & Hab).
    change ("" +:+ query) with query in Hab.
    destruct (TrimQuotes_piece part) as (a' & b' & Hp).
    exists (a +:+ a'), (b' +:+ b). rewrite Hab.
    set (t := Text.TrimQuotes part) in *. clearbody t. subst part.
    rewrite !append_assoc. reflexivity.
Qed.

End KeywordPieces.

Lemma keywords_are_pieces_of_the_query_witness :
  exists a b, "site:x.org 'Annual' report" = a +:+ "Annual" +:+ b.
Proof.
  apply (keywords_are_pieces_of_the_query TextSamples.noTables "site:x.org 'Annual' report" "Annual").
  - reflexivity.
  - vm_compute. left. reflexivity.
Defined.


(** ** extractMatchingLine *)

Example matching_line_samples :
  let nl := String (ascii_of_nat 10) "" in
  let tab := String (ascii_of_nat 9) "" in
  let nbsp := MatchingLine.ofBytes [194; 160] in
  MatchingLine.TrimSpace ("  " +:+ nbsp +:+ tab +:+ "a b" +:+ nl +:+ nbsp) = "a b"
  /\ MatchingLine.splitLines ("a" +:+ nl +:+ nl +:+ "b" +:+ nl) = ["a"; ""; "b"; ""]
  /\ MatchingLine.clean ("a" +:+ tab +:+ tab +:+ " b" +:+ nbsp +:+ MatchingLine.ofBytes [1; 2] +:+ "c")
     = "a b c"
  /\ MatchingLine.extractMatchingLine TextSamples.noTables
       ("tiny" +:+ nl +:+ "short" +:+ nl +:+ "The Annual   Report of 2020") [""]
     = "short"
  /\ MatchingLine.extractMatchingLine TextSamples.noTables
       ("intro" +:+ nl +:+ "The Annual   Report of 2020" +:+ nl +:+ "annual again")
       ["ANNUAL"]
     = "The Annual Report of 2020"
  /\ MatchingLine.extractMatchingLine TextSamples.noTables
       ("%PDF-1.4 header" +:+ nl +:+ "a line of text") ["budget"]
     = "a line of text"
  /\ MatchingLine.extractMatchingLine TextSamples.noTables "abc" ["budget"]
     = "No content extracted".
Proof. vm_compute. repeat split; reflexivity. Qed.

Section MatchingLineFacts.

Variable u : Unicode.

Lemma squeezeControl_class (n : nat) :
  forall (s : string) (inRun : bool),
    (String.length s <= n)%nat ->
    allChars (fun c => negb (MatchingLine.inControlClass c))
             (MatchingLine.squeezeControl inRun s) = true.
Proof.
  induction n as [|n IH]; intros [|c t] inRun Hlen; try reflexivity.
  - simpl in Hlen. lia.
  - simpl in Hlen. cbn [MatchingLine.squeezeControl].
    destruct (MatchingLine.inControlClass c) eqn:Hc.
    + destruct inRun; [apply IH; lia|].
      cbn [allChars]. rewrite IH by lia. reflexivity.
    + destruct t as [|d t']; [cbn [allChars]; now rewrite Hc|].
      destruct (Regexp.between 194 195 c && Regexp.between 128 191 d).
      * simpl in Hlen. destruct inRun; [apply IH; lia|].
        cbn [allChars]. rewrite IH by lia. reflexivity.
      * cbn [allChars]. rewrite Hc. rewrite IH by lia. reflexivity.
Qed.

Lemma notControl_of_classes (c : ascii) :
  MatchingLine.inControlClass c = false ->
  MatchingLine.isReSpace c = false ->
  MatchingLine.notControl c = true.
Proof.
  unfold MatchingLine.inControlClass, MatchingLine.isReSpace, MatchingLine.notControl,
    Regexp.between.
  set (b := Regexp.byteOf c). lia.
Qed.

Lemma squeezeSpace_printable (s : string) (inRun : bool) :
  allChars (fun c => negb (MatchingLine.inControlClass c)) s = true ->
  allChars MatchingLine.notControl (MatchingLine.squeezeSpace inRun s) = true.
Proof.
  revert inRun. induction s as [|c s IH]; intros inRun; simpl; [reflexivity|].
  intros [Hc Hs]%andb_prop. apply negb_true_iff in Hc.
  destruct (MatchingLine.isReSpace c) eqn:Hsp.
  - destruct inRun; [now apply IH|]. cbn [allChars]. now rewrite IH.
  - cbn [allChars]. rewrite (notControl_of_classes c Hc Hsp). now rewrite IH.
Qed.

Lemma cut200_clean (line : string) :
  len (MatchingLine.cut200 (MatchingLine.clean line)) <= 200
  /\ allChars MatchingLine.notControl (MatchingLine.cut200 (MatchingLine.clean line)) = true.
Proof.
  assert (Hp : allChars MatchingLine.notControl (MatchingLine.clean line) = true).
  { apply squeezeSpace_printable. now apply (squeezeControl_class (String.length line)). }
  unfold MatchingLine.cut200.
  destruct (Z.gtb_spec (len (MatchingLine.clean line)) 200) as [Hgt|Hle].
  - split; [|now apply allChars_sliceTo].
    unfold len. pose proof (sliceTo_length 200 (MatchingLine.clean line)). lia.
  - split; [lia|exact Hp].
Qed.

Lemma firstMatch_shape (lines keywords : list string) (r : string) :
  MatchingLine.firstMatch u lines keywords = Some r ->
  exists line, r = MatchingLine.cut200 (MatchingLine.clean line).
Proof.
  induction lines as [|line rest IH]; simpl; [discriminate|].
  destruct (len (MatchingLine.TrimSpace line) <? 5); [exact IH|].
  destruct (existsb _ keywords); [|exact IH].
  intros [= <-]. now eexists.
Qed.

Lemma firstMeaningful_shape (lines : list string) (r : string) :
  MatchingLine.firstMeaningful lines = Some r ->
  exists line, r = MatchingLine.cut200 (MatchingLine.clean line).
Proof.
  induction lines as [|line rest IH]; simpl; [discriminate|].
  destruct ((len (MatchingLine.TrimSpace line) >? 10) && _); [|exact IH].
  intros [= <-]. now eexists.
Qed.

Lemma Contains_empty (s : string) : Contains s "" = true.
Proof. destruct s; reflexivity. Qed.

Lemma firstMatch_with_empty_keyword (lines keywords : list string) :
  In "" keywords ->
  MatchingLine.firstMatch u lines keywords
  = option_map (fun l => MatchingLine.cut200 (MatchingLine.clean l))
      (find (fun l => 5 <=? len l) (map MatchingLine.TrimSpace lines)).
Proof.
  intros Hin. induction lines as [|line rest IH]; simpl; [reflexivity|].
  destruct (Z.ltb_spec (len (MatchingLine.TrimSpace line)) 5) as [Hlt|Hge].
  - destruct (Z.leb_spec 5 (len (MatchingLine.TrimSpace line))); [lia|exact IH].
  - destruct (Z.leb_spec 5 (len (MatchingLine.TrimSpace line))); [|lia].
    assert (Hex : existsb (fun keyword =>
                Contains (Text.ToLower u (MatchingLine.clean (MatchingLine.TrimSpace line)))
                         (Text.ToLower u keyword)) keywords = true).
    { apply existsb_exists. exists "". split; [exact Hin|]. apply Contains_empty. }
    rewrite Hex. reflexivity.
Qed.

Lemma firstMeaningful_none (lines : list string) :
  find (fun l => 5 <=? len l) (map MatchingLine.TrimSpace lines) = None ->
  MatchingLine.firstMeaningful lines = None.
Proof.
  induction lines as [|line rest IH]; simpl; [reflexivity|].
  destruct (Z.leb_spec 5 (len (MatchingLine.TrimSpace line))); [discriminate|].
  destruct (Z.gtb_spec (len (MatchingLine.TrimSpace line)) 10); [lia|]. exact IH.
Qed.

(** X22. The matching line of a result has at most 200 bytes and holds
    no control byte (nothing below [0x20], no [0x7F]), whatever the
    content and the keywords. *)
Theorem matching_line_is_short_and_printable (content : string) (keywords : list string) :
  len (MatchingLine.extractMatchingLine u content keywords) <= 200
  /\ allChars MatchingLine.notControl
       (MatchingLine.extractMatchingLine u content keywords) = true.
Proof.
  unfold MatchingLine.extractMatchingLine. cbv zeta.
  destruct (MatchingLine.firstMatch u _ keywords) as [r|] eqn:Hm.
  - apply firstMatch_shape in Hm. destruct Hm as [line ->]. apply cut200_clean.
  - destruct (MatchingLine.firstMeaningful _) as [r|] eqn:Hf.
    + apply firstMeaningful_shape in Hf. destruct Hf as [line ->]. apply cut200_clean.
    + split; vm_compute; [discriminate|reflexivity].
Qed.

(** X23. When the empty keyword is among the keywords, as it is for a
    query without keywords, no matching takes place: the first line of
    at least five bytes (once trimmed) is returned, cleaned and cut, and
    without such a line the text [No content extracted]. *)
Theorem empty_keyword_matches_every_line (content : string) (keywords : list string) :
  In "" keywords ->
  MatchingLine.extractMatchingLine u content keywords
  = match find (fun l => 5 <=? len l)
                (map MatchingLine.TrimSpace (MatchingLine.splitLines content)) with
    | Some l => MatchingLine.cut200 (MatchingLine.clean l)
    | None => "No content extracted"
    end.
Proof.
  intros Hin. unfold MatchingLine.extractMatchingLine. cbv zeta.
  rewrite (firstMatch_with_empty_keyword _ _ Hin).
  destruct (find _ _) as [l|] eqn:Hf; simpl; [reflexivity|].
  now rewrite (firstMeaningful_none _ Hf).
Qed.

End MatchingLineFacts.

Lemma empty_keyword_matches_every_line_witness :
  MatchingLine.extractMatchingLine TextSamples.noTables
    ("tiny" +:+ String (ascii_of_nat 10) "short line")
    (Text.extractKeywords TextSamples.noTables "site:example.com ext:pdf")
  = "short line".
Proof.
  etransitivity.
  - apply (empty_keyword_matches_every_line TextSamples.noTables
             ("tiny" +:+ String (ascii_of_nat 10) "short line")
             (Text.extractKeywords TextSamples.noTables "site:example.com ext:pdf")).
    vm_compute. left. reflexivity.
  - vm_compute. reflexivity.
Defined.

(** ** dorkergoodnew: the loop of captureScreenshots *)

Lemma contentExt_nonempty (ct : string) : PageContent.contentExt ct <> "".
Proof.
  unfold PageContent.contentExt.
  destruct (negb _); [|discriminate].
  repeat (destruct (PageContent.contains ct _); [discriminate|]). discriminate.
Qed.

Lemma capturePageContent_written (w : World) (timeout : Z) (url out : string) (st : State) :
  let r := PageContent.capturePageContent w timeout url out st in
  st_fs (snd r) !! out = st_fs st !! out
  /\ (fst r = None ->
      exists ext f, ext <> "" /\ st_fs (snd r) !! (out +:+ ext) = Some f).
Proof.
  cbv zeta. unfold PageContent.capturePageContent.
  assert (Herr : forall title detail,
           let r := DorkerGoodNew.createErrorFile w out title detail st in
           st_fs (snd r) !! out = st_fs st !! out
           /\ (fst r = None ->
               exists ext f, ext <> "" /\ st_fs (snd r) !! (out +:+ ext) = Some f)).
  { intros title detail. unfold DorkerGoodNew.createErrorFile.
    destruct (WriteFile_spec w (out +:+ ".err")
                ("ERROR: " +:+ title +:+ DorkerGoodNew.nl +:+ "Details: " +:+ detail
                 +:+ DorkerGoodNew.nl) st) as (_ & H2 & H3 & _).
    cbv zeta. split; [apply H2, append_neq; discriminate|].
    intros Hok. exists ".err". eexists. split; [discriminate|].
    rewrite (H3 Hok), lookup_insert_eq. reflexivity. }
  destruct (newRequestErr w url) as [e|]; [apply Herr|].
  destruct (clientDo w timeout url) as [e|resp]; [apply Herr|].
  destruct (negb (resp_status resp =? 200)); [apply Herr|].
  destruct (readAllLimited PageContent.pageLimit resp) as [content [e|]]; [apply Herr|].
  destruct (saveContent_spec w out content (resp_content_type resp) url st)
    as (_ & H2 & H3 & _).
  split; [apply H2, append_neq, contentExt_nonempty|].
  intros Hok. exists (PageContent.contentExt (resp_content_type resp)). eexists.
  split; [apply contentExt_nonempty|].
  rewrite (H3 Hok), lookup_insert_eq. reflexivity.
Qed.

(** X24. In the loop of [captureScreenshots] of dorkergoodnew the size
    printed for a saved page is read at the path without the extension,
    where the capture never writes: a file was saved under an extension,
    and the size shown is that of whatever was at the bare path before
    the capture, 0 when nothing was. *)
Theorem saved_page_size_is_read_at_the_bare_path
    (w : World) (timeout : Z) (outputDir : string) (result : Result) (st : State)
    (size : Z) :
  fst (NewBatch.captureOne w timeout outputDir result st) = Some size ->
  let filePath := filepath.Join outputDir (Main.sanitizeFilename (URL result)) in
  size = match st_fs st !! filePath with Some f => f_size f | None => 0 end
  /\ exists ext f,
       ext <> ""
       /\ st_fs (snd (NewBatch.captureOne w timeout outputDir result st))
            !! (filePath +:+ ext) = Some f.
Proof.
  cbv zeta. unfold NewBatch.captureOne, PageContent.Capture. cbv zeta.
  set (filePath := filepath.Join outputDir (Main.sanitizeFilename (URL result))).
  destruct (capturePageContent_written w timeout (URL result) filePath st) as [Hsame Hnew].
  unfold bind at 1 3.
  destruct (PageContent.capturePageContent w timeout (URL result) filePath st)
    as [[e|] st1]; cbn [fst snd] in *; [discriminate|].
  unfold bind, getFileSize, OS.Stat, ret. cbn [fst snd].
  rewrite Hsame. intros [= <-]. split.
  - destruct (st_fs st !! filePath); reflexivity.
  - apply Hnew. reflexivity.
Qed.

Lemma saved_page_size_is_read_at_the_bare_path_witness :
  0 = 0
  /\ exists ext f,
       ext <> ""
       /\ st_fs (snd (NewBatch.captureOne NewBatchSamples.server 10 "shots"
                        (BatchSamples.result PdfSamples.url) Samples.emptyState))
            !! ("shots/example.com_report.pdf" +:+ ext) = Some f.
Proof.
  apply (saved_page_size_is_read_at_the_bare_path NewBatchSamples.server 10 "shots"
           (BatchSamples.result PdfSamples.url) Samples.emptyState 0).
  vm_compute. reflexivity.
Defined.
